(** * HaloLight API (Bun): the authentication and token-lifecycle flow

    A shallow embedding of
      - the token issuer, which the services import as [../utils/jwt]
        (its text follows the request logger in src/middleware/logger.ts):
        parseExpiresIn, generateAccessToken, generateRefreshToken,
        verifyAccessToken, verifyRefreshToken;
      - src/routes/auth.ts: parseExpirationToSeconds and the handlers of
        register, login and refresh;
      - src/services/auth.service.ts: AuthService;
      - src/services/user.service.ts: the lookups and writes AuthService
        and the guard use;
      - src/middleware/auth.ts: requirePermission;
      - src/db/schema.ts: the tables of the flow and their key constraints.

    JavaScript numbers are modelled by [Z]: every number of this flow is an
    integer (epoch seconds, epoch milliseconds, a parsed duration), and
    double arithmetic on integers is exact below 2^53.  JavaScript strings
    are modelled by [string].

    The file has two parts: the embedding, then the properties. *)

From Stdlib Require Import ZArith Lia Bool Ascii String.
From stdpp Require Import base option list strings.

Local Open Scope Z_scope.
Local Open Scope string_scope.

(** ** Results of fallible code

  A thrown [Error(msg)] is [Err msg]. *)

Inductive result (A : Type) : Type :=
  | Ok (a : A)
  | Err (msg : string).
Arguments Ok {A} a.
Arguments Err {A} msg.

Definition is_ok {A} (r : result A) : bool :=
  match r with Ok _ => true | Err _ => false end.

(** ** Duration strings *)

Module Duration.

(** [\d] of a JavaScript regular expression without the [u] flag:
    the ten ASCII digits. *)
Definition is_digit (c : ascii) : bool :=
  let n := Ascii.N_of_ascii c in (N.leb 48 n && N.leb n 57)%bool.

Definition digit_value (c : ascii) : Z :=
  Z.of_N (Ascii.N_of_ascii c) - 48.

Definition is_unit (c : ascii) : bool :=
  match c with
  | "s"%char | "m"%char | "h"%char | "d"%char => true
  | _ => false
  end.

Fixpoint all_digits (s : string) : bool :=
  match s with
  | EmptyString => true
  | String c s' => is_digit c && all_digits s'
  end.

(** The string without its last character, and that character. *)
Fixpoint split_last (s : string) : option (string * ascii) :=
  match s with
  | EmptyString => None
  | String c s' =>
      match split_last s' with
      | None => Some (EmptyString, c)
      | Some (p, l) => Some (String c p, l)
      end
  end.

(** [expiresIn.match(/^(\d+)([smhd])$/)]: the two capture groups, or
    [None] for JavaScript's [null]. *)
Definition regex_match (s : string) : option (string * ascii) :=
  match split_last s with
  | Some (ds, u) =>
      match ds with
      | EmptyString => None
      | String _ _ => if all_digits ds && is_unit u then Some (ds, u) else None
      end
  | None => None
  end.

(** [parseInt(ds, 10)] on a string of decimal digits: the integer the
    digits write.  The source holds it in a double, which is that integer
    up to 2^53 and the nearest double beyond; properties that depend on
    the value say that it stays in range (see [Range] below). *)
Fixpoint parse_digits (acc : Z) (s : string) : Z :=
  match s with
  | EmptyString => acc
  | String c s' => parse_digits (10 * acc + digit_value c) s'
  end.

Definition parseInt10 (ds : string) : Z := parse_digits 0 ds.

(** The table [multipliers] of [parseExpiresIn]. *)
Definition multipliers (u : ascii) : Z :=
  match u with
  | "s"%char => 1
  | "m"%char => 60
  | "h"%char => 3600
  | "d"%char => 86400
  | _ => 0
  end.

(** [parseExpiresIn] of the token issuer (src/middleware/logger.ts, lines 40-57). *)
Definition parseExpiresIn (expiresIn : string) : result Z :=
  match regex_match expiresIn with
  | None => Err "Invalid expires format. Use format: 1s, 1m, 1h, 1d"
  | Some (ds, u) => Ok (parseInt10 ds * multipliers u)
  end.

(** src/routes/auth.ts, [parseExpirationToSeconds]. *)
Definition parseExpirationToSeconds (exp : string) : Z :=
  match regex_match exp with
  | None => 900
  | Some (ds, u) =>
      let value := parseInt10 ds in
      match u with
      | "s"%char => value
      | "m"%char => value * 60
      | "h"%char => value * 3600
      | "d"%char => value * 86400
      | _ => 900
      end
  end.

(** The duration grammar, as a proposition: one or more digits followed
    by one unit letter, and nothing else. *)
Definition in_grammar (s : string) : Prop :=
  exists ds u, s = ds +:+ String u EmptyString
               /\ ds <> EmptyString
               /\ all_digits ds = true
               /\ is_unit u = true.

End Duration.

(** ** The range of JavaScript's numbers and dates

  A JavaScript number is an IEEE double: sums and products of integers
  are exact while they stay within [MAX_SAFE_INTEGER], and rounded beyond
  it.  A [Date] holds a time value of at most 8.64e15 ms in magnitude;
  [new Date] of anything larger is an Invalid Date, which the database
  driver refuses to write.  The embedding computes in [Z]; where a
  property depends on a value staying in range, it says so with these. *)

Module Range.

Definition MAX_SAFE_INTEGER : Z := 9007199254740991.

Definition MAX_DATE : Z := 8640000000000000.

(** [ms] is the time value of a valid [Date]. *)
Definition valid_time (ms : Z) : bool :=
  (- MAX_DATE <=? ms)%Z && (ms <=? MAX_DATE)%Z.

End Range.

(** ** The tables of src/db/schema.ts

  Columns that play no part in the authentication flow (label,
  description, avatar, department, position, bio, quotaUsed, createdAt,
  updatedAt) are left out of the rows; no operation below reads them.
  Timestamps are epoch milliseconds. *)

Module Schema.

Inductive UserStatus : Type := ACTIVE | INACTIVE | SUSPENDED.

Global Instance UserStatus_eq_dec : EqDecision UserStatus.
Proof. solve_decision. Defined.

Record User : Type := mkUser {
    user_id : string;
    user_email : string;
    user_phone : option string;
    user_username : string;
    user_password : string;
    user_name : string;
    user_status : UserStatus;
    user_lastLoginAt : option Z
}.

(** [publicUserSchema]: the select schema of [users] without the
    password column. *)
Record PublicUser : Type := mkPublicUser {
    pu_id : string;
    pu_email : string;
    pu_phone : option string;
    pu_username : string;
    pu_name : string;
    pu_status : UserStatus;
    pu_lastLoginAt : option Z
}.

Definition publicUserSchema_parse (u : User) : PublicUser :=
  {| pu_id := user_id u; pu_email := user_email u; pu_phone := user_phone u;
     pu_username := user_username u; pu_name := user_name u;
     pu_status := user_status u; pu_lastLoginAt := user_lastLoginAt u |}.

Record Role : Type := mkRole { role_id : string; role_name : string }.

Record Permission : Type := mkPermission {
    perm_id : string;
    perm_action : string;
    perm_resource : string
}.

Record RolePermission : Type := mkRolePermission {
    rp_roleId : string;
    rp_permissionId : string
}.

Record UserRole : Type := mkUserRole {
    ur_userId : string;
    ur_roleId : string
}.

Record RefreshToken : Type := mkRefreshToken {
    rt_id : string;
    rt_userId : string;
    rt_token : string;
    rt_expiresAt : Z
}.

Global Instance RefreshToken_eq_dec : EqDecision RefreshToken.
Proof. solve_decision. Defined.

Record Db : Type := mkDb {
    users : list User;
    roles : list Role;
    permissions : list Permission;
    rolePermissions : list RolePermission;
    userRoles : list UserRole;
    refreshTokens : list RefreshToken
}.

Definition set_users (f : list User -> list User) (d : Db) : Db :=
  {| users := f (users d); roles := roles d; permissions := permissions d;
     rolePermissions := rolePermissions d; userRoles := userRoles d;
     refreshTokens := refreshTokens d |}.

Definition set_userRoles (f : list UserRole -> list UserRole) (d : Db) : Db :=
  {| users := users d; roles := roles d; permissions := permissions d;
     rolePermissions := rolePermissions d; userRoles := f (userRoles d);
     refreshTokens := refreshTokens d |}.

Definition set_refreshTokens
    (f : list RefreshToken -> list RefreshToken) (d : Db) : Db :=
  {| users := users d; roles := roles d; permissions := permissions d;
     rolePermissions := rolePermissions d; userRoles := userRoles d;
     refreshTokens := f (refreshTokens d) |}.

(** What an insert into [refresh_tokens] needs: [id] is the primary key,
    [token] is unique, [userId] references [users.id], and [expiresAt] is
    a timestamp, for which the driver takes a valid [Date] only. *)
Definition rt_insertable (d : Db) (r : RefreshToken) : bool :=
  forallb (fun x => negb (String.eqb (rt_id x) (rt_id r))) (refreshTokens d)
  && forallb (fun x => negb (String.eqb (rt_token x) (rt_token r))) (refreshTokens d)
  && existsb (fun u => String.eqb (user_id u) (rt_userId r)) (users d)
  && Range.valid_time (rt_expiresAt r).

(** The constraints of [users]: [id] is the primary key, [email] and
    [username] are unique. *)
Definition user_insertable (d : Db) (u : User) : bool :=
  forallb (fun x => negb (String.eqb (user_id x) (user_id u))) (users d)
  && forallb (fun x => negb (String.eqb (user_email x) (user_email u))) (users d)
  && forallb (fun x => negb (String.eqb (user_username x) (user_username u))) (users d).

End Schema.

(** ** JSON Web Tokens *)

Module Jwt.

(** The claims of both token kinds ([AccessTokenPayload],
    [RefreshTokenPayload]); a refresh token has no [email]. *)
Record Payload : Type := mkPayload {
    userId : string;
    email : option string;
    type : string;
    iat : Z;
    exp : Z
}.

Global Instance Payload_eq_dec : EqDecision Payload.
Proof. solve_decision. Defined.

End Jwt.

(** [sign] and [verify] of hono/jwt are not part of this repository; they
  are taken as an interface.  [jwt_sign payload secret] is the token
  string, a function of the payload and the key (HS256 is deterministic).
  [jwt_verify token secret now] is the payload, or [None] where hono
  throws; [now] is the clock second hono reads. *)
Class JwtLib : Type := {
  jwt_sign : Jwt.Payload -> string -> string;
  jwt_verify : string -> string -> Z -> option Jwt.Payload
}.

(** The laws of the interface: a token verifies under the key that signed
  it while its time claims hold, and whatever [verify] returns for a
  signed token is the payload that was signed. *)
Class JwtLaws (jwt : JwtLib) : Prop := {
  jwt_verify_sign : forall p secret now,
    Jwt.iat p <= now < Jwt.exp p ->
    jwt_verify (jwt_sign p secret) secret now = Some p;
  jwt_verify_sound : forall p secret secret' now p',
    jwt_verify (jwt_sign p secret) secret' now = Some p' -> p' = p
}.

(** bcrypt ([Bun.password] or bcryptjs) is taken as an interface too:
  [hash_password password salt] and [verify_password password hash]. *)
Class PasswordHasher : Type := {
  hash_password : string -> string -> string;
  verify_password : string -> string -> bool
}.

(** ** The process environment *)

Record Env : Type := mkEnv {
  env_JWT_SECRET : option string;
  env_JWT_REFRESH_SECRET : option string;
  env_JWT_EXPIRES_IN : option string;
  env_JWT_REFRESH_EXPIRES_IN : option string
}.

(** JavaScript's [x || d] on an optional string: [undefined] and the empty
  string are falsy. *)
Definition or_default (x : option string) (d : string) : string :=
  match x with
  | None => d
  | Some EmptyString => d
  | Some s => s
  end.

(** ** The world: database, clock and entropy

  [clock] is the time of the latest reading, in milliseconds; [ticks]
  holds the time that passes before each later reading, so readings never
  go back.  [uuids] and [salts] are what [crypto.randomUUID] and bcrypt
  draw next. *)

Record World : Type := mkWorld {
  db : Schema.Db;
  clock : Z;
  ticks : list N;
  uuids : list string;
  salts : list string
}.

Definition set_db (f : Schema.Db -> Schema.Db) (w : World) : World :=
  {| db := f (db w); clock := clock w; ticks := ticks w;
     uuids := uuids w; salts := salts w |}.

(** An [async] function: it runs to a value or a thrown error, and leaves
  a world; a throw does not undo writes made before it (no transaction is
  opened anywhere in the flow). *)
Definition M (A : Type) : Type := World -> result A * World.

Definition ret {A} (a : A) : M A := fun w => (Ok a, w).

Definition throw {A} (msg : string) : M A := fun w => (Err msg, w).

Definition bind {A B} (m : M A) (k : A -> M B) : M B :=
  fun w =>
    match m w with
    | (Ok a, w') => k a w'
    | (Err msg, w') => (Err msg, w')
    end.

(** [try { m } catch { throw new Error(msg) }]. *)
Definition catch_rethrow {A} (m : M A) (msg : string) : M A :=
  fun w =>
    match m w with
    | (Ok a, w') => (Ok a, w')
    | (Err _, w') => (Err msg, w')
    end.

Notation "x <- m ;; k" := (bind m (fun x => k))
  (at level 100, m at next level, right associativity).
Notation "m ;;; k" := (bind m (fun _ => k))
  (at level 100, right associativity).

(** The value the next clock reading returns, and the world after it. *)
Definition next_reading (w : World) : Z :=
  clock w + Z.of_N (hd 0%N (ticks w)).

Definition tick (w : World) : World :=
  {| db := db w; clock := next_reading w; ticks := tl (ticks w);
     uuids := uuids w; salts := salts w |}.

(** [Date.now()], and the time value of [new Date()]. *)
Definition Date_now : M Z := fun w => (Ok (next_reading w), tick w).

(** [crypto.randomUUID()]. *)
Definition randomUUID : M string :=
  fun w =>
    (Ok (hd EmptyString (uuids w)),
     {| db := db w; clock := clock w; ticks := ticks w;
        uuids := tl (uuids w); salts := salts w |}).

Definition draw_salt : M string :=
  fun w =>
    (Ok (hd EmptyString (salts w)),
     {| db := db w; clock := clock w; ticks := ticks w;
        uuids := uuids w; salts := tl (salts w) |}).

Definition get_db : M Schema.Db := fun w => (Ok (db w), w).

Definition modify_db (f : Schema.Db -> Schema.Db) : M unit :=
  fun w => (Ok tt, set_db f w).

Definition lift_result {A} (r : result A) : M A := fun w => (r, w).

(** What the database driver throws on an insert it refuses; the text
    stands for the driver's own message. *)
Definition constraint_violation : string := "violates a table constraint".

(** ** The token issuer ([../utils/jwt]) *)

Module JwtUtil.
Section JwtUtil.
Context {jwt : JwtLib}.
Variable env : Env.

Definition JWT_EXPIRES_IN : string := or_default (env_JWT_EXPIRES_IN env) "15m".
Definition JWT_REFRESH_EXPIRES_IN : string :=
  or_default (env_JWT_REFRESH_EXPIRES_IN env) "7d".

Definition getJwtSecret : string :=
  or_default (env_JWT_SECRET env) "dev-jwt-secret-minimum-32-characters-long".
Definition getRefreshSecret : string :=
  or_default (env_JWT_REFRESH_SECRET env) "dev-refresh-secret-minimum-32-characters".

(** The payload [generateAccessToken] signs at clock second [now]. *)
Definition accessPayload (userId email : string) (now expiresInSeconds : Z)
    : Jwt.Payload :=
  {| Jwt.userId := userId; Jwt.email := Some email; Jwt.type := "access";
     Jwt.iat := now; Jwt.exp := now + expiresInSeconds |}.

Definition refreshPayload (userId : string) (now expiresInSeconds : Z)
    : Jwt.Payload :=
  {| Jwt.userId := userId; Jwt.email := None; Jwt.type := "refresh";
     Jwt.iat := now; Jwt.exp := now + expiresInSeconds |}.

Definition generateAccessToken (userId email : string) : M string :=
  expiresInSeconds <- lift_result (Duration.parseExpiresIn JWT_EXPIRES_IN) ;;
  ms <- Date_now ;;
  let now := ms / 1000 in
  ret (jwt_sign (accessPayload userId email now expiresInSeconds) getJwtSecret).

(** The result is the pair [(token, expiresAt)]; [expiresAt] is the time
    value given to [new Date], a valid date within [Range.valid_time] and
    an Invalid Date beyond, which the insert refuses
    ([Schema.rt_insertable]). *)
Definition generateRefreshToken (userId : string) : M (string * Z) :=
  expiresInSeconds <- lift_result (Duration.parseExpiresIn JWT_REFRESH_EXPIRES_IN) ;;
  ms <- Date_now ;;
  let now := ms / 1000 in
  let token := jwt_sign (refreshPayload userId now expiresInSeconds) getRefreshSecret in
  let expiresAt := (now + expiresInSeconds) * 1000 in
  ret (token, expiresAt).

(** hono's [verify(token, secret)]: it reads the clock once. *)
Definition verify (token secret : string) : M Jwt.Payload :=
  ms <- Date_now ;;
  match jwt_verify token secret (ms / 1000) with
  | Some payload => ret payload
  | None => throw "invalid JWT token"
  end.

Definition verifyAccessToken (token : string) : M Jwt.Payload :=
  catch_rethrow
    (payload <- verify token getJwtSecret ;;
     if negb (String.eqb (Jwt.type payload) "access")
     then throw "Invalid token type"
     else ret payload)
    "Invalid or expired access token".

Definition verifyRefreshToken (token : string) : M Jwt.Payload :=
  catch_rethrow
    (payload <- verify token getRefreshSecret ;;
     if negb (String.eqb (Jwt.type payload) "refresh")
     then throw "Invalid token type"
     else ret payload)
    "Invalid or expired refresh token".

End JwtUtil.
End JwtUtil.

(** ** src/services/user.service.ts *)

Module UserService.
Import Schema.

Record UserWithRoles : Type := mkUserWithRoles {
    uwr_user : PublicUser;
    uwr_roles : list string;
    uwr_permissions : list string
}.

Definition mem (x : string) (l : list string) : bool :=
  existsb (String.eqb x) l.

(** [[...new Set(l)]]: the first occurrence of each element, in order. *)
Fixpoint uniq (seen : list string) (l : list string) : list string :=
  match l with
  | [] => []
  | x :: l' => if mem x seen then uniq seen l' else x :: uniq (x :: seen) l'
  end.

(** [`${resource}:${action}`]. *)
Definition permission_string (resource action : string) : string :=
  resource +:+ ":" +:+ action.

Definition findById (id : string) : M (option PublicUser) :=
  d <- get_db ;;
  ret (option_map publicUserSchema_parse
         (List.find (fun u => String.eqb (user_id u) id) (users d))).

(** [select roles.name from userRoles inner join roles
     on userRoles.roleId = roles.id where userRoles.userId = id]. *)
Definition role_names_of (d : Db) (id : string) : list string :=
  flat_map
    (fun ur =>
       if String.eqb (ur_userId ur) id
       then map role_name
              (List.filter (fun r => String.eqb (ur_roleId ur) (role_id r)) (roles d))
       else [])
    (userRoles d).

Definition getUserRoles (userId : string) : M (list string) :=
  d <- get_db ;; ret (role_names_of d userId).

Definition findByIdWithRoles (id : string) : M (option UserWithRoles) :=
  d <- get_db ;;
  match List.find (fun u => String.eqb (user_id u) id) (users d) with
  | None => ret None
  | Some user =>
      let roleNames := role_names_of d id in
      let permissionNames :=
        match roleNames with
        | [] => []
        | _ :: _ =>
            let roleIds :=
              map role_id (List.filter (fun r => mem (role_name r) roleNames) (roles d)) in
            match roleIds with
            | [] => []
            | _ :: _ =>
                let perms :=
                  flat_map
                    (fun rp =>
                       if mem (rp_roleId rp) roleIds
                       then List.filter
                              (fun p => String.eqb (rp_permissionId rp) (perm_id p))
                              (permissions d)
                       else [])
                    (rolePermissions d) in
                uniq [] (map (fun p => permission_string (perm_resource p) (perm_action p))
                           perms)
            end
        end in
      ret (Some {| uwr_user := publicUserSchema_parse user;
                   uwr_roles := roleNames;
                   uwr_permissions := permissionNames |})
  end.

Definition findByEmail (email : string) : M (option User) :=
  d <- get_db ;;
  ret (List.find (fun u => String.eqb (user_email u) email) (users d)).

Definition emailExists (email : string) : M bool :=
  d <- get_db ;;
  ret (existsb (fun u => String.eqb (user_email u) email) (users d)).

Definition usernameExists (username : string) : M bool :=
  d <- get_db ;;
  ret (existsb (fun u => String.eqb (user_username u) username) (users d)).

Record NewUserData : Type := mkNewUserData {
    nu_email : string;
    nu_username : string;
    nu_password : string;
    nu_name : option string;
    nu_phone : option string
}.

Definition create (userData : NewUserData) : M PublicUser :=
  id <- randomUUID ;;
  let newUser :=
    {| user_id := id; user_email := nu_email userData;
       user_phone := nu_phone userData; user_username := nu_username userData;
       user_password := nu_password userData;
       user_name := or_default (nu_name userData) (nu_username userData);
       user_status := ACTIVE; user_lastLoginAt := None |} in
  d <- get_db ;;
  if user_insertable d newUser
  then modify_db (set_users (fun l => (l ++ [newUser])%list)) ;;;
       ret (publicUserSchema_parse newUser)
  else throw constraint_violation.

(** [insert ... onConflictDoNothing()]: an existing pair is kept; the two
    foreign keys are still checked for a new pair. *)
Definition assignRole (userId roleId : string) : M unit :=
  d <- get_db ;;
  if existsb (fun ur => String.eqb (ur_userId ur) userId
                        && String.eqb (ur_roleId ur) roleId) (userRoles d)
  then ret tt
  else if existsb (fun u => String.eqb (user_id u) userId) (users d)
          && existsb (fun r => String.eqb (role_id r) roleId) (roles d)
  then modify_db (set_userRoles
                    (fun l => (l ++ [{| ur_userId := userId; ur_roleId := roleId |}])%list))
  else throw constraint_violation.

Definition updateLastLogin (id : string) : M unit :=
  now <- Date_now ;;
  modify_db (set_users
    (map (fun u =>
            if String.eqb (user_id u) id
            then {| user_id := user_id u; user_email := user_email u;
                    user_phone := user_phone u; user_username := user_username u;
                    user_password := user_password u; user_name := user_name u;
                    user_status := user_status u; user_lastLoginAt := Some now |}
            else u))).

End UserService.

(** ** src/services/auth.service.ts *)

Module AuthService.
Import Schema.
Section AuthService.
Context {jwt : JwtLib} {hasher : PasswordHasher}.
Variable env : Env.

Record AuthResult : Type := mkAuthResult {
  ar_user : UserService.UserWithRoles;
  ar_accessToken : string;
  ar_refreshToken : string
}.

Record RefreshResult : Type := mkRefreshResult {
  rr_accessToken : string;
  rr_refreshToken : string
}.

(** [db.insert(refreshTokens).values(row)]. *)
Definition insert_refreshToken (row : RefreshToken) : M unit :=
  d <- get_db ;;
  if rt_insertable d row
  then modify_db (set_refreshTokens (fun l => (l ++ [row])%list))
  else throw constraint_violation.

Definition storeRefreshToken (userId token : string) (expiresAt : Z) : M unit :=
  id <- randomUUID ;;
  insert_refreshToken
    {| rt_id := id; rt_userId := userId; rt_token := token; rt_expiresAt := expiresAt |}.

(** [hashPassword] of src/utils/hash.ts: bcrypt draws a fresh salt. *)
Definition hashPassword (password : string) : M string :=
  salt <- draw_salt ;; ret (hash_password password salt).

Definition register (data : UserService.NewUserData) : M AuthResult :=
  emailExists <- UserService.emailExists (UserService.nu_email data) ;;
  if emailExists : bool then throw "Email already registered" else
  usernameExists <- UserService.usernameExists (UserService.nu_username data) ;;
  if usernameExists : bool then throw "Username already taken" else
  hashedPassword <- hashPassword (UserService.nu_password data) ;;
  user <- UserService.create
            {| UserService.nu_email := UserService.nu_email data;
               UserService.nu_username := UserService.nu_username data;
               UserService.nu_password := hashedPassword;
               UserService.nu_name := UserService.nu_name data;
               UserService.nu_phone := UserService.nu_phone data |} ;;
  d <- get_db ;;
  match List.find (fun r => String.eqb (role_name r) "user") (roles d) with
  | Some defaultRole => UserService.assignRole (pu_id user) (role_id defaultRole)
  | None => ret tt
  end ;;;
  userWithRoles <- UserService.findByIdWithRoles (pu_id user) ;;
  match userWithRoles with
  | None => throw "Failed to create user"
  | Some userWithRoles =>
      accessToken <- JwtUtil.generateAccessToken env (pu_id user) (pu_email user) ;;
      tokenAndExpiry <- JwtUtil.generateRefreshToken env (pu_id user) ;;
      let refreshToken := fst tokenAndExpiry in
      let expiresAt := snd tokenAndExpiry in
      storeRefreshToken (pu_id user) refreshToken expiresAt ;;;
      ret {| ar_user := userWithRoles; ar_accessToken := accessToken;
             ar_refreshToken := refreshToken |}
  end.

Definition login (email password : string) : M AuthResult :=
  user <- UserService.findByEmail email ;;
  match user with
  | None => throw "Invalid email or password"
  | Some user =>
      if negb (verify_password password (user_password user))
      then throw "Invalid email or password"
      else if negb (bool_decide (user_status user = ACTIVE))
      then throw "Account is deactivated or suspended"
      else
        UserService.updateLastLogin (user_id user) ;;;
        userWithRoles <- UserService.findByIdWithRoles (user_id user) ;;
        match userWithRoles with
        | None => throw "User not found"
        | Some userWithRoles =>
            accessToken <- JwtUtil.generateAccessToken env (user_id user) (user_email user) ;;
            tokenAndExpiry <- JwtUtil.generateRefreshToken env (user_id user) ;;
            let refreshToken := fst tokenAndExpiry in
            let expiresAt := snd tokenAndExpiry in
            storeRefreshToken (user_id user) refreshToken expiresAt ;;;
            ret {| ar_user := userWithRoles; ar_accessToken := accessToken;
                   ar_refreshToken := refreshToken |}
        end
  end.

(** The row the query of [refresh] selects:
    [where token = t and userId = u and expiresAt > now limit 1]. *)
Definition find_storedToken (d : Db) (token userId : string) (now : Z)
    : option RefreshToken :=
  List.find
    (fun r => String.eqb (rt_token r) token
              && String.eqb (rt_userId r) userId
              && (now <? rt_expiresAt r)%Z)
    (refreshTokens d).

Definition refresh (token : string) : M RefreshResult :=
  payload <- JwtUtil.verifyRefreshToken env token ;;
  now <- Date_now ;;
  d <- get_db ;;
  match find_storedToken d token (Jwt.userId payload) now with
  | None => throw "Invalid or expired refresh token"
  | Some storedToken =>
      userRecord <- UserService.findById (Jwt.userId payload) ;;
      match userRecord with
      | None => throw "User not found"
      | Some userRecord =>
          if negb (bool_decide (pu_status userRecord = ACTIVE))
          then throw "Account is deactivated or suspended"
          else
            modify_db (set_refreshTokens
              (List.filter (fun r => negb (String.eqb (rt_id r) (rt_id storedToken))))) ;;;
            accessToken <- JwtUtil.generateAccessToken env (Jwt.userId payload)
                             (pu_email userRecord) ;;
            tokenAndExpiry <- JwtUtil.generateRefreshToken env (Jwt.userId payload) ;;
            let newRefreshToken := fst tokenAndExpiry in
            let expiresAt := snd tokenAndExpiry in
            id <- randomUUID ;;
            insert_refreshToken
              {| rt_id := id; rt_userId := Jwt.userId payload;
                 rt_token := newRefreshToken; rt_expiresAt := expiresAt |} ;;;
            ret {| rr_accessToken := accessToken; rr_refreshToken := newRefreshToken |}
      end
  end.

(** The statements of [refresh] that follow its checks (deletion of the
    consumed row, issue of the new pair, insertion of the new row), under
    a name of their own for the proofs; [refresh] above is the source's
    function in one piece. *)
Definition rotate (payload : Jwt.Payload) (storedToken : RefreshToken)
    (userRecord : PublicUser) : M RefreshResult :=
  modify_db (set_refreshTokens
    (List.filter (fun r => negb (String.eqb (rt_id r) (rt_id storedToken))))) ;;;
  accessToken <- JwtUtil.generateAccessToken env (Jwt.userId payload)
                   (pu_email userRecord) ;;
  tokenAndExpiry <- JwtUtil.generateRefreshToken env (Jwt.userId payload) ;;
  let newRefreshToken := fst tokenAndExpiry in
  let expiresAt := snd tokenAndExpiry in
  id <- randomUUID ;;
  insert_refreshToken
    {| rt_id := id; rt_userId := Jwt.userId payload;
       rt_token := newRefreshToken; rt_expiresAt := expiresAt |} ;;;
  ret {| rr_accessToken := accessToken; rr_refreshToken := newRefreshToken |}.

(** The table after [refresh] has deleted the consumed row. *)
Definition without_row (storedToken : RefreshToken) (d : Db) : Db :=
  set_refreshTokens
    (List.filter (fun r => negb (String.eqb (rt_id r) (rt_id storedToken)))) d.

(** The row [refresh] inserts, from the world [w] the rotation starts in:
    the new token is signed at the second reading after [w]. *)
Definition replacement_row (payload : Jwt.Payload) (dr : Z) (w : World)
    : RefreshToken :=
  {| rt_id := hd EmptyString (uuids w);
     rt_userId := Jwt.userId payload;
     rt_token := jwt_sign (JwtUtil.refreshPayload (Jwt.userId payload)
                             (next_reading (tick w) / 1000) dr)
                   (JwtUtil.getRefreshSecret env);
     rt_expiresAt := (next_reading (tick w) / 1000 + dr) * 1000 |}.

(** The second [refresh] signs its replacement token in: the fourth clock
    reading of the call. *)
Definition issue_second (w : World) : Z :=
  next_reading (tick (tick (tick w))) / 1000.

(** The checks of [refresh] on the world [w] a call starts in: the token
    verifies as a refresh token at the first clock reading, the query finds
    [storedToken] at the second reading, and the user of the payload is
    [userRecord], with status ACTIVE. *)
Definition refresh_checks (token : string) (w : World) (payload : Jwt.Payload)
    (storedToken : RefreshToken) (userRecord : User) : Prop :=
  fst (JwtUtil.verifyRefreshToken env token w) = Ok payload
  /\ find_storedToken (db w) token (Jwt.userId payload) (next_reading (tick w))
     = Some storedToken
  /\ List.find (fun u => String.eqb (user_id u) (Jwt.userId payload)) (users (db w))
     = Some userRecord
  /\ user_status userRecord = ACTIVE.

Definition logout (token : string) : M unit :=
  modify_db (set_refreshTokens
    (List.filter (fun r => negb (String.eqb (rt_token r) token)))).

Definition logoutAll (userId : string) : M unit :=
  modify_db (set_refreshTokens
    (List.filter (fun r => negb (String.eqb (rt_userId r) userId)))).

Definition getCurrentUser (userId : string) : M (option UserService.UserWithRoles) :=
  UserService.findByIdWithRoles userId.

Definition cleanupExpiredTokens : M Z :=
  now <- Date_now ;;
  d <- get_db ;;
  let expired := List.filter (fun r => (rt_expiresAt r <? now)%Z) (refreshTokens d) in
  modify_db (set_refreshTokens (List.filter (fun r => negb (rt_expiresAt r <? now)%Z))) ;;;
  ret (Z.of_nat (length expired)).

End AuthService.
End AuthService.

(** ** src/middleware/auth.ts *)

Module Middleware.

(** What a middleware does with a request: it calls [next()], or answers
    with [errorResponse(c, message, statusCode, code, details)]. *)
Inductive Outcome : Type :=
  | Next
  | Respond (message : string) (statusCode : Z) (code : string)
            (details : option string).

(** [user] is [c.get('user')], the payload [authMiddleware] attached, if
    any; [details] carries [requiredPermission]. *)
Definition requirePermission (resource action : string)
    (user : option Jwt.Payload) : M Outcome :=
  match user with
  | None => ret (Respond "Authentication required" 401 "UNAUTHORIZED" None)
  | Some user =>
      userWithRoles <- UserService.findByIdWithRoles (Jwt.userId user) ;;
      match userWithRoles with
      | None => ret (Respond "User not found" 404 "USER_NOT_FOUND" None)
      | Some userWithRoles =>
          let requiredPermission := UserService.permission_string resource action in
          let permissions := UserService.uwr_permissions userWithRoles in
          let hasPermission :=
            UserService.mem "*:*" permissions
            || UserService.mem (resource +:+ ":*") permissions
            || UserService.mem ("*:" +:+ action) permissions
            || UserService.mem requiredPermission permissions in
          if negb hasPermission
          then ret (Respond "Insufficient permissions" 403 "FORBIDDEN"
                      (Some requiredPermission))
          else ret Next
      end
  end.

End Middleware.

(** ** src/routes/auth.ts

    The handlers, after the zod validator has accepted the body. *)

Module AuthRoutes.
Section AuthRoutes.
Context {jwt : JwtLib} {hasher : PasswordHasher}.
Variable env : Env.

(** The envelope of src/utils/response.ts. *)
Inductive ApiResponse (T : Type) : Type :=
  | successResponse (data : T) (statusCode : Z)
  | errorResponse (message : string) (statusCode : Z) (code : string).
Arguments successResponse {T} data statusCode.
Arguments errorResponse {T} message statusCode code.

(** [env.JWT_EXPIRES_IN] of src/utils/env.ts: zod's default applies to
    an unset variable only. *)
Definition validated_JWT_EXPIRES_IN : string :=
  match env_JWT_EXPIRES_IN env with
  | None => "15m"
  | Some s => s
  end.

Record AuthData : Type := mkAuthData {
  ad_user : UserService.UserWithRoles;
  ad_token : string;
  ad_expiresIn : Z;
  ad_refreshToken : string
}.

Record RefreshData : Type := mkRefreshData {
  rd_token : string;
  rd_expiresIn : Z;
  rd_refreshToken : string
}.

Definition statusCode_of {T} (r : ApiResponse T) : Z :=
  match r with
  | successResponse _ c => c
  | errorResponse _ c _ => c
  end.

Definition register_handler (data : UserService.NewUserData)
    : World -> ApiResponse AuthData * World :=
  fun w =>
    match AuthService.register env data w with
    | (Ok result, w') =>
        (successResponse
           {| ad_user := AuthService.ar_user result;
              ad_token := AuthService.ar_accessToken result;
              ad_expiresIn := Duration.parseExpirationToSeconds validated_JWT_EXPIRES_IN;
              ad_refreshToken := AuthService.ar_refreshToken result |} 201, w')
    | (Err message, w') => (errorResponse message 400 "REGISTRATION_FAILED", w')
    end.

Definition login_handler (email password : string)
    : World -> ApiResponse AuthData * World :=
  fun w =>
    match AuthService.login env email password w with
    | (Ok result, w') =>
        (successResponse
           {| ad_user := AuthService.ar_user result;
              ad_token := AuthService.ar_accessToken result;
              ad_expiresIn := Duration.parseExpirationToSeconds validated_JWT_EXPIRES_IN;
              ad_refreshToken := AuthService.ar_refreshToken result |} 200, w')
    | (Err message, w') => (errorResponse message 401 "LOGIN_FAILED", w')
    end.

Definition refresh_handler (refreshToken : string)
    : World -> ApiResponse RefreshData * World :=
  fun w =>
    match AuthService.refresh env refreshToken w with
    | (Ok result, w') =>
        (successResponse
           {| rd_token := AuthService.rr_accessToken result;
              rd_expiresIn := Duration.parseExpirationToSeconds validated_JWT_EXPIRES_IN;
              rd_refreshToken := AuthService.rr_refreshToken result |} 200, w')
    | (Err message, w') => (errorResponse message 401 "REFRESH_FAILED", w')
    end.

End AuthRoutes.
Arguments successResponse {T} data statusCode.
Arguments errorResponse {T} message statusCode code.
End AuthRoutes.

(** ** A reference instance of the two interfaces

    Used to run the flow on concrete inputs.  A token is the serialized
    payload followed by the key; verification parses the payload back,
    compares the key and checks the time claims as hono does
    ([exp] and [iat], each skipped when it is 0, which JavaScript takes
    as absent). *)

Module Reference.

Fixpoint enc_string (s : string) : string :=
  match s with
  | EmptyString => String "0" EmptyString
  | String c s' => String "1" (String c (enc_string s'))
  end.

Fixpoint dec_string (t : string) : option (string * string) :=
  match t with
  | String tag rest =>
      if Ascii.eqb tag "0" then Some (EmptyString, rest)
      else if Ascii.eqb tag "1" then
        match rest with
        | String c rest' =>
            match dec_string rest' with
            | Some (s, r) => Some (String c s, r)
            | None => None
            end
        | EmptyString => None
        end
      else None
  | EmptyString => None
  end.

Fixpoint enc_pos (p : positive) : string :=
  match p with
  | xH => String "H" EmptyString
  | xO p' => String "O" (enc_pos p')
  | xI p' => String "I" (enc_pos p')
  end.

Fixpoint dec_pos (t : string) : option (positive * string) :=
  match t with
  | String tag rest =>
      if Ascii.eqb tag "H" then Some (xH, rest)
      else if Ascii.eqb tag "O" then
        match dec_pos rest with Some (p, r) => Some (xO p, r) | None => None end
      else if Ascii.eqb tag "I" then
        match dec_pos rest with Some (p, r) => Some (xI p, r) | None => None end
      else None
  | EmptyString => None
  end.

Definition enc_Z (z : Z) : string :=
  match z with
  | Z0 => String "Z" EmptyString
  | Zpos p => String "P" (enc_pos p)
  | Zneg p => String "N" (enc_pos p)
  end.

Definition dec_Z (t : string) : option (Z * string) :=
  match t with
  | String tag rest =>
      if Ascii.eqb tag "Z" then Some (Z0, rest)
      else if Ascii.eqb tag "P" then
        match dec_pos rest with Some (p, r) => Some (Zpos p, r) | None => None end
      else if Ascii.eqb tag "N" then
        match dec_pos rest with Some (p, r) => Some (Zneg p, r) | None => None end
      else None
  | EmptyString => None
  end.

Definition enc_option (o : option string) : string :=
  match o with
  | None => String "n" EmptyString
  | Some s => String "s" (enc_string s)
  end.

Definition dec_option (t : string) : option (option string * string) :=
  match t with
  | String tag rest =>
      if Ascii.eqb tag "n" then Some (None, rest)
      else if Ascii.eqb tag "s" then
        match dec_string rest with Some (s, r) => Some (Some s, r) | None => None end
      else None
  | EmptyString => None
  end.

Definition encode (p : Jwt.Payload) : string :=
  enc_string (Jwt.userId p) +:+ enc_option (Jwt.email p) +:+ enc_string (Jwt.type p)
  +:+ enc_Z (Jwt.iat p) +:+ enc_Z (Jwt.exp p).

Definition decode (t : string) : option (Jwt.Payload * string) :=
  match dec_string t with
  | Some (u, t1) =>
      match dec_option t1 with
      | Some (e, t2) =>
          match dec_string t2 with
          | Some (ty, t3) =>
              match dec_Z t3 with
              | Some (i, t4) =>
                  match dec_Z t4 with
                  | Some (x, t5) =>
                      Some ({| Jwt.userId := u; Jwt.email := e; Jwt.type := ty;
                               Jwt.iat := i; Jwt.exp := x |}, t5)
                  | None => None
                  end
              | None => None
              end
          | None => None
          end
      | None => None
      end
  | None => None
  end.

Definition sign (p : Jwt.Payload) (secret : string) : string :=
  encode p +:+ secret.

Definition claims_hold (p : Jwt.Payload) (now : Z) : bool :=
  ((Jwt.exp p =? 0)%Z || (now <? Jwt.exp p)%Z)
  && ((Jwt.iat p =? 0)%Z || (Jwt.iat p <=? now)%Z).

Definition verify (token secret : string) (now : Z) : option Jwt.Payload :=
  match decode token with
  | Some (p, key) =>
      if String.eqb key secret && claims_hold p now then Some p else None
  | None => None
  end.

#[export] Instance jwt : JwtLib := {| jwt_sign := sign; jwt_verify := verify |}.

(** The stand-in for bcrypt keeps the salt and the password apart. *)
Definition hash (password salt : string) : string :=
  enc_string salt +:+ password.

Definition check (password hashed : string) : bool :=
  match dec_string hashed with
  | Some (_, p) => String.eqb p password
  | None => false
  end.

#[export] Instance hasher : PasswordHasher :=
  {| hash_password := hash; verify_password := check |}.

End Reference.

(** ** The other helpers of the token issuer *)

Module TokenHelpers.

(** [s.split(' ')]: the pieces between the space characters; a string
    without a space is its own single piece, the empty string included. *)
Fixpoint split_space (s : string) : list string :=
  match s with
  | EmptyString => [EmptyString]
  | String c s' =>
      if Ascii.eqb c " " then EmptyString :: split_space s'
      else match split_space s' with
           | piece :: pieces => String c piece :: pieces
           | [] => [String c EmptyString]
           end
  end.

(** [extractToken]; [None] is JavaScript's [undefined] for the header and
    [null] for the result. *)
Definition extractToken (authHeader : option string) : option string :=
  match authHeader with
  | None => None
  | Some EmptyString => None
  | Some header =>
      match split_space header with
      | [scheme; token] => if String.eqb scheme "Bearer" then Some token else None
      | _ => None
      end
  end.

Fixpoint has_space (s : string) : bool :=
  match s with
  | EmptyString => false
  | String c s' => Ascii.eqb c " " || has_space s'
  end.

(** The header carries a usable token: "Bearer", a space, and a non-empty
    piece without a space. *)
Definition bearer (header : option string) (token : string) : Prop :=
  header = Some ("Bearer " +:+ token) /\ token <> EmptyString
  /\ has_space token = false.

Section TokenHelpers.
Context {jwt : JwtLib}.
Variable env : Env.

Record TokenPair : Type := mkTokenPair {
  tp_accessToken : string;
  tp_refreshToken : string;
  tp_expiresIn : Z
}.

Definition generateTokenPair (userId email : string) : M TokenPair :=
  accessToken <- JwtUtil.generateAccessToken env userId email ;;
  tokenAndExpiry <- JwtUtil.generateRefreshToken env userId ;;
  expiresIn <- lift_result (Duration.parseExpiresIn (JwtUtil.JWT_EXPIRES_IN env)) ;;
  ret {| tp_accessToken := accessToken; tp_refreshToken := fst tokenAndExpiry;
         tp_expiresIn := expiresIn |}.

(** The time value given to [new Date], as in [generateRefreshToken]. *)
Definition getRefreshTokenExpiresAt : M Z :=
  expiresInSeconds <-
    lift_result (Duration.parseExpiresIn (JwtUtil.JWT_REFRESH_EXPIRES_IN env)) ;;
  ms <- Date_now ;;
  ret (ms + expiresInSeconds * 1000).

End TokenHelpers.
End TokenHelpers.

(** ** The other guards of src/middleware/auth.ts *)

Module AuthGuard.

(** The two variables the guards keep on the request context; [None] is a
    variable never set. *)
Record Variables : Type := mkVariables {
  var_user : option Jwt.Payload;
  var_userRoles : option (list string)
}.

Definition no_variables : Variables :=
  {| var_user := None; var_userRoles := None |}.

(** A guard calls [next()], which runs the rest of the chain on the
    context it leaves, or answers with [errorResponse]. *)
Inductive Handled (D : Type) : Type :=
  | Continue
  | Answer (message : string) (statusCode : Z) (code : string) (details : option D).
Arguments Continue {D}.
Arguments Answer {D} message statusCode code details.

Record RoleDetails : Type := mkRoleDetails {
  requiredRoles : list string;
  userRoles : list string
}.

Section AuthGuard.
Context {jwt : JwtLib}.
Variable env : Env.

(** [authMiddleware] up to its call of [next()].  Whatever the [try]
    block throws is answered 401 INVALID_TOKEN with the error's message;
    [c.set('user', payload)] has happened by the time the roles are read. *)
Definition authMiddleware (authHeader : option string) (c : Variables)
    : World -> (Handled unit * Variables) * World :=
  fun w =>
    match TokenHelpers.extractToken authHeader with
    | None | Some EmptyString =>
        ((Answer "Authentication required" 401 "UNAUTHORIZED" None, c), w)
    | Some token =>
        match JwtUtil.verifyAccessToken env token w with
        | (Err message, w1) => ((Answer message 401 "INVALID_TOKEN" None, c), w1)
        | (Ok payload, w1) =>
            let c1 := {| var_user := Some payload; var_userRoles := var_userRoles c |} in
            match UserService.getUserRoles (Jwt.userId payload) w1 with
            | (Err message, w2) => ((Answer message 401 "INVALID_TOKEN" None, c1), w2)
            | (Ok roles, w2) =>
                ((Continue, {| var_user := Some payload; var_userRoles := Some roles |}), w2)
            end
        end
    end.

End AuthGuard.

(** [requireRole(...allowedRoles)]; [c.get('userRoles') || []] is the
    empty list for a variable never set. *)
Definition requireRole (allowedRoles : list string) (c : Variables)
    : Handled RoleDetails :=
  let userRoles := default [] (var_userRoles c) in
  match var_user c with
  | None => Answer "Authentication required" 401 "UNAUTHORIZED" None
  | Some _ =>
      let hasRole := existsb (fun role => UserService.mem role userRoles) allowedRoles in
      if negb hasRole
      then Answer "Insufficient permissions" 403 "FORBIDDEN"
             (Some {| requiredRoles := allowedRoles; userRoles := userRoles |})
      else Continue
  end.

End AuthGuard.

(** ** The administrative writes of src/services/user.service.ts *)

Module UserAdmin.
Import Schema.

Definition removeRole (userId roleId : string) : M unit :=
  modify_db (set_userRoles
    (List.filter (fun ur => negb (String.eqb (ur_userId ur) userId
                                  && String.eqb (ur_roleId ur) roleId)))).

(** The rows [delete from users where id = ...] takes with it, among the
    tables here: the foreign keys of [refresh_tokens] and [user_roles] are
    declared [onDelete: 'cascade'].  (So are those of further tables of
    the schema, which are outside the authentication flow and have no rows
    in [Db].) *)
Definition without_user (id : string) (d : Db) : Db :=
  {| users := List.filter (fun u => negb (String.eqb (user_id u) id)) (users d);
     roles := roles d; permissions := permissions d;
     rolePermissions := rolePermissions d;
     userRoles :=
       List.filter (fun ur => negb (String.eqb (ur_userId ur) id)) (userRoles d);
     refreshTokens :=
       List.filter (fun r => negb (String.eqb (rt_userId r) id)) (refreshTokens d) |}.

(** [UserService.delete]: [result.length > 0]. *)
Definition delete (id : string) : M bool :=
  d <- get_db ;;
  let result := List.filter (fun u => String.eqb (user_id u) id) (users d) in
  modify_db (without_user id) ;;;
  ret (negb (Nat.eqb (length result) 0)).

Definition with_status (status : UserStatus) (u : User) : User :=
  {| user_id := user_id u; user_email := user_email u; user_phone := user_phone u;
     user_username := user_username u; user_password := user_password u;
     user_name := user_name u; user_status := status;
     user_lastLoginAt := user_lastLoginAt u |}.

(** [updateStatus(id, status)], which is [update(id, { status })]: the
    statement sets [status] and [updatedAt], for which it reads the clock
    (the column is outside the rows here), and returns the first updated
    row. *)
Definition updateStatus (id : string) (status : UserStatus) : M (option PublicUser) :=
  updatedAt <- Date_now ;;
  d <- get_db ;;
  let updated :=
    map (with_status status)
      (List.filter (fun u => String.eqb (user_id u) id) (users d)) in
  modify_db (set_users
    (map (fun u => if String.eqb (user_id u) id then with_status status u else u))) ;;;
  ret (option_map publicUserSchema_parse (head updated)).

End UserAdmin.

(** ** RoleService (the second class of src/services/auth.service.ts) *)

Module RoleService.
Import Schema.

Definition set_roles (f : list Role -> list Role) (d : Db) : Db :=
  {| users := users d; roles := f (roles d); permissions := permissions d;
     rolePermissions := rolePermissions d; userRoles := userRoles d;
     refreshTokens := refreshTokens d |}.

Definition set_rolePermissions
    (f : list RolePermission -> list RolePermission) (d : Db) : Db :=
  {| users := users d; roles := roles d; permissions := permissions d;
     rolePermissions := f (rolePermissions d); userRoles := userRoles d;
     refreshTokens := refreshTokens d |}.

Definition findByName (name : string) : M (option Role) :=
  d <- get_db ;;
  ret (List.find (fun r => String.eqb (role_name r) name) (roles d)).

(** [nameExists(name, excludeId?)]; an empty [excludeId] is falsy and
    takes the second branch. *)
Definition nameExists (name : string) (excludeId : option string) : M bool :=
  d <- get_db ;;
  let role := List.find (fun r => String.eqb (role_name r) name) (roles d) in
  match excludeId with
  | Some (String _ _ as excluded) =>
      ret (match role with
           | Some r => negb (String.eqb (role_id r) excluded)
           | None => false
           end)
  | _ => ret (match role with Some _ => true | None => false end)
  end.

(** The constraints of [roles]: [id] is the primary key, [name] is
    unique. *)
Definition role_insertable (d : Db) (r : Role) : bool :=
  forallb (fun x => negb (String.eqb (role_id x) (role_id r))) (roles d)
  && forallb (fun x => negb (String.eqb (role_name x) (role_name r))) (roles d).

Definition create (name : string) : M Role :=
  id <- randomUUID ;;
  let newRole := {| role_id := id; role_name := name |} in
  d <- get_db ;;
  if role_insertable d newRole
  then modify_db (set_roles (fun l => (l ++ [newRole])%list)) ;;; ret newRole
  else throw constraint_violation.

(** The rows a deleted role takes with it, by the cascading foreign keys
    of [role_permissions] and [user_roles]. *)
Definition without_role (id : string) (d : Db) : Db :=
  {| users := users d;
     roles := List.filter (fun r => negb (String.eqb (role_id r) id)) (roles d);
     permissions := permissions d;
     rolePermissions :=
       List.filter (fun rp => negb (String.eqb (rp_roleId rp) id)) (rolePermissions d);
     userRoles :=
       List.filter (fun ur => negb (String.eqb (ur_roleId ur) id)) (userRoles d);
     refreshTokens := refreshTokens d |}.

(** [RoleService.delete]: [userCount > 0] refuses, [result.length > 0] is returned. *)
Definition delete (id : string) : M bool :=
  d <- get_db ;;
  let userCount :=
    length (List.filter (fun ur => String.eqb (ur_roleId ur) id) (userRoles d)) in
  if negb (Nat.eqb userCount 0)
  then throw "Cannot delete role with assigned users"
  else
    let result := List.filter (fun r => String.eqb (role_id r) id) (roles d) in
    modify_db (without_role id) ;;;
    ret (negb (Nat.eqb (length result) 0)).

Definition same_pair (a b : RolePermission) : bool :=
  String.eqb (rp_roleId a) (rp_roleId b)
  && String.eqb (rp_permissionId a) (rp_permissionId b).

(** One [insert] of several rows into [role_permissions]: the pairs are
    the primary key, both columns are foreign keys; the statement inserts
    all rows or none. *)
Fixpoint pairs_distinct (rows : list RolePermission) : bool :=
  match rows with
  | [] => true
  | r :: rows' => negb (existsb (same_pair r) rows') && pairs_distinct rows'
  end.

Definition rps_insertable (d : Db) (rows : list RolePermission) : bool :=
  pairs_distinct rows
  && forallb (fun r => negb (existsb (same_pair r) (rolePermissions d))) rows
  && forallb (fun r => existsb (fun x => String.eqb (role_id x) (rp_roleId r)) (roles d))
       rows
  && forallb (fun r => existsb (fun x => String.eqb (perm_id x) (rp_permissionId r))
                         (permissions d)) rows.

Definition assignPermissions (roleId : string) (permissionIds : list string) : M unit :=
  modify_db (set_rolePermissions
    (List.filter (fun rp => negb (String.eqb (rp_roleId rp) roleId)))) ;;;
  match permissionIds with
  | [] => ret tt
  | _ :: _ =>
      let rows :=
        map (fun permissionId =>
               {| rp_roleId := roleId; rp_permissionId := permissionId |})
          permissionIds in
      d <- get_db ;;
      if rps_insertable d rows
      then modify_db (set_rolePermissions (fun l => (l ++ rows)%list))
      else throw constraint_violation
  end.

End RoleService.

(** ** The other handlers: logout, logout-all, me, and DELETE /users/:id

    A route is its chain of middleware and its handler; a guard that
    answers ends the chain. *)

Module Routes.
Section Routes.
Context {jwt : JwtLib}.
Variable env : Env.

(** What JavaScript throws on [user.userId] for an undefined [user]. *)
Definition undefined_user : string :=
  "undefined is not an object (evaluating 'user.userId')".

(** The handler of POST /auth/logout.  The route runs it behind
    [zValidator('json', refreshTokenSchema)], so on a non-empty
    [refreshToken] only. *)
Definition logout_handler (refreshToken : string)
    : World -> AuthRoutes.ApiResponse string * World :=
  fun w =>
    match AuthService.logout refreshToken w with
    | (Ok _, w') => (AuthRoutes.successResponse "Successfully logged out" 200, w')
    | (Err message, w') => (AuthRoutes.errorResponse message 400 "LOGOUT_FAILED", w')
    end.

Definition logoutAll_route (authHeader : option string)
    : World -> AuthRoutes.ApiResponse string * World :=
  fun w =>
    match AuthGuard.authMiddleware env authHeader AuthGuard.no_variables w with
    | ((AuthGuard.Answer message statusCode code _, _), w1) =>
        (AuthRoutes.errorResponse message statusCode code, w1)
    | ((AuthGuard.Continue, c), w1) =>
        match AuthGuard.var_user c with
        | None => (AuthRoutes.errorResponse undefined_user 400 "LOGOUT_FAILED", w1)
        | Some user =>
            match AuthService.logoutAll (Jwt.userId user) w1 with
            | (Ok _, w2) =>
                (AuthRoutes.successResponse "Successfully logged out from all devices" 200,
                 w2)
            | (Err message, w2) =>
                (AuthRoutes.errorResponse message 400 "LOGOUT_FAILED", w2)
            end
        end
    end.

Definition me_route (authHeader : option string)
    : World -> AuthRoutes.ApiResponse UserService.UserWithRoles * World :=
  fun w =>
    match AuthGuard.authMiddleware env authHeader AuthGuard.no_variables w with
    | ((AuthGuard.Answer message statusCode code _, _), w1) =>
        (AuthRoutes.errorResponse message statusCode code, w1)
    | ((AuthGuard.Continue, c), w1) =>
        match AuthGuard.var_user c with
        | None => (AuthRoutes.errorResponse undefined_user 500 "PROFILE_FETCH_FAILED", w1)
        | Some user =>
            match AuthService.getCurrentUser (Jwt.userId user) w1 with
            | (Ok (Some profile), w2) => (AuthRoutes.successResponse profile 200, w2)
            | (Ok None, w2) =>
                (AuthRoutes.errorResponse "User not found" 404 "USER_NOT_FOUND", w2)
            | (Err message, w2) =>
                (AuthRoutes.errorResponse message 500 "PROFILE_FETCH_FAILED", w2)
            end
        end
    end.

(** [userRoutes.use('*', authMiddleware)], then
    [userRoutes.delete('/:id', requireRole('admin'), handler)]. *)
Definition users_delete_route (authHeader : option string) (id : string)
    : World -> AuthRoutes.ApiResponse string * World :=
  fun w =>
    match AuthGuard.authMiddleware env authHeader AuthGuard.no_variables w with
    | ((AuthGuard.Answer message statusCode code _, _), w1) =>
        (AuthRoutes.errorResponse message statusCode code, w1)
    | ((AuthGuard.Continue, c), w1) =>
        match AuthGuard.requireRole ["admin"] c with
        | AuthGuard.Answer message statusCode code _ =>
            (AuthRoutes.errorResponse message statusCode code, w1)
        | AuthGuard.Continue =>
            match AuthGuard.var_user c with
            | None => (AuthRoutes.errorResponse undefined_user 500 "USER_DELETE_FAILED", w1)
            | Some currentUser =>
                if String.eqb id (Jwt.userId currentUser)
                then (AuthRoutes.errorResponse "Cannot delete your own account" 400
                        "SELF_DELETE_FORBIDDEN", w1)
                else
                  match UserAdmin.delete id w1 with
                  | (Ok true, w2) =>
                      (AuthRoutes.successResponse "User deleted successfully" 200, w2)
                  | (Ok false, w2) =>
                      (AuthRoutes.errorResponse "User not found" 404 "USER_NOT_FOUND", w2)
                  | (Err message, w2) =>
                      (AuthRoutes.errorResponse message 500 "USER_DELETE_FAILED", w2)
                  end
            end
        end
    end.

End Routes.
End Routes.

(** ** A concrete deployment

    The two keys set (src/utils/env.ts refuses to start without
    JWT_SECRET), the expiry strings left to their defaults "15m" and "7d",
    two users, and a clock that starts at 1700000000000 ms. *)

Module Scenario.
Import Schema.

Definition env0 : Env :=
  {| env_JWT_SECRET := Some "access-key-0123456789abcdef0123456789";
     env_JWT_REFRESH_SECRET := Some "refresh-key-0123456789abcdef012345678";
     env_JWT_EXPIRES_IN := None; env_JWT_REFRESH_EXPIRES_IN := None |}.

Definition alice : User :=
  {| user_id := "u-alice"; user_email := "alice@example.com"; user_phone := None;
     user_username := "alice"; user_password := Reference.hash "password123" "s1";
     user_name := "Alice"; user_status := ACTIVE; user_lastLoginAt := None |}.

Definition bob : User :=
  {| user_id := "u-bob"; user_email := "bob@example.com"; user_phone := None;
     user_username := "bob"; user_password := Reference.hash "hunter2hunter2" "s2";
     user_name := "Bob"; user_status := ACTIVE; user_lastLoginAt := None |}.

Definition db0 : Db :=
  {| users := [alice; bob];
     roles := [ {| role_id := "r-user"; role_name := "user" |};
                {| role_id := "r-admin"; role_name := "admin" |} ];
     permissions :=
       [ {| perm_id := "p1"; perm_action := "read"; perm_resource := "documents" |};
         {| perm_id := "p2"; perm_action := "*"; perm_resource := "users" |};
         {| perm_id := "p3"; perm_action := "*"; perm_resource := "*" |} ];
     rolePermissions :=
       [ {| rp_roleId := "r-user"; rp_permissionId := "p1" |};
         {| rp_roleId := "r-user"; rp_permissionId := "p2" |};
         {| rp_roleId := "r-admin"; rp_permissionId := "p3" |} ];
     userRoles :=
       [ {| ur_userId := "u-alice"; ur_roleId := "r-user" |};
         {| ur_userId := "u-bob"; ur_roleId := "r-admin" |} ];
     refreshTokens := [] |}.

(** Readings follow one another by a few milliseconds. *)
Definition world0 : World :=
  {| db := db0; clock := 1700000000000;
     ticks := [120; 3; 2; 4; 1; 2; 3; 2; 2; 1; 3; 2; 2; 1; 3; 2]%N;
     uuids := ["id-1"; "id-2"; "id-3"; "id-4"; "id-5"; "id-6"];
     salts := ["s3"; "s4"] |}.

(** The same deployment with five seconds between the third and the
    fourth reading. *)
Definition world1 : World :=
  {| db := db0; clock := 1700000000000;
     ticks := [120; 3; 2; 5000; 3; 2; 4; 1; 2; 3; 2; 2]%N;
     uuids := ["id-1"; "id-2"; "id-3"; "id-4"; "id-5"; "id-6"];
     salts := ["s3"; "s4"] |}.

(** Alice's password, and the two logins and the refresh of the runs
    below, on the reference instance. *)
(** Alice's row once she has logged in at the readings of [world1]. *)
Definition alice_logged_in : User :=
  {| user_id := "u-alice"; user_email := "alice@example.com"; user_phone := None;
     user_username := "alice"; user_password := Reference.hash "password123" "s1";
     user_name := "Alice"; user_status := ACTIVE;
     user_lastLoginAt := Some 1700000005125 |}.

Definition login_alice : M (AuthService.AuthResult) :=
  AuthService.login (jwt := Reference.jwt) (hasher := Reference.hasher) env0
    "alice@example.com" "password123".

Definition refresh0 (token : string) : M AuthService.RefreshResult :=
  AuthService.refresh (jwt := Reference.jwt) env0 token.

(** The registration of the spec's example scenario. *)
Definition register_carol : M (AuthService.AuthResult) :=
  AuthService.register (jwt := Reference.jwt) (hasher := Reference.hasher) env0
    {| UserService.nu_email := "carol@example.com";
       UserService.nu_username := "carol";
       UserService.nu_password := "password123";
       UserService.nu_name := None; UserService.nu_phone := None |}.

(** A deployment restarted with an expiry string outside the grammar. *)
Definition env_bad : Env :=
  {| env_JWT_SECRET := env_JWT_SECRET env0;
     env_JWT_REFRESH_SECRET := env_JWT_REFRESH_SECRET env0;
     env_JWT_EXPIRES_IN := Some "15 minutes"; env_JWT_REFRESH_EXPIRES_IN := None |}.

End Scenario.

(** ** What a registration looks up and writes *)

Module Registration.
Import Schema.

(** The tests of [emailExists] and [usernameExists]. *)
Definition email_taken (email : string) (d : Db) : bool :=
  existsb (fun u => String.eqb (user_email u) email) (users d).

Definition username_taken (username : string) (d : Db) : bool :=
  existsb (fun u => String.eqb (user_username u) username) (users d).

Section Registration.
Context {hasher : PasswordHasher}.

(** The row [create] inserts for [data] in the world [w]. *)
Definition registered_user (data : UserService.NewUserData) (w : World) : User :=
  {| user_id := hd EmptyString (uuids w);
     user_email := UserService.nu_email data;
     user_phone := UserService.nu_phone data;
     user_username := UserService.nu_username data;
     user_password :=
       hash_password (UserService.nu_password data) (hd EmptyString (salts w));
     user_name := or_default (UserService.nu_name data) (UserService.nu_username data);
     user_status := ACTIVE;
     user_lastLoginAt := None |}.

End Registration.
End Registration.

(** ** What a login writes *)

Module LoginEffects.
Import Schema.

(** The update of [updateLastLogin] on one row. *)
Definition set_lastLogin (id : string) (now : Z) (u : User) : User :=
  if String.eqb (user_id u) id
  then {| user_id := user_id u; user_email := user_email u;
          user_phone := user_phone u; user_username := user_username u;
          user_password := user_password u; user_name := user_name u;
          user_status := user_status u; user_lastLoginAt := Some now |}
  else u.

End LoginEffects.

(** ** The key constraints of the tables, as a predicate *)

Module Integrity.
Import Schema.

(** What src/db/schema.ts declares for [users] and [refresh_tokens]:
    primary keys, unique columns, and the foreign key from a refresh token
    to its user. *)
Definition db_wf (d : Db) : Prop :=
  List.NoDup (map rt_id (refreshTokens d))
  /\ List.NoDup (map rt_token (refreshTokens d))
  /\ (forall r, In r (refreshTokens d) ->
                exists u, In u (users d) /\ user_id u = rt_userId r)
  /\ List.NoDup (map user_id (users d))
  /\ List.NoDup (map user_email (users d))
  /\ List.NoDup (map user_username (users d)).

(** A computation keeps [P] of the database, however it ends. *)
Definition preserves (P : Db -> Prop) {A} (m : M A) : Prop :=
  forall w, P (db w) -> P (db (snd (m w))).

End Integrity.

(** What is assumed of bcrypt: a password verifies against its own hash. *)
Class PasswordHasherLaws (hasher : PasswordHasher) : Prop := {
  verify_password_hash : forall password salt,
    verify_password password (hash_password password salt) = true
}.

(** ** More concrete requests on that deployment *)

Module Cases.
Import Schema.

(** An access token for Bob, issued in the second the clock starts in,
    and the header that carries it. *)
Definition bob_token : string :=
  Reference.sign (JwtUtil.accessPayload "u-bob" "bob@example.com" 1700000000 900)
    (JwtUtil.getJwtSecret Scenario.env0).

Definition bob_header : option string := Some ("Bearer " +:+ bob_token).

Definition alice_token : string :=
  Reference.sign (JwtUtil.accessPayload "u-alice" "alice@example.com" 1700000000 900)
    (JwtUtil.getJwtSecret Scenario.env0).

Definition alice_header : option string := Some ("Bearer " +:+ alice_token).

(** The registration of the spec's example scenario, as data. *)
Definition carol_data : UserService.NewUserData :=
  {| UserService.nu_email := "carol@example.com";
     UserService.nu_username := "carol";
     UserService.nu_password := "password123";
     UserService.nu_name := None; UserService.nu_phone := None |}.

Definition register0 (data : UserService.NewUserData) : M AuthService.AuthResult :=
  AuthService.register (jwt := Reference.jwt) (hasher := Reference.hasher)
    Scenario.env0 data.

Definition login0 (email password : string) : M AuthService.AuthResult :=
  AuthService.login (jwt := Reference.jwt) (hasher := Reference.hasher)
    Scenario.env0 email password.

End Cases.

(** * Properties *)

(** ** The model on small inputs *)

Example parseExpiresIn_15m : Duration.parseExpiresIn "15m" = Ok 900.
Proof. reflexivity. Qed.

Example parseExpiresIn_7d : Duration.parseExpiresIn "7d" = Ok 604800.
Proof. reflexivity. Qed.

Example parseExpiresIn_leading_zeros : Duration.parseExpiresIn "007s" = Ok 7.
Proof. reflexivity. Qed.

Example parseExpiresIn_no_unit :
  Duration.parseExpiresIn "900"
  = Err "Invalid expires format. Use format: 1s, 1m, 1h, 1d".
Proof. reflexivity. Qed.

Example parseExpirationToSeconds_1h : Duration.parseExpirationToSeconds "1h" = 3600.
Proof. reflexivity. Qed.

Example parseExpirationToSeconds_space : Duration.parseExpirationToSeconds "15 m" = 900.
Proof. reflexivity. Qed.

Example parseExpirationToSeconds_empty : Duration.parseExpirationToSeconds "" = 900.
Proof. reflexivity. Qed.

Example uniq_keeps_first :
  UserService.uniq [] ["a:b"; "c:d"; "a:b"; "e:f"; "c:d"] = ["a:b"; "c:d"; "e:f"].
Proof. reflexivity. Qed.

Example alice_permissions :
  fst (UserService.findByIdWithRoles "u-alice" Scenario.world0)
  = Ok (Some {| UserService.uwr_user := Schema.publicUserSchema_parse Scenario.alice;
                UserService.uwr_roles := ["user"];
                UserService.uwr_permissions := ["documents:read"; "users:*"] |}).
Proof. reflexivity. Qed.

Example login_then_refresh_later :
  exists r1 w1 r2 w2,
    Scenario.login_alice Scenario.world1 = (Ok r1, w1)
    /\ Scenario.refresh0 (AuthService.ar_refreshToken r1) w1 = (Ok r2, w2)
    /\ AuthService.rr_refreshToken r2 <> AuthService.ar_refreshToken r1
    /\ fst (Scenario.refresh0 (AuthService.ar_refreshToken r1) w2)
       = Err "Invalid or expired refresh token".
Proof.
  do 4 eexists.
  split; [vm_compute; reflexivity|].
  split; [vm_compute; reflexivity|].
  split; [vm_compute; discriminate|vm_compute; reflexivity].
Qed.

Example logout_is_idempotent (token : string) (w : World) :
  db (snd (AuthService.logout token (snd (AuthService.logout token w))))
  = db (snd (AuthService.logout token w)).
Proof.
  unfold AuthService.logout, modify_db. simpl.
  unfold Schema.set_refreshTokens. simpl. f_equal.
  induction (Schema.refreshTokens (db w)) as [|r l IH]; [reflexivity|].
  simpl. destruct (negb (String.eqb (Schema.rt_token r) token)) eqn:E; simpl.
  - rewrite E. now f_equal.
  - exact IH.
Qed.

(** ** The duration grammar and the two parsers *)

Lemma append_String (c : ascii) (s t : string) :
  String c s +:+ t = String c (s +:+ t).
Proof. reflexivity. Qed.

Lemma append_empty (t : string) : EmptyString +:+ t = t.
Proof. reflexivity. Qed.

Section DurationFacts.
Import Duration.

Lemma split_last_app (ds : string) (u : ascii) :
  split_last (ds +:+ String u EmptyString) = Some (ds, u).
Proof.
  induction ds as [|c ds IH]; [reflexivity|].
  rewrite append_String. simpl. now rewrite IH.
Qed.

Lemma split_last_inv (s p : string) (l : ascii) :
  split_last s = Some (p, l) -> s = p +:+ String l EmptyString.
Proof.
  revert p l. induction s as [|c s IH]; intros p l; simpl; [discriminate|].
  destruct (split_last s) as [[p' l']|] eqn:E.
  - intros [= <- <-]. rewrite append_String. f_equal. now apply IH.
  - intros [= <- <-]. destruct s; [reflexivity|].
    simpl in E. destruct (split_last s) as [[? ?]|]; discriminate.
Qed.

Lemma regex_match_grammar (s : string) :
  in_grammar s <-> exists ds u, regex_match s = Some (ds, u).
Proof.
  split.
  - intros (ds & u & -> & Hne & Hd & Hu). exists ds, u.
    unfold regex_match. rewrite split_last_app.
    destruct ds; [congruence|]. now rewrite Hd, Hu.
  - intros (ds & u & H). unfold regex_match in H.
    destruct (split_last s) as [[p l]|] eqn:E; [|discriminate].
    destruct p as [|c p]; [discriminate|].
    destruct (all_digits (String c p) && is_unit l) eqn:B; [|discriminate].
    injection H as <- <-. apply andb_prop in B as [Hd Hu].
    exists (String c p), l. repeat split; try assumption.
    + now apply split_last_inv.
    + discriminate.
Qed.

Lemma regex_match_None (s : string) :
  ~ in_grammar s <-> regex_match s = None.
Proof.
  rewrite regex_match_grammar. split.
  - intros H. destruct (regex_match s) as [[ds u]|]; [|reflexivity].
    exfalso. apply H. now exists ds, u.
  - intros -> (ds & u & H). discriminate.
Qed.

(** On a string of the grammar the two parsers agree. *)
Lemma parsers_agree (s : string) (v : Z) :
  parseExpiresIn s = Ok v -> parseExpirationToSeconds s = v.
Proof.
  unfold parseExpiresIn, parseExpirationToSeconds, regex_match.
  destruct (split_last s) as [[ds u]|]; [|discriminate].
  destruct ds as [|c ds]; [discriminate|].
  destruct (all_digits (String c ds) && is_unit u) eqn:B; [|discriminate].
  apply andb_prop in B as [_ Hu]. intros [= <-].
  destruct u as [[] [] [] [] [] [] [] []]; try discriminate Hu; simpl; lia.
Qed.

End DurationFacts.

(** C5 (as stated, refuted): the parser the token issuer uses,
    [parseExpiresIn], raises an error on a string outside the grammar; here
    on "15 minutes", and [generateAccessToken] and [generateRefreshToken]
    configured with it fail too. *)
Lemma C5_issuer_parser_raises :
  ~ Duration.in_grammar "15 minutes"
  /\ Duration.parseExpiresIn "15 minutes"
     = Err "Invalid expires format. Use format: 1s, 1m, 1h, 1d"
  /\ (forall w,
        fst (JwtUtil.generateAccessToken (jwt := Reference.jwt) Scenario.env_bad
               "u-alice" "alice@example.com" w)
        = Err "Invalid expires format. Use format: 1s, 1m, 1h, 1d")
  /\ (forall env w,
        env_JWT_REFRESH_EXPIRES_IN env = Some "15 minutes" ->
        fst (JwtUtil.generateRefreshToken (jwt := Reference.jwt) env "u-alice" w)
        = Err "Invalid expires format. Use format: 1s, 1m, 1h, 1d").
Proof.
  split; [|split; [|split]].
  - apply regex_match_None. reflexivity.
  - reflexivity.
  - intros w. reflexivity.
  - intros env w H. unfold JwtUtil.generateRefreshToken, JwtUtil.JWT_REFRESH_EXPIRES_IN.
    rewrite H. reflexivity.
Qed.

(** C5 (amended): on every string outside the duration grammar the
    route-level parser [parseExpirationToSeconds] returns the default of 900
    seconds, and it is a total function, so it never raises; the token
    issuer's [parseExpiresIn] raises "Invalid expires format" on every such
    string. *)
Theorem C5_unparseable_expiry (s : string) :
  ~ Duration.in_grammar s ->
  Duration.parseExpirationToSeconds s = 900
  /\ Duration.parseExpiresIn s
     = Err "Invalid expires format. Use format: 1s, 1m, 1h, 1d".
Proof.
  intros H. apply regex_match_None in H.
  unfold Duration.parseExpirationToSeconds, Duration.parseExpiresIn.
  now rewrite H.
Qed.

Lemma C5_unparseable_expiry_witness :
  Duration.parseExpirationToSeconds "15 m" = 900
  /\ Duration.parseExpiresIn "15 m"
     = Err "Invalid expires format. Use format: 1s, 1m, 1h, 1d".
Proof.
  apply (C5_unparseable_expiry "15 m").
  apply regex_match_None. reflexivity.
Defined.

(** ** The reference instance satisfies the laws of the interface *)

Lemma append_assoc (a b c : string) : (a +:+ b) +:+ c = a +:+ (b +:+ c).
Proof.
  induction a as [|x a IH]; [reflexivity|].
  rewrite !append_String. now rewrite IH.
Qed.

Section ReferenceFacts.
Import Reference.

Lemma dec_enc_string (s r : string) :
  dec_string (enc_string s +:+ r) = Some (s, r).
Proof.
  induction s as [|c s IH]; [reflexivity|].
  simpl enc_string. rewrite !append_String. simpl. now rewrite IH.
Qed.

Lemma dec_enc_pos (p : positive) (r : string) :
  dec_pos (enc_pos p +:+ r) = Some (p, r).
Proof.
  induction p as [p IH|p IH|]; simpl enc_pos; rewrite append_String; simpl;
    try rewrite IH; reflexivity.
Qed.

Lemma dec_enc_Z (z : Z) (r : string) : dec_Z (enc_Z z +:+ r) = Some (z, r).
Proof.
  destruct z; simpl enc_Z; rewrite append_String; simpl;
    try rewrite dec_enc_pos; reflexivity.
Qed.

Lemma dec_enc_option (o r : _) : dec_option (enc_option o +:+ r) = Some (o, r).
Proof.
  destruct o; simpl enc_option; rewrite append_String; simpl;
    try rewrite dec_enc_string; reflexivity.
Qed.

Lemma decode_encode (p : Jwt.Payload) (r : string) :
  decode (encode p +:+ r) = Some (p, r).
Proof.
  unfold decode, encode. rewrite !append_assoc.
  rewrite dec_enc_string, dec_enc_option, dec_enc_string, !dec_enc_Z.
  now destruct p.
Qed.

#[export] Instance jwt_laws : JwtLaws Reference.jwt.
Proof.
  split.
  - intros p secret now [Hi He]. simpl. unfold verify, sign.
    rewrite decode_encode, String.eqb_refl. unfold claims_hold.
    replace (now <? Jwt.exp p)%Z with true by (symmetry; apply Z.ltb_lt; lia).
    replace (Jwt.iat p <=? now)%Z with true by (symmetry; apply Z.leb_le; lia).
    now rewrite !orb_true_r.
  - intros p secret secret' now p'. simpl. unfold verify, sign.
    rewrite decode_encode.
    destruct (String.eqb secret secret' && claims_hold p now); congruence.
Qed.

End ReferenceFacts.

(** ** The token issuer *)

Section IssuerFacts.
Context {jwt : JwtLib}.
Variable env : Env.

Lemma generateAccessToken_inv (userId email token : string) (w w1 : World) :
  JwtUtil.generateAccessToken env userId email w = (Ok token, w1) ->
  exists d,
    Duration.parseExpiresIn (JwtUtil.JWT_EXPIRES_IN env) = Ok d
    /\ token = jwt_sign (JwtUtil.accessPayload userId email (next_reading w / 1000) d)
                 (JwtUtil.getJwtSecret env)
    /\ w1 = tick w.
Proof.
  unfold JwtUtil.generateAccessToken, bind, lift_result, Date_now, ret.
  destruct (Duration.parseExpiresIn _) as [d|msg]; [|discriminate].
  intros [= <- <-]. now exists d.
Qed.

Lemma generateRefreshToken_inv (userId token : string) (expiresAt : Z)
    (w w1 : World) :
  JwtUtil.generateRefreshToken env userId w = (Ok (token, expiresAt), w1) ->
  exists d,
    Duration.parseExpiresIn (JwtUtil.JWT_REFRESH_EXPIRES_IN env) = Ok d
    /\ token = jwt_sign (JwtUtil.refreshPayload userId (next_reading w / 1000) d)
                 (JwtUtil.getRefreshSecret env)
    /\ expiresAt = (next_reading w / 1000 + d) * 1000
    /\ w1 = tick w.
Proof.
  unfold JwtUtil.generateRefreshToken, bind, lift_result, Date_now, ret.
  destruct (Duration.parseExpiresIn _) as [d|msg]; [|discriminate].
  intros [= <- <- <-]. now exists d.
Qed.

(** What the two verifiers compute, in one equation each. *)
Lemma verifyAccessToken_eq (token : string) (w : World) :
  JwtUtil.verifyAccessToken env token w =
  (match jwt_verify token (JwtUtil.getJwtSecret env) (next_reading w / 1000) with
   | Some p => if String.eqb (Jwt.type p) "access" then Ok p
               else Err "Invalid or expired access token"
   | None => Err "Invalid or expired access token"
   end, tick w).
Proof.
  unfold JwtUtil.verifyAccessToken, JwtUtil.verify, catch_rethrow, bind, Date_now,
    ret, throw.
  destruct (jwt_verify _ _ _) as [p|]; [|reflexivity].
  now destruct (String.eqb (Jwt.type p) "access").
Qed.

Lemma verifyRefreshToken_eq (token : string) (w : World) :
  JwtUtil.verifyRefreshToken env token w =
  (match jwt_verify token (JwtUtil.getRefreshSecret env) (next_reading w / 1000) with
   | Some p => if String.eqb (Jwt.type p) "refresh" then Ok p
               else Err "Invalid or expired refresh token"
   | None => Err "Invalid or expired refresh token"
   end, tick w).
Proof.
  unfold JwtUtil.verifyRefreshToken, JwtUtil.verify, catch_rethrow, bind, Date_now,
    ret, throw.
  destruct (jwt_verify _ _ _) as [p|]; [|reflexivity].
  now destruct (String.eqb (Jwt.type p) "refresh").
Qed.

End IssuerFacts.

Section TokenKinds.
Context {jwt : JwtLib} {laws : JwtLaws jwt}.
Variable env : Env.

(** A signed token of one kind is never accepted by the verifier of the
    other kind, under whatever key and at whatever time. *)
Lemma refresh_token_not_access (userId : string) (now d : Z) (w : World) :
  fst (JwtUtil.verifyAccessToken env
         (jwt_sign (JwtUtil.refreshPayload userId now d) (JwtUtil.getRefreshSecret env)) w)
  = Err "Invalid or expired access token".
Proof.
  rewrite verifyAccessToken_eq. simpl.
  destruct (jwt_verify _ _ _) as [p|] eqn:E; [|reflexivity].
  apply jwt_verify_sound in E. now subst p.
Qed.

Lemma access_token_not_refresh (userId email : string) (now d : Z) (w : World) :
  fst (JwtUtil.verifyRefreshToken env
         (jwt_sign (JwtUtil.accessPayload userId email now d) (JwtUtil.getJwtSecret env)) w)
  = Err "Invalid or expired refresh token".
Proof.
  rewrite verifyRefreshToken_eq. simpl.
  destruct (jwt_verify _ _ _) as [p|] eqn:E; [|reflexivity].
  apply jwt_verify_sound in E. now subst p.
Qed.

End TokenKinds.

(** C3: an access token issued for [userId] and [email] verifies as an
    access token, at any reading within its lifetime, to a payload with
    that [userId] and [email]; a token issued by [generateRefreshToken] is
    rejected by [verifyAccessToken], and a token issued by
    [generateAccessToken] is rejected by [verifyRefreshToken]. *)
Theorem C3_token_kinds {jwt : JwtLib} {laws : JwtLaws jwt} (env : Env)
    (userId email userId' : string) (wa wa' wr wr' wv : World)
    (accessToken refreshToken : string) (expiresAt d : Z) :
  JwtUtil.generateAccessToken env userId email wa = (Ok accessToken, wa') ->
  JwtUtil.generateRefreshToken env userId' wr = (Ok (refreshToken, expiresAt), wr') ->
  Duration.parseExpiresIn (JwtUtil.JWT_EXPIRES_IN env) = Ok d ->
  clock wa' / 1000 <= next_reading wv / 1000 < clock wa' / 1000 + d ->
  (exists p, JwtUtil.verifyAccessToken env accessToken wv = (Ok p, tick wv)
             /\ Jwt.userId p = userId /\ Jwt.email p = Some email)
  /\ (forall w, fst (JwtUtil.verifyAccessToken env refreshToken w)
                = Err "Invalid or expired access token")
  /\ (forall w, fst (JwtUtil.verifyRefreshToken env accessToken w)
                = Err "Invalid or expired refresh token").
Proof.
  intros Ha Hr Hd Hwin.
  apply generateAccessToken_inv in Ha as (d' & Hd' & -> & ->).
  apply generateRefreshToken_inv in Hr as (dr & _ & -> & _ & _).
  rewrite Hd in Hd'. injection Hd' as <-.
  split; [|split].
  - eexists. rewrite verifyAccessToken_eq.
    rewrite jwt_verify_sign by (simpl in *; lia).
    simpl. repeat split.
  - intros w. apply refresh_token_not_access.
  - intros w. apply access_token_not_refresh.
Qed.

Lemma C3_token_kinds_witness :
  let accessToken :=
    Reference.sign (JwtUtil.accessPayload "u-alice" "alice@example.com" 1700000000 900)
      (JwtUtil.getJwtSecret Scenario.env0) in
  let refreshToken :=
    Reference.sign (JwtUtil.refreshPayload "u-alice" 1700000000 604800)
      (JwtUtil.getRefreshSecret Scenario.env0) in
  let wv := tick (tick Scenario.world0) in
  (exists p, JwtUtil.verifyAccessToken (jwt := Reference.jwt) Scenario.env0 accessToken wv = (Ok p, tick wv)
             /\ Jwt.userId p = "u-alice" /\ Jwt.email p = Some "alice@example.com")
  /\ (forall w, fst (JwtUtil.verifyAccessToken (jwt := Reference.jwt) Scenario.env0 refreshToken w)
                = Err "Invalid or expired access token")
  /\ (forall w, fst (JwtUtil.verifyRefreshToken (jwt := Reference.jwt) Scenario.env0 accessToken w)
                = Err "Invalid or expired refresh token").
Proof.
  intros accessToken refreshToken wv.
  apply (C3_token_kinds Scenario.env0 "u-alice" "alice@example.com" "u-alice"
           Scenario.world0 (tick Scenario.world0)
           Scenario.world0 (tick Scenario.world0) wv
           accessToken refreshToken 1700604800000 900).
  - reflexivity.
  - reflexivity.
  - reflexivity.
  - vm_compute. split; [discriminate | reflexivity].
Defined.

(** ** Running the monad *)

Lemma bind_Ok_inv {A B} (m : M A) (k : A -> M B) (w w2 : World) (b : B) :
  bind m k w = (Ok b, w2) ->
  exists a w1, m w = (Ok a, w1) /\ k a w1 = (Ok b, w2).
Proof.
  unfold bind. destruct (m w) as [[a|msg] w1]; [|discriminate].
  intros H. now exists a, w1.
Qed.

Lemma bind_Err_inv {A B} (m : M A) (k : A -> M B) (w w2 : World) (e : string) :
  bind m k w = (Err e, w2) ->
  m w = (Err e, w2) \/ exists a w1, m w = (Ok a, w1) /\ k a w1 = (Err e, w2).
Proof.
  unfold bind. destruct (m w) as [[a|msg] w1].
  - intros H. right. now exists a, w1.
  - intros [= <- <-]. now left.
Qed.

Lemma bind_eq {A B} (m : M A) (k : A -> M B) (w w1 : World) (a : A) :
  m w = (Ok a, w1) -> bind m k w = k a w1.
Proof. unfold bind. now intros ->. Qed.

(** The lookups of the user service read the database and nothing else. *)
Lemma findByEmail_eq (email : string) (w : World) :
  UserService.findByEmail email w =
  (Ok (List.find (fun u => String.eqb (Schema.user_email u) email)
         (Schema.users (db w))), w).
Proof. reflexivity. Qed.

Lemma findById_eq (id : string) (w : World) :
  UserService.findById id w =
  (Ok (option_map Schema.publicUserSchema_parse
         (List.find (fun u => String.eqb (Schema.user_id u) id)
            (Schema.users (db w)))), w).
Proof. reflexivity. Qed.

Lemma findByIdWithRoles_pure (id : string) (w : World) :
  exists r, UserService.findByIdWithRoles id w = (Ok r, w).
Proof.
  unfold UserService.findByIdWithRoles, bind, get_db.
  destruct (List.find _ _); eexists; reflexivity.
Qed.

Lemma mem_In (x : string) (l : list string) :
  UserService.mem x l = true <-> In x l.
Proof.
  unfold UserService.mem. rewrite existsb_exists. split.
  - intros (y & Hy & E). apply String.eqb_eq in E. now subst.
  - intros H. exists x. split; [assumption|apply String.eqb_refl].
Qed.

(** ** Login *)

(** C4: a login for an email no user has and a login with a wrong password
    for an existing user fail with the same message, "Invalid email or
    password", and the handler answers both with the same 401 envelope. *)
Theorem C4_login_failures_indistinguishable
    {jwt : JwtLib} {hasher : PasswordHasher} (env : Env)
    (e p e' p' : string) (w w' : World) (u : Schema.User) :
  fst (UserService.findByEmail e w) = Ok None ->
  fst (UserService.findByEmail e' w') = Ok (Some u) ->
  verify_password p' (Schema.user_password u) = false ->
  fst (AuthService.login env e p w) = Err "Invalid email or password"
  /\ fst (AuthService.login env e' p' w') = Err "Invalid email or password"
  /\ fst (AuthRoutes.login_handler env e p w)
     = AuthRoutes.errorResponse "Invalid email or password" 401 "LOGIN_FAILED"
  /\ fst (AuthRoutes.login_handler env e' p' w')
     = fst (AuthRoutes.login_handler env e p w).
Proof.
  rewrite !findByEmail_eq. simpl. intros [= H1] [= H2] Hpw.
  assert (L1 : AuthService.login env e p w = (Err "Invalid email or password", w)).
  { unfold AuthService.login. rewrite (bind_eq _ _ _ _ _ (findByEmail_eq e w)).
    now rewrite H1. }
  assert (L2 : AuthService.login env e' p' w' = (Err "Invalid email or password", w')).
  { unfold AuthService.login. rewrite (bind_eq _ _ _ _ _ (findByEmail_eq e' w')).
    rewrite H2, Hpw. reflexivity. }
  unfold AuthRoutes.login_handler. rewrite L1, L2. repeat split.
Qed.

Lemma C4_login_failures_indistinguishable_witness :
  fst (AuthService.login (jwt := Reference.jwt) (hasher := Reference.hasher)
         Scenario.env0 "carol@example.com" "password123" Scenario.world0)
  = Err "Invalid email or password"
  /\ fst (AuthService.login (jwt := Reference.jwt) (hasher := Reference.hasher)
            Scenario.env0 "alice@example.com" "password124" Scenario.world0)
     = Err "Invalid email or password"
  /\ fst (AuthRoutes.login_handler (jwt := Reference.jwt) (hasher := Reference.hasher)
            Scenario.env0 "carol@example.com" "password123" Scenario.world0)
     = AuthRoutes.errorResponse "Invalid email or password" 401 "LOGIN_FAILED"
  /\ fst (AuthRoutes.login_handler (jwt := Reference.jwt) (hasher := Reference.hasher)
            Scenario.env0 "alice@example.com" "password124" Scenario.world0)
     = fst (AuthRoutes.login_handler (jwt := Reference.jwt) (hasher := Reference.hasher)
              Scenario.env0 "carol@example.com" "password123" Scenario.world0).
Proof.
  apply (C4_login_failures_indistinguishable (jwt := Reference.jwt)
           (hasher := Reference.hasher) Scenario.env0
           "carol@example.com" "password123" "alice@example.com" "password124"
           Scenario.world0 Scenario.world0 Scenario.alice).
  - reflexivity.
  - reflexivity.
  - reflexivity.
Defined.

(** ** The permission guard *)

(** C8: for a principal whose projection resolves to the permission list
    [S], the guard calls [next()] exactly when [S] holds one of
    "resource:action", "resource:*", "*:action", "*:*"; otherwise it answers
    403 FORBIDDEN. *)
Theorem C8_requirePermission_wildcards (resource action : string)
    (user : Jwt.Payload) (w : World) (userWithRoles : UserService.UserWithRoles) :
  fst (UserService.findByIdWithRoles (Jwt.userId user) w) = Ok (Some userWithRoles) ->
  let S := UserService.uwr_permissions userWithRoles in
  let granted :=
    In (resource +:+ ":" +:+ action) S \/ In (resource +:+ ":*") S
    \/ In ("*:" +:+ action) S \/ In "*:*" S in
  (fst (Middleware.requirePermission resource action (Some user) w) = Ok Middleware.Next
   <-> granted)
  /\ (~ granted ->
      fst (Middleware.requirePermission resource action (Some user) w)
      = Ok (Middleware.Respond "Insufficient permissions" 403 "FORBIDDEN"
              (Some (resource +:+ ":" +:+ action)))).
Proof.
  intros Hfind S granted.
  destruct (findByIdWithRoles_pure (Jwt.userId user) w) as [r Hr].
  rewrite Hr in Hfind. simpl in Hfind. injection Hfind as ->.
  unfold Middleware.requirePermission. rewrite (bind_eq _ _ _ _ _ Hr).
  fold S. unfold UserService.permission_string.
  assert (Hiff :
    UserService.mem "*:*" S || UserService.mem (resource +:+ ":*") S
    || UserService.mem ("*:" +:+ action) S
    || UserService.mem (resource +:+ ":" +:+ action) S = true <-> granted).
  { rewrite !orb_true_iff, !mem_In. unfold granted. tauto. }
  destruct (_ || _ || _ || _) eqn:E; simpl.
  - split; [tauto|]. intros Hn. exfalso. apply Hn, Hiff. reflexivity.
  - split; [|reflexivity]. split; [discriminate|].
    intros Hg. apply Hiff in Hg. discriminate.
Qed.

Lemma C8_requirePermission_wildcards_witness :
  let S := ["documents:read"; "users:*"] in
  let user := JwtUtil.accessPayload "u-alice" "alice@example.com" 1700000000 900 in
  let granted :=
    In ("users" +:+ ":" +:+ "delete") S \/ In ("users" +:+ ":*") S
    \/ In ("*:" +:+ "delete") S \/ In "*:*" S in
  (fst (Middleware.requirePermission "users" "delete" (Some user) Scenario.world0)
   = Ok Middleware.Next <-> granted)
  /\ (~ granted ->
      fst (Middleware.requirePermission "users" "delete" (Some user) Scenario.world0)
      = Ok (Middleware.Respond "Insufficient permissions" 403 "FORBIDDEN"
              (Some ("users" +:+ ":" +:+ "delete")))).
Proof.
  apply (C8_requirePermission_wildcards "users" "delete"
           (JwtUtil.accessPayload "u-alice" "alice@example.com" 1700000000 900)
           Scenario.world0
           {| UserService.uwr_user := Schema.publicUserSchema_parse Scenario.alice;
              UserService.uwr_roles := ["user"];
              UserService.uwr_permissions := ["documents:read"; "users:*"] |}).
  reflexivity.
Defined.

(** ** The refresh-token table *)

Section StoreFacts.
Import Schema.

Lemma find_storedToken_Some (d : Db) (token userId : string) (now : Z)
    (r : RefreshToken) :
  AuthService.find_storedToken d token userId now = Some r ->
  In r (refreshTokens d) /\ rt_token r = token /\ rt_userId r = userId
  /\ now < rt_expiresAt r.
Proof.
  unfold AuthService.find_storedToken. intros H.
  apply find_some in H as [Hin Hb].
  apply andb_prop in Hb as [Hb Ht]. apply andb_prop in Hb as [Hk Hu].
  apply String.eqb_eq in Hk, Hu. apply Z.ltb_lt in Ht. auto.
Qed.

(** The query finds a row exactly when the table holds a row with that
    token string, that user and an expiry after [now]. *)
Lemma find_storedToken_exists (d : Db) (token userId : string) (now : Z) :
  (exists r, AuthService.find_storedToken d token userId now = Some r)
  <-> (exists r, In r (refreshTokens d) /\ rt_token r = token
                 /\ rt_userId r = userId /\ now < rt_expiresAt r).
Proof.
  split.
  - intros [r H]. exists r. now apply find_storedToken_Some.
  - intros (r & Hin & Hk & Hu & Ht). unfold AuthService.find_storedToken.
    destruct (List.find _ _) as [r'|] eqn:E; [now exists r'|].
    exfalso. apply (find_none _ _ E) in Hin.
    rewrite Hk, Hu, !String.eqb_refl in Hin. simpl in Hin.
    apply Z.ltb_ge in Hin. lia.
Qed.

Lemma find_storedToken_None (d : Db) (token userId : string) (now : Z) :
  (forall r, In r (refreshTokens d) -> rt_token r = token -> rt_userId r <> userId) ->
  AuthService.find_storedToken d token userId now = None.
Proof.
  intros H. destruct (AuthService.find_storedToken d token userId now) as [r|] eqn:E;
    [|reflexivity].
  apply find_storedToken_Some in E as (Hin & Hk & Hu & _).
  now destruct (H r Hin Hk).
Qed.

End StoreFacts.

(** ** Refresh, step by step *)

Section RefreshFacts.
Context {jwt : JwtLib}.
Variable env : Env.
Import Schema.

(** [refresh] leaves with "Invalid or expired refresh token" after one
    reading when the token does not verify. *)
Lemma refresh_unverified (token : string) (w : World) (msg : string) :
  fst (JwtUtil.verifyRefreshToken env token w) = Err msg ->
  AuthService.refresh env token w = (Err "Invalid or expired refresh token", tick w).
Proof.
  rewrite verifyRefreshToken_eq. simpl. intros H.
  unfold AuthService.refresh, bind. rewrite verifyRefreshToken_eq.
  destruct (jwt_verify _ _ _) as [p|]; [|reflexivity].
  destruct (String.eqb (Jwt.type p) "refresh"); [discriminate|reflexivity].
Qed.

(** After a successful verification, [refresh] is decided by the query,
    the user lookup and the rotation. *)
Lemma refresh_verified (token : string) (w : World) (payload : Jwt.Payload) :
  fst (JwtUtil.verifyRefreshToken env token w) = Ok payload ->
  AuthService.refresh env token w =
  match AuthService.find_storedToken (db w) token (Jwt.userId payload)
          (next_reading (tick w)) with
  | None => (Err "Invalid or expired refresh token", tick (tick w))
  | Some storedToken =>
      match List.find (fun u => String.eqb (user_id u) (Jwt.userId payload))
              (users (db w)) with
      | None => (Err "User not found", tick (tick w))
      | Some userRecord =>
          if bool_decide (user_status userRecord = ACTIVE)
          then AuthService.rotate env payload storedToken
                 (publicUserSchema_parse userRecord) (tick (tick w))
          else (Err "Account is deactivated or suspended", tick (tick w))
      end
  end.
Proof.
  intros H. unfold AuthService.refresh.
  assert (Hv : JwtUtil.verifyRefreshToken env token w = (Ok payload, tick w)).
  { rewrite verifyRefreshToken_eq in *. simpl in H. now rewrite H. }
  rewrite (bind_eq _ _ _ _ _ Hv).
  unfold bind at 1. unfold Date_now. unfold bind at 1. unfold get_db.
  change (db (tick (tick w))) with (db w).
  destruct (AuthService.find_storedToken _ _ _ _) as [storedToken|]; [|reflexivity].
  unfold bind at 1. rewrite findById_eq.
  change (db (tick (tick w))) with (db w).
  destruct (List.find _ (users (db w))) as [userRecord|]; [|reflexivity].
  unfold option_map.
  change (pu_status (publicUserSchema_parse userRecord)) with (user_status userRecord).
  destruct (bool_decide (user_status userRecord = ACTIVE)); reflexivity.
Qed.

End RefreshFacts.

Section RotateFacts.
Context {jwt : JwtLib}.
Variable env : Env.
Import Schema.

Lemma rotate_eq (payload : Jwt.Payload) (storedToken : RefreshToken)
    (userRecord : PublicUser) (w : World) :
  AuthService.rotate env payload storedToken userRecord w =
  let w1 := set_db (AuthService.without_row storedToken) w in
  match Duration.parseExpiresIn (JwtUtil.JWT_EXPIRES_IN env) with
  | Err msg => (Err msg, w1)
  | Ok da =>
      match Duration.parseExpiresIn (JwtUtil.JWT_REFRESH_EXPIRES_IN env) with
      | Err msg => (Err msg, tick w1)
      | Ok dr =>
          let w3 := snd (randomUUID (tick (tick w1))) in
          let row := AuthService.replacement_row env payload dr w in
          if rt_insertable (db w1) row
          then (Ok {| AuthService.rr_accessToken :=
                        jwt_sign (JwtUtil.accessPayload (Jwt.userId payload)
                                    (pu_email userRecord) (next_reading w / 1000) da)
                          (JwtUtil.getJwtSecret env);
                      AuthService.rr_refreshToken := rt_token row |},
                set_db (set_refreshTokens (fun l => (l ++ [row])%list)) w3)
          else (Err constraint_violation, w3)
      end
  end.
Proof.
  unfold AuthService.rotate. unfold bind at 1. unfold modify_db.
  unfold bind at 1. unfold JwtUtil.generateAccessToken.
  unfold bind at 1. unfold lift_result.
  destruct (Duration.parseExpiresIn (JwtUtil.JWT_EXPIRES_IN env)) as [da|msg];
    [|reflexivity].
  unfold bind at 1. unfold Date_now, ret.
  unfold bind at 1. unfold JwtUtil.generateRefreshToken.
  unfold bind at 1. unfold lift_result.
  destruct (Duration.parseExpiresIn (JwtUtil.JWT_REFRESH_EXPIRES_IN env)) as [dr|msg];
    [|reflexivity].
  unfold bind at 1. unfold Date_now, ret.
  unfold bind at 1. unfold randomUUID.
  unfold bind at 1. unfold AuthService.insert_refreshToken.
  unfold bind at 1. unfold get_db. simpl.
  unfold AuthService.replacement_row. simpl.
  destruct (rt_insertable _ _); reflexivity.
Qed.

(** The rotation succeeds exactly when both configured durations parse and
    the new row violates no constraint of the table. *)
Lemma rotate_ok_iff (payload : Jwt.Payload) (storedToken : RefreshToken)
    (userRecord : PublicUser) (w : World) :
  is_ok (fst (AuthService.rotate env payload storedToken userRecord w)) = true
  <-> exists da dr,
        Duration.parseExpiresIn (JwtUtil.JWT_EXPIRES_IN env) = Ok da
        /\ Duration.parseExpiresIn (JwtUtil.JWT_REFRESH_EXPIRES_IN env) = Ok dr
        /\ rt_insertable (AuthService.without_row storedToken (db w))
             (AuthService.replacement_row env payload dr w) = true.
Proof.
  rewrite rotate_eq. cbv zeta.
  destruct (Duration.parseExpiresIn (JwtUtil.JWT_EXPIRES_IN env)) as [da|msg].
  - destruct (Duration.parseExpiresIn (JwtUtil.JWT_REFRESH_EXPIRES_IN env)) as [dr|msg].
    + change (db (set_db (AuthService.without_row storedToken) w))
        with (AuthService.without_row storedToken (db w)).
      destruct (rt_insertable _ _) eqn:E; simpl.
      * split; [|reflexivity]. intros _. now exists da, dr.
      * split; [discriminate|]. intros (da' & dr' & _ & [= <-] & H). congruence.
    + simpl. split; [discriminate|]. intros (? & ? & _ & ? & _). discriminate.
  - simpl. split; [discriminate|]. intros (? & ? & ? & _). discriminate.
Qed.

End RotateFacts.

(** ** Refresh: when it succeeds, and what a failure leaves behind *)

Section RefreshOutcome.
Context {jwt : JwtLib}.
Variable env : Env.
Import Schema.

Lemma verifyRefreshToken_cases (token : string) (w : World) :
  (exists payload, fst (JwtUtil.verifyRefreshToken env token w) = Ok payload)
  \/ fst (JwtUtil.verifyRefreshToken env token w)
     = Err "Invalid or expired refresh token".
Proof.
  rewrite verifyRefreshToken_eq. simpl.
  destruct (jwt_verify _ _ _) as [p|]; [|now right].
  destruct (String.eqb (Jwt.type p) "refresh"); [left; now exists p|now right].
Qed.

(** Either the checks pass, for the payload, the row and the user the
    call itself computes, or they pass for none. *)
Lemma classic_checks (token : string) (w : World) :
  (exists payload storedToken userRecord,
     AuthService.refresh_checks env token w payload storedToken userRecord)
  \/ (forall payload storedToken userRecord,
        ~ AuthService.refresh_checks env token w payload storedToken userRecord).
Proof.
  unfold AuthService.refresh_checks.
  destruct (fst (JwtUtil.verifyRefreshToken env token w)) as [payload|msg] eqn:Hv.
  - destruct (AuthService.find_storedToken (db w) token (Jwt.userId payload)
                (next_reading (tick w))) as [storedToken|] eqn:Hf.
    + destruct (List.find (fun u => String.eqb (user_id u) (Jwt.userId payload))
                  (users (db w))) as [userRecord|] eqn:Hu.
      * destruct (decide (user_status userRecord = ACTIVE)) as [Hs|Hs].
        -- left. exists payload, storedToken, userRecord. auto.
        -- right. intros p r u ([= <-] & _ & Hu' & Hs').
           rewrite Hu in Hu'. injection Hu' as <-. contradiction.
      * right. intros p r u ([= <-] & _ & Hu' & _). congruence.
    + right. intros p r u ([= <-] & Hf' & _). congruence.
  - right. intros p r u (Hv' & _). discriminate.
Qed.

Lemma refresh_checked (token : string) (w : World) (payload : Jwt.Payload)
    (storedToken : RefreshToken) (userRecord : User) :
  AuthService.refresh_checks env token w payload storedToken userRecord ->
  AuthService.refresh env token w
  = AuthService.rotate env payload storedToken (publicUserSchema_parse userRecord)
      (tick (tick w)).
Proof.
  intros (Hv & Hf & Hu & Hs). rewrite (refresh_verified env token w payload Hv).
  rewrite Hf, Hu. now rewrite bool_decide_eq_true_2.
Qed.

(** A call whose checks do not all pass fails with one of three messages
    and returns the database it found. *)
Lemma refresh_unchecked (token : string) (w : World) :
  (forall payload storedToken userRecord,
     ~ AuthService.refresh_checks env token w payload storedToken userRecord) ->
  db (snd (AuthService.refresh env token w)) = db w
  /\ (fst (AuthService.refresh env token w) = Err "Invalid or expired refresh token"
      \/ fst (AuthService.refresh env token w) = Err "User not found"
      \/ fst (AuthService.refresh env token w)
         = Err "Account is deactivated or suspended").
Proof.
  intros Hno.
  destruct (verifyRefreshToken_cases token w) as [[payload Hv]|He].
  - rewrite (refresh_verified env token w payload Hv).
    destruct (AuthService.find_storedToken _ _ _ _) as [storedToken|] eqn:Hf;
      [|split; [reflexivity|now left]].
    destruct (List.find _ (users (db w))) as [userRecord|] eqn:Hu;
      [|split; [reflexivity|right; now left]].
    destruct (bool_decide (user_status userRecord = ACTIVE)) eqn:Hs;
      [|split; [reflexivity|right; now right]].
    apply bool_decide_eq_true_1 in Hs.
    exfalso. apply (Hno payload storedToken userRecord). repeat split; assumption.
  - rewrite (refresh_unverified env token w _ He). split; [reflexivity|now left].
Qed.

End RefreshOutcome.

(** C9 (as stated, refuted): a refresh can fail after its checks have
    passed and the consumed row is already deleted.  The server is started
    with JWT_EXPIRES_IN="15 minutes", a string outside the grammar, on a
    database in which Alice has a session.  Her refresh token passes every
    check, its row is deleted, and then [generateAccessToken] fails in
    [parseExpiresIn], which throws on such a string: the call fails and
    the row is gone. *)
Lemma C9_failed_refresh_lost_row :
  exists r1 w1 w3,
    Scenario.login_alice Scenario.world1 = (Ok r1, w1)
    /\ AuthService.refresh (jwt := Reference.jwt) Scenario.env_bad
         (AuthService.ar_refreshToken r1) w1
       = (Err "Invalid expires format. Use format: 1s, 1m, 1h, 1d", w3)
    /\ existsb (fun r => String.eqb (Schema.rt_token r) (AuthService.ar_refreshToken r1))
         (Schema.refreshTokens (db w1)) = true
    /\ existsb (fun r => String.eqb (Schema.rt_token r) (AuthService.ar_refreshToken r1))
         (Schema.refreshTokens (db w3)) = false
    /\ db w3 <> db w1.
Proof.
  do 3 eexists.
  split; [vm_compute; reflexivity|].
  split; [vm_compute; reflexivity|].
  split; [vm_compute; reflexivity|].
  split; [vm_compute; reflexivity|].
  intros H. apply (f_equal (fun d => length (Schema.refreshTokens d))) in H.
  vm_compute in H. discriminate.
Qed.

(** The same loss through the insert: Alice logs in twice, five seconds
    apart, and redeems the first token in the second of the second login;
    the replacement token is the string the second login stored, and the
    insert is refused after the delete. *)
Lemma refresh_collision_loses_row :
  exists r1 w1 r2 w2 msg w3,
    Scenario.login_alice Scenario.world1 = (Ok r1, w1)
    /\ Scenario.login_alice w1 = (Ok r2, w2)
    /\ Scenario.refresh0 (AuthService.ar_refreshToken r1) w2 = (Err msg, w3)
    /\ existsb (fun r => String.eqb (Schema.rt_token r) (AuthService.ar_refreshToken r1))
         (Schema.refreshTokens (db w2)) = true
    /\ existsb (fun r => String.eqb (Schema.rt_token r) (AuthService.ar_refreshToken r1))
         (Schema.refreshTokens (db w3)) = false
    /\ db w3 <> db w2.
Proof.
  do 6 eexists.
  split; [vm_compute; reflexivity|].
  split; [vm_compute; reflexivity|].
  split; [vm_compute; reflexivity|].
  split; [vm_compute; reflexivity|].
  split; [vm_compute; reflexivity|].
  intros H. apply (f_equal (fun d => length (Schema.refreshTokens d))) in H.
  vm_compute in H. discriminate.
Qed.

(** C9 (amended): whenever [refresh] fails one of its checks (the token
    does not verify as a refresh token, the query finds no row, the user is
    missing or not ACTIVE), it fails with the message of that check and the
    database is the one the call found. *)
Theorem C9_failed_checks_keep_store {jwt : JwtLib} (env : Env)
    (token : string) (w : World) :
  (forall payload storedToken userRecord,
     ~ AuthService.refresh_checks env token w payload storedToken userRecord) ->
  db (snd (AuthService.refresh env token w)) = db w
  /\ (fst (AuthService.refresh env token w) = Err "Invalid or expired refresh token"
      \/ fst (AuthService.refresh env token w) = Err "User not found"
      \/ fst (AuthService.refresh env token w)
         = Err "Account is deactivated or suspended").
Proof. apply refresh_unchecked. Qed.

Lemma C9_failed_checks_keep_store_witness :
  exists r1 w1,
    Scenario.login_alice Scenario.world0 = (Ok r1, w1)
    /\ let w2 := snd (UserAdmin.updateStatus "u-alice" Schema.SUSPENDED w1) in
       existsb (fun r => String.eqb (Schema.rt_token r) (AuthService.ar_refreshToken r1))
         (Schema.refreshTokens (db w2)) = true
       /\ fst (Scenario.refresh0 (AuthService.ar_refreshToken r1) w2)
          = Err "Account is deactivated or suspended"
       /\ db (snd (Scenario.refresh0 (AuthService.ar_refreshToken r1) w2)) = db w2
       /\ (fst (Scenario.refresh0 (AuthService.ar_refreshToken r1) w2)
           = Err "Invalid or expired refresh token"
           \/ fst (Scenario.refresh0 (AuthService.ar_refreshToken r1) w2)
              = Err "User not found"
           \/ fst (Scenario.refresh0 (AuthService.ar_refreshToken r1) w2)
              = Err "Account is deactivated or suspended").
Proof.
  do 2 eexists. split; [vm_compute; reflexivity|].
  split; [vm_compute; reflexivity|].
  split; [vm_compute; reflexivity|].
  eapply (C9_failed_checks_keep_store (jwt := Reference.jwt) Scenario.env0).
  intros payload storedToken userRecord (Hv & _ & Hu & Hs).
  vm_compute in Hv. injection Hv as <-.
  vm_compute in Hu. injection Hu as <-.
  discriminate Hs.
Defined.

(** C2 (as stated, refuted): all the conditions of the claim can hold and
    the refresh still fail.  With JWT_EXPIRES_IN="15 minutes" in the
    environment and Alice's session in the database, her token verifies,
    its row is in the table with her id and a later expiry, she is ACTIVE,
    and the refresh fails in [parseExpiresIn], which throws on a string
    outside the grammar; the handler answers 401. *)
Lemma C2_checks_pass_refresh_fails :
  exists r1 w1 payload storedToken userRecord,
    Scenario.login_alice Scenario.world1 = (Ok r1, w1)
    /\ AuthService.refresh_checks (jwt := Reference.jwt) Scenario.env_bad
         (AuthService.ar_refreshToken r1) w1 payload storedToken userRecord
    /\ Schema.rt_token storedToken = AuthService.ar_refreshToken r1
    /\ Schema.rt_userId storedToken = Jwt.userId payload
    /\ next_reading (tick w1) < Schema.rt_expiresAt storedToken
    /\ fst (AuthService.refresh (jwt := Reference.jwt) Scenario.env_bad
              (AuthService.ar_refreshToken r1) w1)
       = Err "Invalid expires format. Use format: 1s, 1m, 1h, 1d"
    /\ AuthRoutes.statusCode_of
         (fst (AuthRoutes.refresh_handler (jwt := Reference.jwt) Scenario.env_bad
                 (AuthService.ar_refreshToken r1) w1)) = 401.
Proof.
  do 5 eexists.
  split; [vm_compute; reflexivity|].
  split; [repeat split; vm_compute; reflexivity|].
  repeat split; vm_compute; reflexivity.
Qed.

(** All the conditions hold as well in the run of two logins five seconds
    apart, where the insert of the replacement row is refused. *)
Lemma refresh_collision_after_checks :
  exists r1 w1 r2 w2 payload storedToken,
    Scenario.login_alice Scenario.world1 = (Ok r1, w1)
    /\ Scenario.login_alice w1 = (Ok r2, w2)
    /\ AuthService.refresh_checks (jwt := Reference.jwt) Scenario.env0
         (AuthService.ar_refreshToken r1) w2 payload storedToken Scenario.alice_logged_in
    /\ fst (Scenario.refresh0 (AuthService.ar_refreshToken r1) w2)
       = Err constraint_violation.
Proof.
  do 6 eexists.
  split; [vm_compute; reflexivity|].
  split; [vm_compute; reflexivity|].
  split; [repeat split; vm_compute; reflexivity|].
  vm_compute; reflexivity.
Qed.

Section RefreshIff.
Context {jwt : JwtLib}.
Variable env : Env.
Import Schema.

(** The database takes the replacement row when, the consumed row apart,
    no row holds its id or its token string and its expiry is a valid
    date; the user it references is the one the checks found. *)
Lemma replacement_insertable (token : string) (w : World) (payload : Jwt.Payload)
    (storedToken : RefreshToken) (userRecord : User) (dr : Z) :
  AuthService.refresh_checks env token w payload storedToken userRecord ->
  let row := AuthService.replacement_row env payload dr (tick (tick w)) in
  (forall r, In r (refreshTokens (db w)) -> rt_id r <> rt_id storedToken ->
             rt_id r <> rt_id row /\ rt_token r <> rt_token row) ->
  Range.valid_time (rt_expiresAt row) = true ->
  rt_insertable (AuthService.without_row storedToken (db w)) row = true.
Proof.
  intros (_ & _ & Hu & _) row Hfree Hvalid. unfold rt_insertable.
  rewrite Hvalid, andb_true_r. simpl.
  apply andb_true_intro. split; [apply andb_true_intro; split|].
  - apply forallb_forall. intros r Hr. apply filter_In in Hr as [Hr Hne].
    apply negb_true_iff, String.eqb_neq in Hne.
    apply negb_true_iff, String.eqb_neq. now apply (Hfree r Hr).
  - apply forallb_forall. intros r Hr. apply filter_In in Hr as [Hr Hne].
    apply negb_true_iff, String.eqb_neq in Hne.
    apply negb_true_iff, String.eqb_neq. now apply (Hfree r Hr).
  - apply existsb_exists. exists userRecord.
    apply find_some in Hu as [Hin E]. now split.
Qed.

Lemma refresh_ok_iff (token : string) (w : World) :
  (forall payload storedToken userRecord dr,
     AuthService.refresh_checks env token w payload storedToken userRecord ->
     Duration.parseExpiresIn (JwtUtil.JWT_REFRESH_EXPIRES_IN env) = Ok dr ->
     let row := AuthService.replacement_row env payload dr (tick (tick w)) in
     (forall r, In r (refreshTokens (db w)) -> rt_id r <> rt_id storedToken ->
                rt_id r <> rt_id row /\ rt_token r <> rt_token row)
     /\ Range.valid_time (rt_expiresAt row) = true) ->
  is_ok (fst (AuthService.refresh env token w)) = true
  <-> (exists payload storedToken userRecord,
         AuthService.refresh_checks env token w payload storedToken userRecord)
      /\ is_ok (Duration.parseExpiresIn (JwtUtil.JWT_EXPIRES_IN env)) = true
      /\ is_ok (Duration.parseExpiresIn (JwtUtil.JWT_REFRESH_EXPIRES_IN env)) = true.
Proof.
  intros Hroom. split.
  - intros Hok.
    destruct (classic_checks env token w) as [(payload & storedToken & userRecord & Hc)|Hno].
    + split; [now exists payload, storedToken, userRecord|].
      rewrite (refresh_checked env token w _ _ _ Hc) in Hok.
      apply rotate_ok_iff in Hok as (da & dr & -> & -> & _). now split.
    + destruct (refresh_unchecked env token w Hno) as [_ [E|[E|E]]];
        rewrite E in Hok; discriminate.
  - intros ((payload & storedToken & userRecord & Hc) & Ha & Hr).
    rewrite (refresh_checked env token w _ _ _ Hc).
    apply rotate_ok_iff.
    destruct (Duration.parseExpiresIn (JwtUtil.JWT_EXPIRES_IN env)) as [da|] eqn:Eda;
      [|discriminate].
    destruct (Duration.parseExpiresIn (JwtUtil.JWT_REFRESH_EXPIRES_IN env)) as [dr|] eqn:Edr;
      [|discriminate].
    exists da, dr. split; [reflexivity|]. split; [reflexivity|].
    destruct (Hroom payload storedToken userRecord dr Hc eq_refl) as [Hfree Hvalid].
    now apply (replacement_insertable token w payload storedToken userRecord dr Hc).
Qed.

End RefreshIff.

(** C2 (amended): where the database takes the replacement row (the
    consumed row apart, no row holds its fresh id or its token string, and
    its expiry is a valid date), [refresh] succeeds exactly when its checks
    pass (the token verifies as a refresh token, which includes the signed
    time claims; the query finds a row with that token string, the
    payload's user and a stored expiry after the reading; the user exists
    and is ACTIVE) and both configured duration strings parse.  The row
    the query finds is a row of the table with exactly the submitted
    token, the payload's [userId] and an expiry strictly after the clock
    reading.  Every failure is answered 401. *)
Theorem C2_refresh_succeeds_iff {jwt : JwtLib} (env : Env)
    (token : string) (w : World) :
  (forall payload storedToken userRecord dr,
     AuthService.refresh_checks env token w payload storedToken userRecord ->
     Duration.parseExpiresIn (JwtUtil.JWT_REFRESH_EXPIRES_IN env) = Ok dr ->
     let row := AuthService.replacement_row env payload dr (tick (tick w)) in
     (forall r, In r (Schema.refreshTokens (db w)) ->
                Schema.rt_id r <> Schema.rt_id storedToken ->
                Schema.rt_id r <> Schema.rt_id row
                /\ Schema.rt_token r <> Schema.rt_token row)
     /\ Range.valid_time (Schema.rt_expiresAt row) = true) ->
  (is_ok (fst (AuthService.refresh env token w)) = true
   <-> (exists payload storedToken userRecord,
          AuthService.refresh_checks env token w payload storedToken userRecord)
       /\ is_ok (Duration.parseExpiresIn (JwtUtil.JWT_EXPIRES_IN env)) = true
       /\ is_ok (Duration.parseExpiresIn (JwtUtil.JWT_REFRESH_EXPIRES_IN env)) = true)
  /\ (forall payload storedToken userRecord,
        AuthService.refresh_checks env token w payload storedToken userRecord ->
        In storedToken (Schema.refreshTokens (db w))
        /\ Schema.rt_token storedToken = token
        /\ Schema.rt_userId storedToken = Jwt.userId payload
        /\ next_reading (tick w) < Schema.rt_expiresAt storedToken)
  /\ (is_ok (fst (AuthService.refresh env token w)) = false ->
      exists message,
        fst (AuthRoutes.refresh_handler env token w)
        = AuthRoutes.errorResponse message 401 "REFRESH_FAILED").
Proof.
  intros Hroom. split; [|split].
  - now apply refresh_ok_iff.
  - intros payload storedToken userRecord (_ & Hf & _).
    now apply find_storedToken_Some in Hf.
  - intros Hfail. unfold AuthRoutes.refresh_handler.
    destruct (AuthService.refresh env token w) as [[res|msg] w']; [discriminate|].
    now exists msg.
Qed.

Lemma C2_refresh_succeeds_iff_witness :
  exists r1 w1,
    Scenario.login_alice Scenario.world1 = (Ok r1, w1)
    /\ is_ok (fst (Scenario.refresh0 (AuthService.ar_refreshToken r1) w1)) = true
    /\ (is_ok (fst (Scenario.refresh0 (AuthService.ar_refreshToken r1) w1)) = true
        <-> (exists payload storedToken userRecord,
               AuthService.refresh_checks (jwt := Reference.jwt) Scenario.env0
                 (AuthService.ar_refreshToken r1) w1 payload storedToken userRecord)
            /\ is_ok (Duration.parseExpiresIn (JwtUtil.JWT_EXPIRES_IN Scenario.env0))
               = true
            /\ is_ok (Duration.parseExpiresIn
                        (JwtUtil.JWT_REFRESH_EXPIRES_IN Scenario.env0)) = true).
Proof.
  do 2 eexists. split; [vm_compute; reflexivity|].
  split; [vm_compute; reflexivity|].
  refine (proj1 (C2_refresh_succeeds_iff (jwt := Reference.jwt) Scenario.env0 _ _ _)).
  intros payload storedToken userRecord dr (Hv & Hf & _) Hdr.
  vm_compute in Hv. injection Hv as <-.
  vm_compute in Hf. injection Hf as <-.
  vm_compute in Hdr. injection Hdr as <-.
  split; [|vm_compute; reflexivity].
  intros r Hin Hne. vm_compute in Hin. destruct Hin as [<-|[]].
  exfalso. apply Hne. reflexivity.
Defined.

(** ** What a successful login and a successful refresh store *)

Section StoredRows.
Context {jwt : JwtLib} {hasher : PasswordHasher}.
Variable env : Env.
Import Schema.

Lemma storeRefreshToken_inv (userId token : string) (expiresAt : Z) (w w' : World) :
  AuthService.storeRefreshToken userId token expiresAt w = (Ok tt, w') ->
  let row := {| rt_id := hd EmptyString (uuids w); rt_userId := userId;
                rt_token := token; rt_expiresAt := expiresAt |} in
  rt_insertable (db w) row = true
  /\ refreshTokens (db w') = (refreshTokens (db w) ++ [row])%list
  /\ users (db w') = users (db w).
Proof.
  unfold AuthService.storeRefreshToken, AuthService.insert_refreshToken, bind,
    randomUUID, get_db, modify_db, throw. simpl.
  destruct (rt_insertable _ _) eqn:E; [|discriminate].
  intros [= <-]. auto.
Qed.

(** A successful login appends one row: the returned refresh token, signed
    for the user at some second [now] with the configured lifetime [dr],
    and the expiry [(now + dr) * 1000]. *)
Lemma login_inv (email password : string) (w w' : World)
    (res : AuthService.AuthResult) :
  AuthService.login env email password w = (Ok res, w') ->
  exists user now dr id,
    List.find (fun u => String.eqb (user_email u) email) (users (db w)) = Some user
    /\ Duration.parseExpiresIn (JwtUtil.JWT_REFRESH_EXPIRES_IN env) = Ok dr
    /\ AuthService.ar_refreshToken res
       = jwt_sign (JwtUtil.refreshPayload (user_id user) now dr)
           (JwtUtil.getRefreshSecret env)
    /\ refreshTokens (db w')
       = (refreshTokens (db w)
          ++ [{| rt_id := id; rt_userId := user_id user;
                 rt_token := AuthService.ar_refreshToken res;
                 rt_expiresAt := (now + dr) * 1000 |}])%list.
Proof.
  unfold AuthService.login. intros H.
  rewrite (bind_eq _ _ _ _ _ (findByEmail_eq email w)) in H.
  destruct (List.find _ (users (db w))) as [user|] eqn:Hu; [|discriminate].
  destruct (negb (verify_password password (user_password user))); [discriminate|].
  destruct (negb (bool_decide (user_status user = ACTIVE))); [discriminate|].
  apply bind_Ok_inv in H as ([] & wa & Ha & H).
  apply bind_Ok_inv in H as (uwr & wb & Hb & H).
  destruct (findByIdWithRoles_pure (user_id user) wa) as [r Hr].
  rewrite Hr in Hb. injection Hb as <- <-.
  destruct r as [userWithRoles|]; [|discriminate].
  apply bind_Ok_inv in H as (accessToken & wc & Hc & H).
  apply bind_Ok_inv in H as ([refreshToken expiresAt] & wd & Hd & H).
  apply bind_Ok_inv in H as ([] & we & He & H).
  injection H as <- <-. simpl in He |- *.
  apply generateAccessToken_inv in Hc as (da & _ & _ & ->).
  apply generateRefreshToken_inv in Hd as (dr & Hdr & -> & -> & ->).
  apply storeRefreshToken_inv in He as (_ & He & _).
  exists user, (next_reading (tick wa) / 1000), dr, (hd EmptyString (uuids (tick (tick wa)))).
  repeat split; try assumption.
  rewrite He. simpl.
  unfold UserService.updateLastLogin, bind, Date_now, modify_db in Ha.
  injection Ha as <-. reflexivity.
Qed.

(** A successful refresh replaces the consumed row by one row of the same
    shape. *)
Lemma refresh_inv (token : string) (w w' : World) (res : AuthService.RefreshResult) :
  AuthService.refresh env token w = (Ok res, w') ->
  exists payload storedToken userRecord dr,
    AuthService.refresh_checks env token w payload storedToken userRecord
    /\ Duration.parseExpiresIn (JwtUtil.JWT_REFRESH_EXPIRES_IN env) = Ok dr
    /\ AuthService.rr_refreshToken res
       = rt_token (AuthService.replacement_row env payload dr (tick (tick w)))
    /\ refreshTokens (db w')
       = (List.filter (fun r => negb (String.eqb (rt_id r) (rt_id storedToken)))
            (refreshTokens (db w))
          ++ [AuthService.replacement_row env payload dr (tick (tick w))])%list.
Proof.
  intros H.
  destruct (classic_checks env token w) as [(payload & storedToken & userRecord & Hc)|Hno].
  - exists payload, storedToken, userRecord.
    rewrite (refresh_checked env token w _ _ _ Hc), rotate_eq in H. cbv zeta in H.
    destruct (Duration.parseExpiresIn (JwtUtil.JWT_EXPIRES_IN env)) as [da|];
      [|discriminate].
    destruct (Duration.parseExpiresIn (JwtUtil.JWT_REFRESH_EXPIRES_IN env)) as [dr|];
      [|discriminate].
    destruct (rt_insertable _ _); [|discriminate].
    injection H as <- <-. exists dr.
    split; [exact Hc|]. split; [reflexivity|]. split; reflexivity.
  - destruct (refresh_unchecked env token w Hno) as [_ [E|[E|E]]];
      rewrite H in E; discriminate.
Qed.

End StoredRows.

(** ** Expiry at issuance *)

Section IssuedExpiry.
Context {jwt : JwtLib} {laws : JwtLaws jwt}.
Variable env : Env.
Import Schema.

(** [storeRefreshToken] writes the row whenever the table takes it. *)
Lemma storeRefreshToken_stores (userId token : string) (expiresAt : Z) (w : World) :
  let row := {| rt_id := hd EmptyString (uuids w); rt_userId := userId;
                rt_token := token; rt_expiresAt := expiresAt |} in
  (forall r, In r (refreshTokens (db w)) ->
             rt_id r <> rt_id row /\ rt_token r <> token) ->
  (exists u, In u (users (db w)) /\ user_id u = userId) ->
  Range.valid_time expiresAt = true ->
  exists w',
    AuthService.storeRefreshToken userId token expiresAt w = (Ok tt, w')
    /\ refreshTokens (db w') = (refreshTokens (db w) ++ [row])%list.
Proof.
  intros row Hfree (u & Hu & Hid) Hvalid.
  assert (Hins : rt_insertable (db w) row = true).
  { unfold rt_insertable. simpl. rewrite Hvalid, andb_true_r.
    apply andb_true_intro. split; [apply andb_true_intro; split|].
    - apply forallb_forall. intros r Hr.
      apply negb_true_iff, String.eqb_neq. now apply (Hfree r Hr).
    - apply forallb_forall. intros r Hr.
      apply negb_true_iff, String.eqb_neq. now apply (Hfree r Hr).
    - apply existsb_exists. exists u. split; [assumption|]. now apply String.eqb_eq. }
  unfold AuthService.storeRefreshToken, AuthService.insert_refreshToken, bind,
    randomUUID, get_db, modify_db, throw. simpl.
  fold row. rewrite Hins. eexists. split; reflexivity.
Qed.

Lemma issued_expiry (userId token : string) (expiresAt : Z) (w w1 : World) :
  JwtUtil.generateRefreshToken env userId w = (Ok (token, expiresAt), w1) ->
  0 <= next_reading w ->
  Range.valid_time expiresAt = true ->
  (exists payload,
     token = jwt_sign payload (JwtUtil.getRefreshSecret env)
     /\ Jwt.userId payload = userId
     /\ Jwt.iat payload = next_reading w / 1000
     /\ expiresAt = Jwt.exp payload * 1000)
  /\ (forall secret now payload,
        jwt_verify token secret now = Some payload ->
        expiresAt = Jwt.exp payload * 1000)
  /\ (forall w2,
        let row := {| rt_id := hd EmptyString (uuids w2); rt_userId := userId;
                      rt_token := token; rt_expiresAt := expiresAt |} in
        (forall r, In r (refreshTokens (db w2)) ->
                   rt_id r <> rt_id row /\ rt_token r <> token) ->
        (exists u, In u (users (db w2)) /\ user_id u = userId) ->
        exists w3,
          AuthService.storeRefreshToken userId token expiresAt w2 = (Ok tt, w3)
          /\ refreshTokens (db w3) = (refreshTokens (db w2) ++ [row])%list
          /\ forall secret now payload,
               jwt_verify token secret now = Some payload ->
               rt_expiresAt row = Jwt.exp payload * 1000)
  /\ (forall w2 w3,
        AuthService.storeRefreshToken userId token expiresAt w2 = (Ok tt, w3) ->
        exists row,
          refreshTokens (db w3) = (refreshTokens (db w2) ++ [row])%list
          /\ rt_token row = token
          /\ rt_userId row = userId
          /\ forall secret now payload,
               jwt_verify token secret now = Some payload ->
               rt_expiresAt row = Jwt.exp payload * 1000).
Proof.
  intros H _ Hvalid. apply generateRefreshToken_inv in H as (d & _ & -> & -> & _).
  assert (Hv : forall secret now payload,
            jwt_verify (jwt_sign (JwtUtil.refreshPayload userId (next_reading w / 1000) d)
                          (JwtUtil.getRefreshSecret env)) secret now = Some payload ->
            (next_reading w / 1000 + d) * 1000 = Jwt.exp payload * 1000).
  { intros secret now payload E. apply jwt_verify_sound in E. now subst payload. }
  split; [|split; [|split]].
  - eexists. repeat split.
  - exact Hv.
  - intros w2 row Hfree Hu.
    destruct (storeRefreshToken_stores userId _ _ w2 Hfree Hu Hvalid) as (w3 & Hs & Hrows).
    exists w3. split; [exact Hs|]. split; [exact Hrows|exact Hv].
  - intros w2 w3 Hs. apply storeRefreshToken_inv in Hs as (_ & Hs & _).
    eexists. split; [exact Hs|]. repeat split. exact Hv.
Qed.

End IssuedExpiry.

(** C10: for a clock that is not before the epoch and an expiry within
    the range of a [Date], the [expiresAt] that [generateRefreshToken]
    returns is the [exp] claim of the payload it signed, in milliseconds,
    and the [exp] of every payload a verification of the token returns.
    [storeRefreshToken] writes one row with the token and exactly that
    value whenever the table holds the user and no row with the fresh id
    or the token string; and whenever it returns, it has written that
    row. *)
Theorem C10_stored_expiry_is_signed_expiry {jwt : JwtLib} {laws : JwtLaws jwt}
    (env : Env) (userId token : string) (expiresAt : Z) (w w1 : World) :
  JwtUtil.generateRefreshToken env userId w = (Ok (token, expiresAt), w1) ->
  0 <= next_reading w ->
  Range.valid_time expiresAt = true ->
  (exists payload,
     token = jwt_sign payload (JwtUtil.getRefreshSecret env)
     /\ Jwt.userId payload = userId
     /\ Jwt.iat payload = next_reading w / 1000
     /\ expiresAt = Jwt.exp payload * 1000)
  /\ (forall secret now payload,
        jwt_verify token secret now = Some payload ->
        expiresAt = Jwt.exp payload * 1000)
  /\ (forall w2,
        let row := {| Schema.rt_id := hd EmptyString (uuids w2);
                      Schema.rt_userId := userId;
                      Schema.rt_token := token; Schema.rt_expiresAt := expiresAt |} in
        (forall r, In r (Schema.refreshTokens (db w2)) ->
                   Schema.rt_id r <> Schema.rt_id row /\ Schema.rt_token r <> token) ->
        (exists u, In u (Schema.users (db w2)) /\ Schema.user_id u = userId) ->
        exists w3,
          AuthService.storeRefreshToken userId token expiresAt w2 = (Ok tt, w3)
          /\ Schema.refreshTokens (db w3) = (Schema.refreshTokens (db w2) ++ [row])%list
          /\ forall secret now payload,
               jwt_verify token secret now = Some payload ->
               Schema.rt_expiresAt row = Jwt.exp payload * 1000)
  /\ (forall w2 w3,
        AuthService.storeRefreshToken userId token expiresAt w2 = (Ok tt, w3) ->
        exists row,
          Schema.refreshTokens (db w3) = (Schema.refreshTokens (db w2) ++ [row])%list
          /\ Schema.rt_token row = token
          /\ Schema.rt_userId row = userId
          /\ forall secret now payload,
               jwt_verify token secret now = Some payload ->
               Schema.rt_expiresAt row = Jwt.exp payload * 1000).
Proof. apply issued_expiry. Qed.

(** Alice's token, issued at the first reading of [world0], and stored
    next to Bob's session at a later second. *)
Lemma C10_stored_expiry_is_signed_expiry_witness :
  let token :=
    Reference.sign (JwtUtil.refreshPayload "u-alice" 1700000000 604800)
      (JwtUtil.getRefreshSecret Scenario.env0) in
  let w2 := snd (Cases.login0 "bob@example.com" "hunter2hunter2" Scenario.world1) in
  JwtUtil.generateRefreshToken (jwt := Reference.jwt) Scenario.env0 "u-alice"
    Scenario.world0 = (Ok (token, 1700604800000), tick Scenario.world0)
  /\ (forall secret now payload,
        Reference.verify token secret now = Some payload ->
        1700604800000 = Jwt.exp payload * 1000)
  /\ exists w3 bobs,
       AuthService.storeRefreshToken "u-alice" token 1700604800000 w2 = (Ok tt, w3)
       /\ Schema.refreshTokens (db w3)
          = [bobs; {| Schema.rt_id := "id-2"; Schema.rt_userId := "u-alice";
                      Schema.rt_token := token;
                      Schema.rt_expiresAt := 1700604800000 |}].
Proof.
  intros token w2.
  destruct (C10_stored_expiry_is_signed_expiry (jwt := Reference.jwt) (laws := jwt_laws)
              Scenario.env0 "u-alice" token 1700604800000 Scenario.world0
              (tick Scenario.world0) eq_refl ltac:(vm_compute; discriminate) eq_refl)
    as (_ & Hv & Hstore & _).
  split; [reflexivity|]. split; [exact Hv|].
  destruct (Hstore w2) as (w3 & Hs & Hrows & _).
  - intros r Hin. vm_compute in Hin. destruct Hin as [<-|[]].
    split; vm_compute; discriminate.
  - exists Scenario.alice. split; [vm_compute; tauto|reflexivity].
  - exists w3. eexists. split; [exact Hs|]. rewrite Hrows. vm_compute. reflexivity.
Defined.

Section StoredExpiry.
Context {jwt : JwtLib} {laws : JwtLaws jwt} {hasher : PasswordHasher}.
Variable env : Env.

(** The same agreement, end to end: the row a successful login stores for
    the token it returns carries the token's signed expiry. *)
Lemma login_stores_signed_expiry (email password : string) (w w' : World)
    (res : AuthService.AuthResult) :
  AuthService.login env email password w = (Ok res, w') ->
  exists row,
    In row (Schema.refreshTokens (db w'))
    /\ Schema.rt_token row = AuthService.ar_refreshToken res
    /\ forall secret now payload,
         jwt_verify (AuthService.ar_refreshToken res) secret now = Some payload ->
         Schema.rt_expiresAt row = Jwt.exp payload * 1000.
Proof.
  intros H. apply login_inv in H as (user & now & dr & id & _ & _ & Ht & Hrows).
  eexists. split; [rewrite Hrows; apply in_or_app; right; left; reflexivity|].
  split; [reflexivity|]. simpl. intros secret t payload E.
  rewrite Ht in E. apply jwt_verify_sound in E. now subst payload.
Qed.

(** And the row a successful refresh stores for the token it returns. *)
Lemma refresh_stores_signed_expiry (token : string) (w w' : World)
    (res : AuthService.RefreshResult) :
  AuthService.refresh env token w = (Ok res, w') ->
  exists row,
    In row (Schema.refreshTokens (db w'))
    /\ Schema.rt_token row = AuthService.rr_refreshToken res
    /\ forall secret now payload,
         jwt_verify (AuthService.rr_refreshToken res) secret now = Some payload ->
         Schema.rt_expiresAt row = Jwt.exp payload * 1000.
Proof.
  intros H. apply refresh_inv in H as (p & r & u & dr & _ & _ & Ht & Hrows).
  eexists. split; [rewrite Hrows; apply in_or_app; right; left; reflexivity|].
  split; [now rewrite Ht|]. intros secret t payload E.
  rewrite Ht in E. simpl in E. apply jwt_verify_sound in E. now subst payload.
Qed.

End StoredExpiry.

(** ** Logout from all devices *)

Section LogoutAll.
Context {jwt : JwtLib} {laws : JwtLaws jwt}.
Variable env : Env.
Import Schema.

Lemma verifyRefreshToken_Ok_inv (token : string) (w : World) (payload : Jwt.Payload) :
  fst (JwtUtil.verifyRefreshToken env token w) = Ok payload ->
  jwt_verify token (JwtUtil.getRefreshSecret env) (next_reading w / 1000) = Some payload
  /\ Jwt.type payload = "refresh".
Proof.
  rewrite verifyRefreshToken_eq. simpl.
  destruct (jwt_verify _ _ _) as [p|]; [|discriminate].
  destruct (String.eqb (Jwt.type p) "refresh") eqn:E; [|discriminate].
  intros [= <-]. apply String.eqb_eq in E. auto.
Qed.

(** A token signed for a user who has no row in the table is refused. *)
Lemma refresh_without_rows (u : string) (payload : Jwt.Payload) (secret : string)
    (w : World) :
  (forall r, In r (refreshTokens (db w)) -> rt_userId r <> u) ->
  Jwt.userId payload = u ->
  AuthService.refresh env (jwt_sign payload secret) w
  = (Err "Invalid or expired refresh token", snd (AuthService.refresh env (jwt_sign payload secret) w))
  /\ db (snd (AuthService.refresh env (jwt_sign payload secret) w)) = db w.
Proof.
  intros Hrows Hu.
  destruct (verifyRefreshToken_cases env (jwt_sign payload secret) w) as [[p Hv]|He].
  - rewrite (refresh_verified env _ w p Hv).
    apply verifyRefreshToken_Ok_inv in Hv as [Hv _].
    apply jwt_verify_sound in Hv. subst p.
    rewrite find_storedToken_None; [split; reflexivity|].
    intros r Hin _. rewrite Hu. now apply Hrows.
  - rewrite (refresh_unverified env _ w _ He). split; reflexivity.
Qed.

End LogoutAll.

(** C6: after [logoutAll u] the table holds no row of [u]; its other rows
    are the rows it held, in their order, and no other table changes; and
    in any world with that table a token signed for [u] fails the store
    check of [refresh] with "Invalid or expired refresh token". *)
Theorem C6_logoutAll_revokes_only_that_user {jwt : JwtLib} {laws : JwtLaws jwt}
    (env : Env) (u : string) (w : World) :
  let w' := snd (AuthService.logoutAll u w) in
  fst (AuthService.logoutAll u w) = Ok tt
  /\ (forall r, In r (Schema.refreshTokens (db w')) -> Schema.rt_userId r <> u)
  /\ (forall r, Schema.rt_userId r <> u ->
        (In r (Schema.refreshTokens (db w')) <-> In r (Schema.refreshTokens (db w))))
  /\ (forall v, v <> u ->
        List.filter (fun r => String.eqb (Schema.rt_userId r) v)
          (Schema.refreshTokens (db w'))
        = List.filter (fun r => String.eqb (Schema.rt_userId r) v)
            (Schema.refreshTokens (db w)))
  /\ Schema.users (db w') = Schema.users (db w)
  /\ (forall w2 payload secret,
        Schema.refreshTokens (db w2) = Schema.refreshTokens (db w') ->
        Jwt.userId payload = u ->
        fst (AuthService.refresh env (jwt_sign payload secret) w2)
        = Err "Invalid or expired refresh token").
Proof.
  intros w'. subst w'. unfold AuthService.logoutAll, modify_db. simpl.
  assert (Hnone : forall r,
            In r (List.filter (fun r => negb (String.eqb (Schema.rt_userId r) u))
                    (Schema.refreshTokens (db w))) -> Schema.rt_userId r <> u).
  { intros r Hin. apply filter_In in Hin as [_ Hb].
    apply negb_true_iff, String.eqb_neq in Hb. exact Hb. }
  split; [reflexivity|]. split; [exact Hnone|]. split; [|split; [|split]].
  - intros r Hr. rewrite filter_In. split; [tauto|].
    intros Hin. split; [assumption|]. now apply negb_true_iff, String.eqb_neq.
  - intros v Hv. clear Hnone.
    induction (Schema.refreshTokens (db w)) as [|r l IH]; [reflexivity|].
    simpl. destruct (String.eqb (Schema.rt_userId r) u) eqn:Eu; simpl.
    + apply String.eqb_eq in Eu.
      destruct (String.eqb (Schema.rt_userId r) v) eqn:Ev; [|exact IH].
      apply String.eqb_eq in Ev. congruence.
    + destruct (String.eqb (Schema.rt_userId r) v); [f_equal|]; exact IH.
  - reflexivity.
  - intros w2 payload secret Hrows Hu.
    destruct (refresh_without_rows env u payload secret w2) as [E _];
      [|assumption|now rewrite E].
    intros r Hin. rewrite Hrows in Hin. now apply Hnone.
Qed.

Lemma C6_logoutAll_revokes_only_that_user_witness :
  let w := snd (Scenario.login_alice Scenario.world0) in
  let w' := snd (AuthService.logoutAll "u-alice" w) in
  fst (AuthService.logoutAll "u-alice" w) = Ok tt
  /\ (forall r, In r (Schema.refreshTokens (db w')) -> Schema.rt_userId r <> "u-alice")
  /\ (forall r, Schema.rt_userId r <> "u-alice" ->
        (In r (Schema.refreshTokens (db w')) <-> In r (Schema.refreshTokens (db w))))
  /\ (forall v, v <> "u-alice" ->
        List.filter (fun r => String.eqb (Schema.rt_userId r) v)
          (Schema.refreshTokens (db w'))
        = List.filter (fun r => String.eqb (Schema.rt_userId r) v)
            (Schema.refreshTokens (db w)))
  /\ Schema.users (db w') = Schema.users (db w)
  /\ (forall w2 payload secret,
        Schema.refreshTokens (db w2) = Schema.refreshTokens (db w') ->
        Jwt.userId payload = "u-alice" ->
        fst (AuthService.refresh (jwt := Reference.jwt) Scenario.env0
               (Reference.sign payload secret) w2)
        = Err "Invalid or expired refresh token").
Proof.
  exact (C6_logoutAll_revokes_only_that_user (jwt := Reference.jwt) (laws := jwt_laws)
           Scenario.env0 "u-alice" (snd (Scenario.login_alice Scenario.world0))).
Defined.

(** ** Rotation *)

Section Rotation.
Context {jwt : JwtLib} {laws : JwtLaws jwt}.
Variable env : Env.
Import Schema.

(** Redeemed in a later second than it was issued in, a token is replaced
    by a different string. *)
Lemma refresh_rotates (token : string) (w w' : World)
    (res : AuthService.RefreshResult) (payload : Jwt.Payload) :
  AuthService.refresh env token w = (Ok res, w') ->
  fst (JwtUtil.verifyRefreshToken env token w) = Ok payload ->
  Jwt.iat payload <> AuthService.issue_second w ->
  AuthService.rr_refreshToken res <> token.
Proof.
  intros H Hv Hiat Heq.
  apply refresh_inv in H as (p & r & u & dr & (Hv' & _) & _ & Ht & _).
  rewrite Hv in Hv'. injection Hv' as <-.
  apply verifyRefreshToken_Ok_inv in Hv as [Hv _].
  rewrite <- Heq, Ht in Hv. simpl in Hv.
  apply jwt_verify_sound in Hv. apply (f_equal Jwt.iat) in Hv. now apply Hiat.
Qed.

(** And then, the table holding each token string once, the redeemed token
    has no row left: whenever it is submitted again, it is refused. *)
Lemma refresh_single_use (token : string) (w w' w2 : World)
    (res : AuthService.RefreshResult) (payload : Jwt.Payload) :
  AuthService.refresh env token w = (Ok res, w') ->
  fst (JwtUtil.verifyRefreshToken env token w) = Ok payload ->
  Jwt.iat payload <> AuthService.issue_second w ->
  List.NoDup (map rt_token (refreshTokens (db w))) ->
  refreshTokens (db w2) = refreshTokens (db w') ->
  fst (AuthService.refresh env token w2) = Err "Invalid or expired refresh token".
Proof.
  intros H Hv Hiat Hnd Hrows.
  pose proof (refresh_rotates token w w' res payload H Hv Hiat) as Hne.
  apply refresh_inv in H as (p & r & u & dr & (_ & Hf & _) & _ & Ht & Hw').
  apply find_storedToken_Some in Hf as (Hin & Hk & _).
  assert (Hgone : forall x, In x (refreshTokens (db w2)) -> rt_token x <> token).
  { intros x Hx. rewrite Hrows, Hw' in Hx. apply in_app_or in Hx as [Hx|[<-|[]]].
    - apply filter_In in Hx as [Hx Hid]. intros Hxt.
      assert (x = r); [|subst x; now rewrite String.eqb_refl in Hid].
      clear - Hnd Hx Hin Hxt Hk. rewrite <- Hk in Hxt. clear Hk.
      induction (refreshTokens (db w)) as [|y l IH]; [destruct Hx|].
      simpl in Hnd. apply NoDup_cons_iff in Hnd as [Hy Hnd].
      destruct Hx as [->|Hx], Hin as [->|Hin]; auto.
      + exfalso. apply Hy. rewrite Hxt. now apply in_map.
      + exfalso. apply Hy. rewrite <- Hxt. now apply in_map.
    - now rewrite <- Ht. }
  destruct (verifyRefreshToken_cases env token w2) as [[p2 Hv2]|He].
  - rewrite (refresh_verified env token w2 p2 Hv2).
    destruct (AuthService.find_storedToken _ _ _ _) as [x|] eqn:E; [|reflexivity].
    apply find_storedToken_Some in E as (Hx & Hxt & _). now destruct (Hgone x Hx).
  - now rewrite (refresh_unverified env token w2 _ He).
Qed.

(** Redeemed in the second it was issued in, a token is replaced by
    itself: the new payload is the old one, and signing is a function. *)
Lemma refresh_in_issue_second (u token : string) (dr : Z) (w w' : World)
    (res : AuthService.RefreshResult) :
  Duration.parseExpiresIn (JwtUtil.JWT_REFRESH_EXPIRES_IN env) = Ok dr ->
  token = jwt_sign (JwtUtil.refreshPayload u (AuthService.issue_second w) dr)
            (JwtUtil.getRefreshSecret env) ->
  AuthService.refresh env token w = (Ok res, w') ->
  AuthService.rr_refreshToken res = token
  /\ exists row, In row (refreshTokens (db w')) /\ rt_token row = token.
Proof.
  intros Hdr Htok H.
  apply refresh_inv in H as (p & r & usr & dr' & (Hv & _) & Hdr' & Ht & Hw').
  rewrite Hdr in Hdr'. injection Hdr' as <-.
  apply verifyRefreshToken_Ok_inv in Hv as [Hv _].
  rewrite Htok in Hv. apply jwt_verify_sound in Hv. subst p.
  assert (E : AuthService.rr_refreshToken res = token).
  { rewrite Ht, Htok. reflexivity. }
  split; [exact E|].
  eexists. split; [rewrite Hw'; apply in_or_app; right; left; reflexivity|].
  now rewrite <- Ht.
Qed.

End Rotation.

(** C1 (the code at the failing input): Alice logs in and redeems her
    refresh token within the second of the login; the call succeeds, and an
    immediately following call with the same token succeeds again, answered
    200, because the first call stored the same token string anew. *)
Lemma C1_redeemed_token_is_accepted_again :
  exists r1 w1 r2 w2 r3 w3,
    Scenario.login_alice Scenario.world0 = (Ok r1, w1)
    /\ Scenario.refresh0 (AuthService.ar_refreshToken r1) w1 = (Ok r2, w2)
    /\ Scenario.refresh0 (AuthService.ar_refreshToken r1) w2 = (Ok r3, w3)
    /\ existsb (fun r => String.eqb (Schema.rt_token r) (AuthService.ar_refreshToken r1))
         (Schema.refreshTokens (db w2)) = true
    /\ AuthRoutes.statusCode_of
         (fst (AuthRoutes.refresh_handler (jwt := Reference.jwt) Scenario.env0
                 (AuthService.ar_refreshToken r1) w2)) = 200.
Proof.
  do 6 eexists.
  split; [vm_compute; reflexivity|].
  split; [vm_compute; reflexivity|].
  split; [vm_compute; reflexivity|].
  split; vm_compute; reflexivity.
Qed.

(** C7 (the code at the failing input): the refresh token of a login,
    redeemed within the second of the login, comes back as the new refresh
    token, character for character. *)
Lemma C7_refresh_returns_submitted_token :
  (exists r1 w1 r2 w2,
     Scenario.login_alice Scenario.world0 = (Ok r1, w1)
     /\ Scenario.refresh0 (AuthService.ar_refreshToken r1) w1 = (Ok r2, w2)
     /\ AuthService.rr_refreshToken r2 = AuthService.ar_refreshToken r1)
  /\ (exists r1 w1 r2 w2,
        Scenario.register_carol Scenario.world0 = (Ok r1, w1)
        /\ Scenario.refresh0 (AuthService.ar_refreshToken r1) w1 = (Ok r2, w2)
        /\ AuthService.rr_refreshToken r2 = AuthService.ar_refreshToken r1).
Proof.
  split; do 4 eexists.
  - split; [vm_compute; reflexivity|].
    split; vm_compute; reflexivity.
  - split; [vm_compute; reflexivity|].
    split; vm_compute; reflexivity.
Qed.

(** The other failure after the checks: with an expiry string outside the
    grammar in the environment, a refresh of a stored token deletes its row
    and then fails in [parseExpiresIn]. *)
Lemma refresh_bad_duration_loses_row :
  exists r1 w1 w2,
    Scenario.login_alice Scenario.world1 = (Ok r1, w1)
    /\ AuthService.refresh (jwt := Reference.jwt) Scenario.env_bad
         (AuthService.ar_refreshToken r1) w1
       = (Err "Invalid expires format. Use format: 1s, 1m, 1h, 1d", w2)
    /\ Schema.refreshTokens (db w1) <> []
    /\ Schema.refreshTokens (db w2) = [].
Proof.
  do 3 eexists.
  split; [vm_compute; reflexivity|].
  split; [vm_compute; reflexivity|].
  split; [vm_compute; discriminate|vm_compute; reflexivity].
Qed.

(** * Further properties of the flow *)

(** ** The Authorization header *)

Section HeaderFacts.
Import TokenHelpers.

Lemma split_space_no_space (s : string) :
  has_space s = false -> split_space s = [s].
Proof.
  induction s as [|c s IH]; [reflexivity|]. simpl.
  destruct (Ascii.eqb c " "); [discriminate|]. simpl.
  intros H. now rewrite (IH H).
Qed.

Lemma split_space_app (a rest : string) :
  has_space a = false ->
  split_space (a +:+ String " " rest) = a :: split_space rest.
Proof.
  induction a as [|c a IH]; [reflexivity|].
  rewrite append_String. simpl.
  destruct (Ascii.eqb c " "); [discriminate|]. simpl.
  intros H. now rewrite (IH H).
Qed.

Lemma split_space_nonempty (s : string) : split_space s <> [].
Proof.
  destruct s as [|c s]; [discriminate|]. simpl.
  destruct (Ascii.eqb c " "); [discriminate|].
  destruct (split_space s); discriminate.
Qed.

Lemma split_space_single (s a : string) :
  split_space s = [a] -> s = a /\ has_space a = false.
Proof.
  revert a. induction s as [|c s IH]; intros a.
  - intros [= <-]. split; reflexivity.
  - simpl. destruct (Ascii.eqb c " ") eqn:E.
    + intros [= _ H]. now apply split_space_nonempty in H.
    + destruct (split_space s) as [|p ps] eqn:Es;
        [now apply split_space_nonempty in Es|].
      intros [= <- ->]. destruct (IH p eq_refl) as [-> Hp].
      split; [reflexivity|]. simpl. now rewrite E.
Qed.

Lemma split_space_cons (s a : string) (rest : list string) :
  split_space s = a :: rest -> rest <> [] ->
  exists s', s = a +:+ String " " s' /\ split_space s' = rest
             /\ has_space a = false.
Proof.
  revert a. induction s as [|c s IH]; intros a.
  - intros [= <- <-] H. now destruct H.
  - simpl. destruct (Ascii.eqb c " ") eqn:E.
    + apply Ascii.eqb_eq in E. subst c. intros [= <- <-] _.
      exists s. repeat split.
    + destruct (split_space s) as [|p ps] eqn:Es;
        [now apply split_space_nonempty in Es|].
      intros [= <- <-] Hne. destruct (IH p eq_refl Hne) as (s' & -> & Hs' & Hp).
      exists s'. split; [reflexivity|]. split; [assumption|].
      simpl. now rewrite E.
Qed.

(** A header that splits in two is its two pieces around one space, and
    the second piece has no space. *)
Lemma split_space_two (s a b : string) :
  split_space s = [a; b] ->
  s = a +:+ String " " b /\ has_space b = false.
Proof.
  intros H. apply split_space_cons in H as (s' & -> & Hs' & _); [|discriminate].
  apply split_space_single in Hs' as [-> Hb]. split; [reflexivity|assumption].
Qed.

End HeaderFacts.

Lemma extractToken_Some_iff (header token : string) :
  TokenHelpers.extractToken (Some header) = Some token
  <-> header = "Bearer " +:+ token /\ TokenHelpers.has_space token = false.
Proof.
  split.
  - unfold TokenHelpers.extractToken. destruct header as [|c h]; [discriminate|].
    destruct (TokenHelpers.split_space (String c h)) as [|a [|b [|x l]]] eqn:E;
      try discriminate.
    destruct (String.eqb a "Bearer") eqn:Ea; [|discriminate].
    apply String.eqb_eq in Ea. subst a. intros [= <-].
    apply split_space_two in E as [-> Hb]. split; [reflexivity|assumption].
  - intros [-> Hs]. unfold TokenHelpers.extractToken.
    change ("Bearer " +:+ token) with ("Bearer" +:+ String " " token).
    rewrite (split_space_app "Bearer" token eq_refl).
    rewrite (split_space_no_space token Hs). reflexivity.
Qed.

(** X1: [extractToken] returns a token exactly for a header made of
    "Bearer", one space and a piece without a space; the token is that
    piece, which may be empty.  Any other header, and a missing one, gives
    [null]. *)
Theorem X1_extractToken_bearer (header token : string) :
  (TokenHelpers.extractToken (Some header) = Some token
   <-> header = "Bearer " +:+ token /\ TokenHelpers.has_space token = false)
  /\ TokenHelpers.extractToken None = None.
Proof. split; [apply extractToken_Some_iff|reflexivity]. Qed.

Example extractToken_lowercase :
  TokenHelpers.extractToken (Some "bearer abc") = None.
Proof. reflexivity. Qed.

Example extractToken_two_spaces :
  TokenHelpers.extractToken (Some "Bearer  abc") = None.
Proof. reflexivity. Qed.

Example extractToken_empty_token :
  TokenHelpers.extractToken (Some "Bearer ") = Some "".
Proof. reflexivity. Qed.

(** ** The guards *)

Section GuardFacts.
Context {jwt : JwtLib}.
Variable env : Env.
Import Schema.

Lemma getUserRoles_eq (userId : string) (w : World) :
  UserService.getUserRoles userId w = (Ok (UserService.role_names_of (db w) userId), w).
Proof. reflexivity. Qed.

Lemma extractToken_bearer (header : option string) (token : string) :
  TokenHelpers.bearer header token -> TokenHelpers.extractToken header = Some token.
Proof.
  intros (-> & _ & Hs). apply extractToken_Some_iff. now split.
Qed.

Lemma bearer_cases (header : option string) :
  (exists token, TokenHelpers.bearer header token)
  \/ TokenHelpers.extractToken header = None
  \/ TokenHelpers.extractToken header = Some EmptyString.
Proof.
  destruct header as [h|]; [|right; now left].
  destruct (TokenHelpers.extractToken (Some h)) as [[|c t]|] eqn:E.
  - right; now right.
  - left. exists (String c t). apply extractToken_Some_iff in E as [-> Hs].
    repeat split; [discriminate|assumption].
  - right; now left.
Qed.

Lemma authMiddleware_no_token (header : option string) (c : AuthGuard.Variables)
    (w : World) :
  (forall token, ~ TokenHelpers.bearer header token) ->
  AuthGuard.authMiddleware env header c w
  = ((AuthGuard.Answer "Authentication required" 401 "UNAUTHORIZED" None, c), w).
Proof.
  intros Hno. unfold AuthGuard.authMiddleware.
  destruct (bearer_cases header) as [[token Hb]|[E|E]].
  - now destruct (Hno token).
  - now rewrite E.
  - now rewrite E.
Qed.

Lemma authMiddleware_token (header : option string) (token : string)
    (c : AuthGuard.Variables) (w : World) :
  TokenHelpers.bearer header token ->
  AuthGuard.authMiddleware env header c w
  = match fst (JwtUtil.verifyAccessToken env token w) with
    | Ok payload =>
        ((AuthGuard.Continue,
          {| AuthGuard.var_user := Some payload;
             AuthGuard.var_userRoles :=
               Some (UserService.role_names_of (db w) (Jwt.userId payload)) |}), tick w)
    | Err _ =>
        ((AuthGuard.Answer "Invalid or expired access token" 401 "INVALID_TOKEN" None, c),
         tick w)
    end.
Proof.
  intros Hb. unfold AuthGuard.authMiddleware.
  rewrite (extractToken_bearer header token Hb).
  destruct Hb as (_ & Hne & _). destruct token as [|x t]; [now destruct Hne|].
  rewrite verifyAccessToken_eq. simpl.
  destruct (jwt_verify _ _ _) as [p|]; [|reflexivity].
  destruct (String.eqb (Jwt.type p) "access"); reflexivity.
Qed.

Lemma bearer_inj (header : option string) (t1 t2 : string) :
  TokenHelpers.bearer header t1 -> TokenHelpers.bearer header t2 -> t1 = t2.
Proof.
  intros (-> & _) ([= H] & _). now rewrite !append_empty in H.
Qed.

Lemma authMiddleware_spec (header : option string) (c : AuthGuard.Variables)
    (w : World) :
  let r := AuthGuard.authMiddleware env header c w in
  (fst (fst r) = AuthGuard.Continue
   <-> exists token payload,
         TokenHelpers.bearer header token
         /\ fst (JwtUtil.verifyAccessToken env token w) = Ok payload)
  /\ (forall token payload,
        TokenHelpers.bearer header token ->
        fst (JwtUtil.verifyAccessToken env token w) = Ok payload ->
        snd (fst r)
        = {| AuthGuard.var_user := Some payload;
             AuthGuard.var_userRoles :=
               Some (UserService.role_names_of (db w) (Jwt.userId payload)) |})
  /\ (fst (fst r) <> AuthGuard.Continue ->
      (fst (fst r) = AuthGuard.Answer "Authentication required" 401 "UNAUTHORIZED" None
       \/ fst (fst r)
          = AuthGuard.Answer "Invalid or expired access token" 401 "INVALID_TOKEN" None)
      /\ snd (fst r) = c)
  /\ db (snd r) = db w.
Proof.
  intros r. subst r.
  destruct (bearer_cases header) as [[token Hb]|Hno].
  - rewrite (authMiddleware_token header token c w Hb).
    destruct (fst (JwtUtil.verifyAccessToken env token w)) as [payload|msg] eqn:Hv; simpl.
    + split; [split; [intros _; now exists token, payload|reflexivity]|].
      split; [|split; [intros H; now destruct H|reflexivity]].
      intros t p Hb' Hv'. rewrite <- (bearer_inj header token t Hb Hb') in Hv'.
      rewrite Hv in Hv'. now injection Hv' as <-.
    + split; [split; [discriminate|]|].
      * intros (t & p & Hb' & Hv').
        rewrite <- (bearer_inj header token t Hb Hb') in Hv'. congruence.
      * split; [|split; [intros _; split; [now right|reflexivity]|reflexivity]].
        intros t p Hb' Hv'. rewrite <- (bearer_inj header token t Hb Hb') in Hv'.
        congruence.
  - assert (Hnone : forall token, ~ TokenHelpers.bearer header token).
    { intros token Hb. pose proof (extractToken_bearer _ _ Hb) as E'.
      destruct Hb as (_ & Hne & _).
      destruct Hno as [E|E]; rewrite E in E'; [discriminate|].
      injection E' as <-. now destruct Hne. }
    rewrite (authMiddleware_no_token header c w Hnone). simpl.
    split; [split; [discriminate|]|].
    + intros (t & p & Hb & _). now destruct (Hnone t).
    + split; [intros t p Hb; now destruct (Hnone t)|].
      split; [intros _; split; [now left|reflexivity]|reflexivity].
Qed.

End GuardFacts.

(** X2: [authMiddleware] calls [next()] exactly when the header carries a
    usable bearer token that [verifyAccessToken] accepts; it then leaves the
    payload in [user] and, in [userRoles], the role names the database
    holds for that user at this request.  Every other request is answered
    401, with one of two messages, the context untouched.  The database is
    never written. *)
Theorem X2_authMiddleware_outcomes {jwt : JwtLib} (env : Env)
    (header : option string) (c : AuthGuard.Variables) (w : World) :
  let r := AuthGuard.authMiddleware env header c w in
  (fst (fst r) = AuthGuard.Continue
   <-> exists token payload,
         TokenHelpers.bearer header token
         /\ fst (JwtUtil.verifyAccessToken env token w) = Ok payload)
  /\ (forall token payload,
        TokenHelpers.bearer header token ->
        fst (JwtUtil.verifyAccessToken env token w) = Ok payload ->
        snd (fst r)
        = {| AuthGuard.var_user := Some payload;
             AuthGuard.var_userRoles :=
               Some (UserService.role_names_of (db w) (Jwt.userId payload)) |})
  /\ (fst (fst r) <> AuthGuard.Continue ->
      (fst (fst r) = AuthGuard.Answer "Authentication required" 401 "UNAUTHORIZED" None
       \/ fst (fst r)
          = AuthGuard.Answer "Invalid or expired access token" 401 "INVALID_TOKEN" None)
      /\ snd (fst r) = c)
  /\ db (snd r) = db w.
Proof. apply authMiddleware_spec. Qed.

Section RoleGuardFacts.
Import Schema.

Lemma role_names_of_In (d : Db) (id n : string) :
  In n (UserService.role_names_of d id)
  <-> exists ur r,
        In ur (userRoles d) /\ ur_userId ur = id
        /\ In r (roles d) /\ role_id r = ur_roleId ur /\ role_name r = n.
Proof.
  unfold UserService.role_names_of. rewrite in_flat_map. split.
  - intros (ur & Hur & Hn).
    destruct (String.eqb (ur_userId ur) id) eqn:E; [|destruct Hn].
    apply String.eqb_eq in E. apply in_map_iff in Hn as (r & Hrn & Hr).
    apply filter_In in Hr as [Hr Hid]. apply String.eqb_eq in Hid.
    exists ur, r. auto.
  - intros (ur & r & Hur & Hid & Hr & Hrid & Hn).
    exists ur. split; [assumption|].
    rewrite Hid, String.eqb_refl. apply in_map_iff. exists r.
    split; [assumption|]. apply filter_In. split; [assumption|].
    rewrite Hrid. apply String.eqb_refl.
Qed.

Lemma hasRole_iff (allowedRoles userRoles : list string) :
  existsb (fun role => UserService.mem role userRoles) allowedRoles = true
  <-> exists role, In role allowedRoles /\ In role userRoles.
Proof.
  rewrite existsb_exists. split; intros (role & H1 & H2); exists role;
    (split; [assumption|]); now apply mem_In.
Qed.

Lemma requireRole_spec (allowedRoles : list string) (c : AuthGuard.Variables) :
  let userRoles := default [] (AuthGuard.var_userRoles c) in
  let held := exists role, In role allowedRoles /\ In role userRoles in
  (AuthGuard.requireRole allowedRoles c = AuthGuard.Continue
   <-> (exists user, AuthGuard.var_user c = Some user) /\ held)
  /\ (AuthGuard.var_user c = None ->
      AuthGuard.requireRole allowedRoles c
      = AuthGuard.Answer "Authentication required" 401 "UNAUTHORIZED" None)
  /\ ((exists user, AuthGuard.var_user c = Some user) -> ~ held ->
      AuthGuard.requireRole allowedRoles c
      = AuthGuard.Answer "Insufficient permissions" 403 "FORBIDDEN"
          (Some {| AuthGuard.requiredRoles := allowedRoles;
                   AuthGuard.userRoles := userRoles |})).
Proof.
  intros userRoles held. unfold AuthGuard.requireRole. fold userRoles.
  pose proof (hasRole_iff allowedRoles userRoles) as Hiff. fold held in Hiff.
  destruct (AuthGuard.var_user c) as [user|].
  - destruct (existsb _ allowedRoles) eqn:E; simpl.
    + split; [split; [intros _; split; [now exists user|now apply Hiff]|reflexivity]|].
      split; [discriminate|]. intros _ Hn. exfalso. apply Hn. now apply Hiff.
    + split; [split; [discriminate|]|split; [discriminate|reflexivity]].
      intros [_ Hh]. apply Hiff in Hh. discriminate.
  - split; [split; [discriminate|intros [[u Hu] _]; discriminate]|].
    split; [reflexivity|]. intros [u Hu]. discriminate.
Qed.

End RoleGuardFacts.

(** X3: [requireRole] calls [next()] exactly when [user] is set and one of
    the allowed roles is among [userRoles] (none, for a variable never
    set); without a user it answers 401, otherwise 403 with both lists in
    the details.  With no allowed role it never passes. *)
Theorem X3_requireRole_outcomes (allowedRoles : list string)
    (c : AuthGuard.Variables) :
  let userRoles := default [] (AuthGuard.var_userRoles c) in
  let held := exists role, In role allowedRoles /\ In role userRoles in
  ((AuthGuard.requireRole allowedRoles c = AuthGuard.Continue
    <-> (exists user, AuthGuard.var_user c = Some user) /\ held)
   /\ (AuthGuard.var_user c = None ->
       AuthGuard.requireRole allowedRoles c
       = AuthGuard.Answer "Authentication required" 401 "UNAUTHORIZED" None)
   /\ ((exists user, AuthGuard.var_user c = Some user) -> ~ held ->
       AuthGuard.requireRole allowedRoles c
       = AuthGuard.Answer "Insufficient permissions" 403 "FORBIDDEN"
           (Some {| AuthGuard.requiredRoles := allowedRoles;
                    AuthGuard.userRoles := userRoles |})))
  /\ AuthGuard.requireRole [] c <> AuthGuard.Continue.
Proof.
  intros userRoles held. split; [apply requireRole_spec|].
  unfold AuthGuard.requireRole. destruct (AuthGuard.var_user c); discriminate.
Qed.

Section GuardChain.
Context {jwt : JwtLib}.
Variable env : Env.
Import Schema.

(** The two guards in a row: with a token that verifies, the role check is
    decided by the rows of [user_roles] and [roles] at this request. *)
Lemma guard_chain (header : option string) (token : string) (payload : Jwt.Payload)
    (allowedRoles : list string) (c : AuthGuard.Variables) (w : World) :
  TokenHelpers.bearer header token ->
  fst (JwtUtil.verifyAccessToken env token w) = Ok payload ->
  let r := AuthGuard.authMiddleware env header c w in
  fst (fst r) = AuthGuard.Continue
  /\ (AuthGuard.requireRole allowedRoles (snd (fst r)) = AuthGuard.Continue
      <-> exists role ur r',
            In role allowedRoles
            /\ In ur (userRoles (db w)) /\ ur_userId ur = Jwt.userId payload
            /\ In r' (roles (db w)) /\ role_id r' = ur_roleId ur
            /\ role_name r' = role).
Proof.
  intros Hb Hv r. subst r.
  destruct (authMiddleware_spec env header c w) as (Hpass & Hctx & _).
  split; [apply Hpass; now exists token, payload|].
  rewrite (Hctx token payload Hb Hv).
  destruct (requireRole_spec allowedRoles
              {| AuthGuard.var_user := Some payload;
                 AuthGuard.var_userRoles :=
                   Some (UserService.role_names_of (db w) (Jwt.userId payload)) |})
    as (Hiff & _).
  rewrite Hiff. simpl. split.
  - intros (_ & role & Hin & Hn). apply role_names_of_In in Hn as (ur & r' & H).
    exists role, ur, r'. tauto.
  - intros (role & ur & r' & Hin & H). split; [now exists payload|].
    exists role. split; [assumption|]. apply role_names_of_In. exists ur, r'. tauto.
Qed.

End GuardChain.

(** X4: behind [authMiddleware], [requireRole] is decided by the database
    at the time of the request: for a token that verifies, the chain passes
    exactly when [user_roles] assigns the token's user a role whose name is
    allowed.  The token carries no role. *)
Theorem X4_roles_are_read_per_request {jwt : JwtLib} (env : Env)
    (header : option string) (token : string) (payload : Jwt.Payload)
    (allowedRoles : list string) (c : AuthGuard.Variables) (w : World) :
  TokenHelpers.bearer header token ->
  fst (JwtUtil.verifyAccessToken env token w) = Ok payload ->
  let r := AuthGuard.authMiddleware env header c w in
  fst (fst r) = AuthGuard.Continue
  /\ (AuthGuard.requireRole allowedRoles (snd (fst r)) = AuthGuard.Continue
      <-> exists role ur r',
            In role allowedRoles
            /\ In ur (Schema.userRoles (db w))
            /\ Schema.ur_userId ur = Jwt.userId payload
            /\ In r' (Schema.roles (db w))
            /\ Schema.role_id r' = Schema.ur_roleId ur
            /\ Schema.role_name r' = role).
Proof. apply guard_chain. Qed.

Lemma X4_roles_are_read_per_request_witness :
  let r := AuthGuard.authMiddleware (jwt := Reference.jwt) Scenario.env0
             Cases.bob_header AuthGuard.no_variables Scenario.world0 in
  fst (fst r) = AuthGuard.Continue
  /\ (AuthGuard.requireRole ["admin"] (snd (fst r)) = AuthGuard.Continue
      <-> exists role ur r',
            In role ["admin"]
            /\ In ur (Schema.userRoles (db Scenario.world0))
            /\ Schema.ur_userId ur = "u-bob"
            /\ In r' (Schema.roles (db Scenario.world0))
            /\ Schema.role_id r' = Schema.ur_roleId ur
            /\ Schema.role_name r' = role).
Proof.
  apply (X4_roles_are_read_per_request (jwt := Reference.jwt) Scenario.env0
           Cases.bob_header Cases.bob_token
           (JwtUtil.accessPayload "u-bob" "bob@example.com" 1700000000 900)
           ["admin"] AuthGuard.no_variables Scenario.world0).
  - split; [reflexivity|].
    split; [intros H; vm_compute in H; discriminate|vm_compute; reflexivity].
  - vm_compute. reflexivity.
Defined.

Example bob_is_admin_alice_is_not :
  AuthGuard.requireRole ["admin"]
    (snd (fst (AuthGuard.authMiddleware (jwt := Reference.jwt) Scenario.env0
                 Cases.bob_header AuthGuard.no_variables Scenario.world0)))
  = AuthGuard.Continue
  /\ AuthGuard.requireRole ["admin"]
       (snd (fst (AuthGuard.authMiddleware (jwt := Reference.jwt) Scenario.env0
                    Cases.alice_header AuthGuard.no_variables Scenario.world0)))
     = AuthGuard.Answer "Insufficient permissions" 403 "FORBIDDEN"
         (Some {| AuthGuard.requiredRoles := ["admin"]; AuthGuard.userRoles := ["user"] |}).
Proof. split; vm_compute; reflexivity. Qed.

(** ** Roles and permissions of a user *)

Section RoleAssignment.
Import Schema.

Lemma assignRole_cases (userId roleId : string) (w : World) :
  let present :=
    existsb (fun ur => String.eqb (ur_userId ur) userId
                       && String.eqb (ur_roleId ur) roleId) (userRoles (db w)) in
  let referenced :=
    existsb (fun u => String.eqb (user_id u) userId) (users (db w))
    && existsb (fun r => String.eqb (role_id r) roleId) (roles (db w)) in
  UserService.assignRole userId roleId w =
  if present then (Ok tt, w)
  else if referenced
  then (Ok tt, set_db (set_userRoles
                 (fun l => (l ++ [{| ur_userId := userId; ur_roleId := roleId |}])%list)) w)
  else (Err constraint_violation, w).
Proof.
  intros present referenced. unfold UserService.assignRole, bind, get_db.
  fold present. destruct present; [reflexivity|].
  fold referenced. destruct referenced; reflexivity.
Qed.

Lemma pair_present_iff (userId roleId : string) (l : list UserRole) :
  existsb (fun ur => String.eqb (ur_userId ur) userId
                     && String.eqb (ur_roleId ur) roleId) l = true
  <-> exists ur, In ur l /\ ur_userId ur = userId /\ ur_roleId ur = roleId.
Proof.
  rewrite existsb_exists. split; intros (ur & Hin & H); exists ur; (split; [assumption|]).
  - apply andb_prop in H as [H1 H2]. now apply String.eqb_eq in H1, H2.
  - destruct H as [-> ->]. now rewrite !String.eqb_refl.
Qed.

Lemma assignRole_names (userId roleId : string) (w w' : World) :
  UserService.assignRole userId roleId w = (Ok tt, w') ->
  (forall u n,
     In n (UserService.role_names_of (db w') u)
     <-> In n (UserService.role_names_of (db w) u)
         \/ (u = userId
             /\ exists r, In r (roles (db w)) /\ role_id r = roleId /\ role_name r = n))
  /\ UserService.assignRole userId roleId w' = (Ok tt, w')
  /\ users (db w') = users (db w) /\ refreshTokens (db w') = refreshTokens (db w).
Proof.
  rewrite assignRole_cases. cbv zeta.
  destruct (existsb _ (userRoles (db w))) eqn:Ep.
  - intros [= <-]. split; [|split; [|split; reflexivity]].
    + intros u n. split; [now left|]. intros [H|(-> & r & Hr & Hid & Hn)]; [assumption|].
      apply pair_present_iff in Ep as (ur & Hur & Hu & Hrid).
      apply role_names_of_In. exists ur, r. rewrite Hrid. auto.
    + rewrite assignRole_cases. cbv zeta. now rewrite Ep.
  - destruct (existsb _ (users (db w)) && existsb _ (roles (db w))) eqn:Er;
      [|discriminate].
    intros [= <-]. split; [|split; [|split; reflexivity]].
    + intros u n. rewrite !role_names_of_In. simpl. split.
      * intros (ur & r & Hur & Hu & Hr & Hid & Hn).
        apply in_app_or in Hur as [Hur|[<-|[]]].
        -- left. now exists ur, r.
        -- right. simpl in *. split; [now symmetry|]. now exists r.
      * intros [(ur & r & Hur & H)|(-> & r & Hr & Hid & Hn)].
        -- exists ur, r. split; [apply in_or_app; now left|assumption].
        -- exists {| ur_userId := userId; ur_roleId := roleId |}, r.
           split; [apply in_or_app; right; now left|]. simpl. auto.
    + rewrite assignRole_cases. cbv zeta.
      replace (existsb _ (userRoles (db (set_db _ w)))) with true; [reflexivity|].
      symmetry. apply pair_present_iff.
      exists {| ur_userId := userId; ur_roleId := roleId |}. simpl.
      split; [apply in_or_app; right; now left|auto].
Qed.

Lemma removeRole_names (userId roleId : string) (w : World) :
  let w' := snd (UserAdmin.removeRole userId roleId w) in
  fst (UserAdmin.removeRole userId roleId w) = Ok tt
  /\ (forall ur, In ur (userRoles (db w'))
                 <-> In ur (userRoles (db w))
                     /\ ~ (ur_userId ur = userId /\ ur_roleId ur = roleId))
  /\ (forall u n,
        In n (UserService.role_names_of (db w') u)
        <-> exists ur r,
              In ur (userRoles (db w))
              /\ ~ (ur_userId ur = userId /\ ur_roleId ur = roleId)
              /\ ur_userId ur = u /\ In r (roles (db w))
              /\ role_id r = ur_roleId ur /\ role_name r = n).
Proof.
  intros w'. subst w'. unfold UserAdmin.removeRole, modify_db. simpl.
  assert (Hrows : forall ur,
            In ur (List.filter
                     (fun ur => negb (String.eqb (ur_userId ur) userId
                                      && String.eqb (ur_roleId ur) roleId))
                     (userRoles (db w)))
            <-> In ur (userRoles (db w))
                /\ ~ (ur_userId ur = userId /\ ur_roleId ur = roleId)).
  { intros ur. rewrite filter_In, negb_true_iff, andb_false_iff, !String.eqb_neq.
    split.
    - intros [Hin [H|H]]; (split; [assumption|]); intros [? ?]; contradiction.
    - intros [Hin Hn]. split; [assumption|].
      destruct (String.string_dec (ur_userId ur) userId) as [E|E]; [|now left].
      right. intros E'. apply Hn. now split. }
  split; [reflexivity|]. split; [exact Hrows|].
  intros u n. rewrite role_names_of_In. simpl. split.
  - intros (ur & r & Hur & H). apply Hrows in Hur as [Hur Hne]. exists ur, r. tauto.
  - intros (ur & r & Hur & Hne & H). exists ur, r. split; [now apply Hrows|tauto].
Qed.

(** Removing a pair that was assigned to a table without it gives the
    table back. *)
Lemma assign_then_remove (userId roleId : string) (w w1 : World) :
  (forall ur, In ur (userRoles (db w)) ->
              ~ (ur_userId ur = userId /\ ur_roleId ur = roleId)) ->
  UserService.assignRole userId roleId w = (Ok tt, w1) ->
  db (snd (UserAdmin.removeRole userId roleId w1)) = db w.
Proof.
  intros Hfresh. rewrite assignRole_cases. cbv zeta.
  assert (Hfilter : List.filter
            (fun ur => negb (String.eqb (ur_userId ur) userId
                             && String.eqb (ur_roleId ur) roleId)) (userRoles (db w))
          = userRoles (db w)).
  { induction (userRoles (db w)) as [|ur l IH]; [reflexivity|]. simpl.
    destruct (String.eqb (ur_userId ur) userId && String.eqb (ur_roleId ur) roleId) eqn:E.
    - exfalso. apply andb_prop in E as [E1 E2]. apply String.eqb_eq in E1, E2.
      apply (Hfresh ur); [now left|auto].
    - simpl. f_equal. apply IH. intros x Hx. apply Hfresh. now right. }
  destruct (existsb _ (userRoles (db w))) eqn:Ep.
  - intros [= <-]. unfold UserAdmin.removeRole, modify_db. simpl.
    unfold set_userRoles. rewrite Hfilter. now destruct (db w).
  - destruct (_ && _); [|discriminate]. intros [= <-].
    unfold UserAdmin.removeRole, modify_db. simpl. unfold set_userRoles. simpl.
    rewrite List.filter_app, Hfilter. simpl. rewrite !String.eqb_refl. simpl.
    rewrite app_nil_r. now destruct (db w).
Qed.

End RoleAssignment.

(** X5: a successful [assignRole] adds to the user's role names exactly
    the names of the roles with that id, changes no other user's names, no
    user row and no refresh-token row, and a second call changes nothing
    (the insert is [onConflictDoNothing]). *)
Theorem X5_assignRole_grants_once (userId roleId : string) (w w' : World) :
  UserService.assignRole userId roleId w = (Ok tt, w') ->
  (forall u n,
     In n (UserService.role_names_of (db w') u)
     <-> In n (UserService.role_names_of (db w) u)
         \/ (u = userId
             /\ exists r, In r (Schema.roles (db w)) /\ Schema.role_id r = roleId
                          /\ Schema.role_name r = n))
  /\ UserService.assignRole userId roleId w' = (Ok tt, w')
  /\ Schema.users (db w') = Schema.users (db w)
  /\ Schema.refreshTokens (db w') = Schema.refreshTokens (db w).
Proof. apply assignRole_names. Qed.

Lemma X5_assignRole_grants_once_witness :
  let w' := snd (UserService.assignRole "u-alice" "r-admin" Scenario.world0) in
  (forall u n,
     In n (UserService.role_names_of (db w') u)
     <-> In n (UserService.role_names_of (db Scenario.world0) u)
         \/ (u = "u-alice"
             /\ exists r, In r (Schema.roles (db Scenario.world0))
                          /\ Schema.role_id r = "r-admin" /\ Schema.role_name r = n))
  /\ UserService.assignRole "u-alice" "r-admin" w' = (Ok tt, w')
  /\ Schema.users (db w') = Schema.users (db Scenario.world0)
  /\ Schema.refreshTokens (db w') = Schema.refreshTokens (db Scenario.world0).
Proof.
  apply (X5_assignRole_grants_once "u-alice" "r-admin" Scenario.world0).
  reflexivity.
Defined.

(** X6: [removeRole] deletes exactly the rows of that pair, so the role
    names of every user are those of the remaining rows; and removing a
    pair just assigned to a table that did not hold it restores the
    database. *)
Theorem X6_removeRole_revokes (userId roleId : string) (w : World) :
  let w' := snd (UserAdmin.removeRole userId roleId w) in
  (fst (UserAdmin.removeRole userId roleId w) = Ok tt
   /\ (forall ur, In ur (Schema.userRoles (db w'))
                  <-> In ur (Schema.userRoles (db w))
                      /\ ~ (Schema.ur_userId ur = userId /\ Schema.ur_roleId ur = roleId))
   /\ (forall u n,
         In n (UserService.role_names_of (db w') u)
         <-> exists ur r,
               In ur (Schema.userRoles (db w))
               /\ ~ (Schema.ur_userId ur = userId /\ Schema.ur_roleId ur = roleId)
               /\ Schema.ur_userId ur = u /\ In r (Schema.roles (db w))
               /\ Schema.role_id r = Schema.ur_roleId ur /\ Schema.role_name r = n))
  /\ ((forall ur, In ur (Schema.userRoles (db w)) ->
                  ~ (Schema.ur_userId ur = userId /\ Schema.ur_roleId ur = roleId)) ->
      forall w1, UserService.assignRole userId roleId w = (Ok tt, w1) ->
                 db (snd (UserAdmin.removeRole userId roleId w1)) = db w).
Proof.
  intros w'. split; [apply removeRole_names|]. intros Hfresh w1. now apply assign_then_remove.
Qed.

Section EffectivePermissions.
Import Schema.

Lemma mem_false (x : string) (l : list string) :
  UserService.mem x l = false <-> ~ In x l.
Proof.
  rewrite <- mem_In. destruct (UserService.mem x l); split; congruence.
Qed.

Lemma uniq_In (seen l : list string) (x : string) :
  In x (UserService.uniq seen l) <-> In x l /\ ~ In x seen.
Proof.
  revert seen. induction l as [|y l IH]; intros seen; simpl; [tauto|].
  destruct (UserService.mem y seen) eqn:E.
  - rewrite IH. apply mem_In in E. split.
    + intros [H1 H2]. auto.
    + intros [[->|H1] H2]; [contradiction|auto].
  - apply mem_false in E. simpl. rewrite IH. simpl. split.
    + intros [->|[H1 H2]]; [auto|]. split; [auto|]. intros H. apply H2. now right.
    + intros [[->|H1] H2]; [now left|].
      destruct (String.string_dec y x) as [->|Hne]; [now left|].
      right. split; [assumption|]. intros [H|H]; [contradiction|contradiction].
Qed.

Lemma uniq_NoDup (seen l : list string) : List.NoDup (UserService.uniq seen l).
Proof.
  revert seen. induction l as [|y l IH]; intros seen; simpl; [constructor|].
  destruct (UserService.mem y seen); [apply IH|].
  constructor; [|apply IH]. rewrite uniq_In. intros [_ H]. apply H. now left.
Qed.

(** The permission strings of [findByIdWithRoles], row by row. *)
Lemma findByIdWithRoles_permissions (id : string) (w : World)
    (userWithRoles : UserService.UserWithRoles) :
  fst (UserService.findByIdWithRoles id w) = Ok (Some userWithRoles) ->
  UserService.uwr_roles userWithRoles = UserService.role_names_of (db w) id
  /\ List.NoDup (UserService.uwr_permissions userWithRoles)
  /\ (forall s,
        In s (UserService.uwr_permissions userWithRoles)
        <-> exists r rp p,
              In r (roles (db w))
              /\ In (role_name r) (UserService.role_names_of (db w) id)
              /\ In rp (rolePermissions (db w)) /\ rp_roleId rp = role_id r
              /\ In p (permissions (db w)) /\ perm_id p = rp_permissionId rp
              /\ s = perm_resource p +:+ ":" +:+ perm_action p).
Proof.
  unfold UserService.findByIdWithRoles, bind, get_db.
  destruct (List.find _ (users (db w))) as [user|]; [|discriminate].
  simpl. intros [= <-]. simpl. split; [reflexivity|].
  set (roleNames := UserService.role_names_of (db w) id).
  set (roleIds := map role_id
                    (List.filter (fun r => UserService.mem (role_name r) roleNames)
                       (roles (db w)))).
  set (perms := flat_map
                  (fun rp =>
                     if UserService.mem (rp_roleId rp) roleIds
                     then List.filter (fun p => String.eqb (rp_permissionId rp) (perm_id p))
                            (permissions (db w))
                     else []) (rolePermissions (db w))).
  assert (HroleIds : forall x, In x roleIds
            <-> exists r, In r (roles (db w)) /\ In (role_name r) roleNames
                          /\ role_id r = x).
  { intros x. unfold roleIds. rewrite in_map_iff. split.
    - intros (r & Hx & Hr). apply filter_In in Hr as [Hr Hm]. apply mem_In in Hm.
      now exists r.
    - intros (r & Hr & Hn & Hx). exists r. split; [assumption|].
      apply filter_In. split; [assumption|now apply mem_In]. }
  assert (Hperms : forall p, In p perms
            <-> exists r rp, In r (roles (db w)) /\ In (role_name r) roleNames
                             /\ In rp (rolePermissions (db w)) /\ rp_roleId rp = role_id r
                             /\ In p (permissions (db w))
                             /\ perm_id p = rp_permissionId rp).
  { intros p. unfold perms. rewrite in_flat_map. split.
    - intros (rp & Hrp & Hp).
      destruct (UserService.mem (rp_roleId rp) roleIds) eqn:E; [|destruct Hp].
      apply mem_In, HroleIds in E as (r & Hr & Hn & Hid).
      apply filter_In in Hp as [Hp Hpid]. apply String.eqb_eq in Hpid.
      exists r, rp. repeat split; try assumption; now symmetry.
    - intros (r & rp & Hr & Hn & Hrp & Hid & Hp & Hpid).
      exists rp. split; [assumption|].
      replace (UserService.mem (rp_roleId rp) roleIds) with true.
      + apply filter_In. split; [assumption|]. rewrite Hpid. apply String.eqb_refl.
      + symmetry. apply mem_In, HroleIds. exists r. auto. }
  assert (Hnames : forall s,
            In s (UserService.uniq []
                    (map (fun p => UserService.permission_string (perm_resource p)
                                     (perm_action p)) perms))
            <-> exists r rp p, In r (roles (db w)) /\ In (role_name r) roleNames
                  /\ In rp (rolePermissions (db w)) /\ rp_roleId rp = role_id r
                  /\ In p (permissions (db w)) /\ perm_id p = rp_permissionId rp
                  /\ s = perm_resource p +:+ ":" +:+ perm_action p).
  { intros s. rewrite uniq_In, in_map_iff. split.
    - intros [(p & Hs & Hp) _]. apply Hperms in Hp as (r & rp & H).
      exists r, rp, p. unfold UserService.permission_string in Hs.
      destruct H as (? & ? & ? & ? & ? & ?). repeat split; try assumption.
      now symmetry.
    - intros (r & rp & p & Hr & Hn & Hrp & Hid & Hp & Hpid & ->).
      split; [|intros []]. exists p. split; [reflexivity|].
      apply Hperms. exists r, rp. repeat split; assumption. }
  fold roleNames. destruct roleNames as [|n0 names] eqn:En.
  - split; [constructor|]. intros s. split; [intros []|].
    intros (r & rp & p & _ & [] & _).
  - fold roleIds. destruct roleIds as [|i0 ids] eqn:Ei.
    + split; [constructor|]. intros s. split; [intros []|].
      intros (r & rp & p & Hr & Hn & _).
      assert (Hin : In (role_id r) []); [|destruct Hin].
      apply HroleIds. now exists r.
    + fold perms. split; [apply uniq_NoDup|exact Hnames].
Qed.

End EffectivePermissions.

(** X7: the projection of [findByIdWithRoles] carries the user's role
    names as [getUserRoles] reads them, and a duplicate-free list of
    permission strings: "resource:action" is in it exactly when some role
    whose name is among the user's role names is linked by
    [role_permissions] to a permission with that resource and action. *)
Theorem X7_effective_permissions (id : string) (w : World)
    (userWithRoles : UserService.UserWithRoles) :
  fst (UserService.findByIdWithRoles id w) = Ok (Some userWithRoles) ->
  Ok (UserService.uwr_roles userWithRoles) = fst (UserService.getUserRoles id w)
  /\ List.NoDup (UserService.uwr_permissions userWithRoles)
  /\ (forall s,
        In s (UserService.uwr_permissions userWithRoles)
        <-> exists r rp p,
              In r (Schema.roles (db w))
              /\ In (Schema.role_name r) (UserService.role_names_of (db w) id)
              /\ In rp (Schema.rolePermissions (db w))
              /\ Schema.rp_roleId rp = Schema.role_id r
              /\ In p (Schema.permissions (db w))
              /\ Schema.perm_id p = Schema.rp_permissionId rp
              /\ s = Schema.perm_resource p +:+ ":" +:+ Schema.perm_action p).
Proof.
  intros H. destruct (findByIdWithRoles_permissions id w userWithRoles H) as (Hr & Hn & Hp).
  split; [now rewrite Hr|]. split; assumption.
Qed.

Lemma X7_effective_permissions_witness :
  let userWithRoles :=
    {| UserService.uwr_user := Schema.publicUserSchema_parse Scenario.alice;
       UserService.uwr_roles := ["user"];
       UserService.uwr_permissions := ["documents:read"; "users:*"] |} in
  Ok (UserService.uwr_roles userWithRoles)
  = fst (UserService.getUserRoles "u-alice" Scenario.world0)
  /\ List.NoDup (UserService.uwr_permissions userWithRoles)
  /\ (forall s,
        In s (UserService.uwr_permissions userWithRoles)
        <-> exists r rp p,
              In r (Schema.roles (db Scenario.world0))
              /\ In (Schema.role_name r)
                   (UserService.role_names_of (db Scenario.world0) "u-alice")
              /\ In rp (Schema.rolePermissions (db Scenario.world0))
              /\ Schema.rp_roleId rp = Schema.role_id r
              /\ In p (Schema.permissions (db Scenario.world0))
              /\ Schema.perm_id p = Schema.rp_permissionId rp
              /\ s = Schema.perm_resource p +:+ ":" +:+ Schema.perm_action p).
Proof.
  apply (X7_effective_permissions "u-alice" Scenario.world0).
  reflexivity.
Defined.

(** ** The key constraints are kept *)

Section Preservation.
Import Schema Integrity.

Lemma preserves_ret (P : Db -> Prop) {A} (a : A) : preserves P (ret a).
Proof. intros w H. exact H. Qed.

Lemma preserves_throw (P : Db -> Prop) {A} (msg : string) :
  preserves P (@throw A msg).
Proof. intros w H. exact H. Qed.

Lemma preserves_bind (P : Db -> Prop) {A B} (m : M A) (k : A -> M B) :
  preserves P m -> (forall a, preserves P (k a)) -> preserves P (bind m k).
Proof.
  intros Hm Hk w H. unfold bind. specialize (Hm w H).
  destruct (m w) as [[a|msg] w1]; simpl in *; [|exact Hm].
  now apply Hk.
Qed.

Lemma preserves_catch (P : Db -> Prop) {A} (m : M A) (msg : string) :
  preserves P m -> preserves P (catch_rethrow m msg).
Proof.
  intros Hm w H. unfold catch_rethrow. specialize (Hm w H).
  destruct (m w) as [[a|e] w1]; exact Hm.
Qed.

Lemma preserves_reader (P : Db -> Prop) {A} (m : M A) :
  (forall w, db (snd (m w)) = db w) -> preserves P m.
Proof. intros Hm w H. now rewrite Hm. Qed.

Lemma preserves_modify (P : Db -> Prop) (f : Db -> Db) :
  (forall d, P d -> P (f d)) -> preserves P (modify_db f).
Proof. intros Hf w H. now apply Hf. Qed.

(** Filtering rows keeps a column duplicate-free. *)
Lemma NoDup_map_filter {A B} (f : A -> B) (p : A -> bool) (l : list A) :
  List.NoDup (map f l) -> List.NoDup (map f (List.filter p l)).
Proof.
  induction l as [|x l IH]; simpl; [trivial|].
  intros H. apply NoDup_cons_iff in H as [Hx Hl].
  destruct (p x); [|now apply IH]. simpl. constructor; [|now apply IH].
  intros Hin. apply Hx. apply in_map_iff in Hin as (y & Hy & Hin).
  apply filter_In in Hin as [Hin _]. apply in_map_iff. now exists y.
Qed.

(** Appending a row whose key no row holds keeps the column
    duplicate-free. *)
Lemma NoDup_map_snoc {A} (f : A -> string) (l : list A) (x : A) :
  List.NoDup (map f l) ->
  forallb (fun y => negb (String.eqb (f y) (f x))) l = true ->
  List.NoDup (map f (l ++ [x])).
Proof.
  intros Hl Hx. rewrite map_app. simpl.
  induction l as [|y l IH]; simpl; [constructor; [intros []|constructor]|].
  simpl in Hl, Hx. apply NoDup_cons_iff in Hl as [Hy Hl].
  apply andb_prop in Hx as [Hyx Hx]. apply negb_true_iff, String.eqb_neq in Hyx.
  constructor; [|now apply IH].
  intros Hin. apply in_app_or in Hin as [Hin|[Hin|[]]]; [contradiction|].
  now apply Hyx.
Qed.

Lemma wf_filter_tokens (p : RefreshToken -> bool) (d : Db) :
  db_wf d -> db_wf (set_refreshTokens (List.filter p) d).
Proof.
  intros (H1 & H2 & H3 & H4 & H5 & H6). unfold db_wf. simpl.
  repeat split; try assumption; try now apply NoDup_map_filter.
  intros r Hr. apply filter_In in Hr as [Hr _]. now apply H3.
Qed.

Lemma wf_insert_token (row : RefreshToken) (d : Db) :
  db_wf d -> rt_insertable d row = true ->
  db_wf (set_refreshTokens (fun l => (l ++ [row])%list) d).
Proof.
  intros (H1 & H2 & H3 & H4 & H5 & H6) Hins. unfold rt_insertable in Hins.
  apply andb_prop in Hins as [Hins _].
  apply andb_prop in Hins as [Hins Hfk]. apply andb_prop in Hins as [Hid Htok].
  unfold db_wf. simpl. repeat split; try assumption.
  - now apply NoDup_map_snoc.
  - now apply NoDup_map_snoc.
  - intros r Hr. apply in_app_or in Hr as [Hr|[<-|[]]]; [now apply H3|].
    apply existsb_exists in Hfk as (u & Hu & E). apply String.eqb_eq in E. now exists u.
Qed.

Lemma wf_insert_user (u : User) (d : Db) :
  db_wf d -> user_insertable d u = true ->
  db_wf (set_users (fun l => (l ++ [u])%list) d).
Proof.
  intros (H1 & H2 & H3 & H4 & H5 & H6) Hins. unfold user_insertable in Hins.
  apply andb_prop in Hins as [Hins Hname]. apply andb_prop in Hins as [Hid Hmail].
  unfold db_wf. simpl. repeat split; try assumption; try now apply NoDup_map_snoc.
  intros r Hr. destruct (H3 r Hr) as (x & Hx & E). exists x.
  split; [apply in_or_app; now left|assumption].
Qed.

Lemma wf_map_users (f : User -> User) (d : Db) :
  (forall u, user_id (f u) = user_id u /\ user_email (f u) = user_email u
             /\ user_username (f u) = user_username u) ->
  db_wf d -> db_wf (set_users (map f) d).
Proof.
  intros Hf (H1 & H2 & H3 & H4 & H5 & H6). unfold db_wf. simpl.
  assert (Hid : map user_id (map f (users d)) = map user_id (users d)).
  { rewrite map_map. apply map_ext. intros u. apply Hf. }
  assert (Hmail : map user_email (map f (users d)) = map user_email (users d)).
  { rewrite map_map. apply map_ext. intros u. apply Hf. }
  assert (Hname : map user_username (map f (users d)) = map user_username (users d)).
  { rewrite map_map. apply map_ext. intros u. apply Hf. }
  rewrite Hid, Hmail, Hname. repeat split; try assumption.
  intros r Hr. destruct (H3 r Hr) as (x & Hx & E). exists (f x).
  split; [now apply in_map|]. now rewrite (proj1 (Hf x)).
Qed.

Lemma wf_set_userRoles (f : list UserRole -> list UserRole) (d : Db) :
  db_wf d -> db_wf (set_userRoles f d).
Proof. intros H. exact H. Qed.

Lemma wf_without_user (id : string) (d : Db) :
  db_wf d -> db_wf (UserAdmin.without_user id d).
Proof.
  intros (H1 & H2 & H3 & H4 & H5 & H6). unfold db_wf. simpl.
  repeat split; try now apply NoDup_map_filter.
  intros r Hr. apply filter_In in Hr as [Hr Hne].
  apply negb_true_iff, String.eqb_neq in Hne.
  destruct (H3 r Hr) as (u & Hu & E). exists u. split; [|assumption].
  apply filter_In. split; [assumption|].
  apply negb_true_iff, String.eqb_neq. now rewrite E.
Qed.

End Preservation.

Section OperationsKeepKeys.
Context {jwt : JwtLib} {hasher : PasswordHasher}.
Variable env : Env.
Import Schema Integrity.

Lemma generateAccessToken_reads (userId email : string) (w : World) :
  db (snd (JwtUtil.generateAccessToken env userId email w)) = db w.
Proof.
  unfold JwtUtil.generateAccessToken, bind, lift_result.
  destruct (Duration.parseExpiresIn _); reflexivity.
Qed.

Lemma generateRefreshToken_reads (userId : string) (w : World) :
  db (snd (JwtUtil.generateRefreshToken env userId w)) = db w.
Proof.
  unfold JwtUtil.generateRefreshToken, bind, lift_result.
  destruct (Duration.parseExpiresIn _); reflexivity.
Qed.

Lemma verifyRefreshToken_reads (token : string) (w : World) :
  db (snd (JwtUtil.verifyRefreshToken env token w)) = db w.
Proof. now rewrite verifyRefreshToken_eq. Qed.

Lemma findByIdWithRoles_reads (id : string) (w : World) :
  db (snd (UserService.findByIdWithRoles id w)) = db w.
Proof. destruct (findByIdWithRoles_pure id w) as [r ->]. reflexivity. Qed.

Lemma insert_refreshToken_keeps (row : RefreshToken) :
  preserves db_wf (AuthService.insert_refreshToken row).
Proof.
  intros w H. unfold AuthService.insert_refreshToken, bind, get_db.
  destruct (rt_insertable (db w) row) eqn:E; [|exact H].
  now apply wf_insert_token.
Qed.

Lemma storeRefreshToken_keeps (userId token : string) (expiresAt : Z) :
  preserves db_wf (AuthService.storeRefreshToken userId token expiresAt).
Proof.
  apply preserves_bind; [now apply preserves_reader|].
  intros id. apply insert_refreshToken_keeps.
Qed.

Lemma updateLastLogin_keeps (id : string) :
  preserves db_wf (UserService.updateLastLogin id).
Proof.
  apply preserves_bind; [now apply preserves_reader|]. intros now.
  apply preserves_modify. intros d. apply wf_map_users.
  intros u. destruct (String.eqb (user_id u) id); repeat split.
Qed.

Lemma create_keeps (userData : UserService.NewUserData) :
  preserves db_wf (UserService.create userData).
Proof.
  intros w H. unfold UserService.create, bind, randomUUID, get_db. simpl.
  destruct (user_insertable _ _) eqn:E; [|exact H].
  simpl. now apply wf_insert_user.
Qed.

Lemma assignRole_keeps (userId roleId : string) :
  preserves db_wf (UserService.assignRole userId roleId).
Proof.
  intros w H. rewrite assignRole_cases. cbv zeta.
  destruct (existsb _ (userRoles (db w))); [exact H|].
  destruct (_ && _); exact H.
Qed.

Lemma login_keeps (email password : string) :
  preserves db_wf (AuthService.login env email password).
Proof.
  apply preserves_bind; [now apply preserves_reader|]. intros [user|];
    [|apply preserves_throw].
  destruct (negb (verify_password password (user_password user)));
    [apply preserves_throw|].
  destruct (negb (bool_decide (user_status user = ACTIVE))); [apply preserves_throw|].
  apply preserves_bind; [apply updateLastLogin_keeps|]. intros _.
  apply preserves_bind; [apply preserves_reader, findByIdWithRoles_reads|].
  intros [userWithRoles|]; [|apply preserves_throw].
  apply preserves_bind; [apply preserves_reader, generateAccessToken_reads|]. intros a.
  apply preserves_bind; [apply preserves_reader, generateRefreshToken_reads|]. intros t.
  apply preserves_bind; [apply storeRefreshToken_keeps|]. intros _.
  apply preserves_ret.
Qed.

Lemma register_keeps (data : UserService.NewUserData) :
  preserves db_wf (AuthService.register env data).
Proof.
  apply preserves_bind; [now apply preserves_reader|]. intros [|];
    [apply preserves_throw|].
  apply preserves_bind; [now apply preserves_reader|]. intros [|];
    [apply preserves_throw|].
  apply preserves_bind; [now apply preserves_reader|]. intros hashed.
  apply preserves_bind; [apply create_keeps|]. intros user.
  apply preserves_bind; [now apply preserves_reader|]. intros d.
  apply preserves_bind.
  { destruct (List.find _ (roles d)); [apply assignRole_keeps|apply preserves_ret]. }
  intros _.
  apply preserves_bind; [apply preserves_reader, findByIdWithRoles_reads|].
  intros [userWithRoles|]; [|apply preserves_throw].
  apply preserves_bind; [apply preserves_reader, generateAccessToken_reads|]. intros a.
  apply preserves_bind; [apply preserves_reader, generateRefreshToken_reads|]. intros t.
  apply preserves_bind; [apply storeRefreshToken_keeps|]. intros _.
  apply preserves_ret.
Qed.

Lemma refresh_keeps (token : string) :
  preserves db_wf (AuthService.refresh env token).
Proof.
  apply preserves_bind; [apply preserves_reader, verifyRefreshToken_reads|].
  intros payload.
  apply preserves_bind; [now apply preserves_reader|]. intros now.
  apply preserves_bind; [now apply preserves_reader|]. intros d.
  destruct (AuthService.find_storedToken d token (Jwt.userId payload) now)
    as [storedToken|]; [|apply preserves_throw].
  apply preserves_bind; [now apply preserves_reader|].
  intros [userRecord|]; [|apply preserves_throw].
  destruct (negb (bool_decide (pu_status userRecord = ACTIVE))); [apply preserves_throw|].
  apply preserves_bind; [apply preserves_modify; intros d'; apply wf_filter_tokens|].
  intros _.
  apply preserves_bind; [apply preserves_reader, generateAccessToken_reads|]. intros a.
  apply preserves_bind; [apply preserves_reader, generateRefreshToken_reads|]. intros t.
  apply preserves_bind; [now apply preserves_reader|]. intros id.
  apply preserves_bind; [apply insert_refreshToken_keeps|]. intros _.
  apply preserves_ret.
Qed.

Lemma cleanup_keeps : preserves db_wf AuthService.cleanupExpiredTokens.
Proof.
  apply preserves_bind; [now apply preserves_reader|]. intros now.
  apply preserves_bind; [now apply preserves_reader|]. intros d.
  apply preserves_bind; [apply preserves_modify; intros d'; apply wf_filter_tokens|].
  intros _. apply preserves_ret.
Qed.

Lemma user_delete_keeps (id : string) : preserves db_wf (UserAdmin.delete id).
Proof.
  apply preserves_bind; [now apply preserves_reader|]. intros d.
  apply preserves_bind; [apply preserves_modify, wf_without_user|].
  intros _. apply preserves_ret.
Qed.

End OperationsKeepKeys.

(** X8: every operation of the auth service keeps the key constraints of
    [users] and [refresh_tokens] (primary keys, unique email, username and
    token, and the owner of every refresh token being a user), whether it
    returns or throws; so does the cascading delete of a user. *)
Theorem X8_operations_keep_key_constraints
    {jwt : JwtLib} {hasher : PasswordHasher} (env : Env) (w : World) :
  Integrity.db_wf (db w) ->
  (forall data, Integrity.db_wf (db (snd (AuthService.register env data w))))
  /\ (forall email password,
        Integrity.db_wf (db (snd (AuthService.login env email password w))))
  /\ (forall token, Integrity.db_wf (db (snd (AuthService.refresh env token w))))
  /\ (forall token, Integrity.db_wf (db (snd (AuthService.logout token w))))
  /\ (forall userId, Integrity.db_wf (db (snd (AuthService.logoutAll userId w))))
  /\ Integrity.db_wf (db (snd (AuthService.cleanupExpiredTokens w)))
  /\ (forall id, Integrity.db_wf (db (snd (UserAdmin.delete id w)))).
Proof.
  intros H. split; [|split; [|split; [|split; [|split; [|split]]]]].
  - intros data. now apply register_keeps.
  - intros email password. now apply login_keeps.
  - intros token. now apply refresh_keeps.
  - intros token. now apply wf_filter_tokens.
  - intros userId. now apply wf_filter_tokens.
  - now apply cleanup_keeps.
  - intros id. now apply user_delete_keeps.
Qed.

Lemma world0_wf : Integrity.db_wf (db Scenario.world0).
Proof.
  unfold Integrity.db_wf. simpl.
  repeat split; try (repeat (constructor; [simpl; intuition discriminate|]); constructor).
  intros r [].
Qed.

Lemma X8_operations_keep_key_constraints_witness :
  (forall data,
     Integrity.db_wf
       (db (snd (AuthService.register (jwt := Reference.jwt) (hasher := Reference.hasher)
                   Scenario.env0 data Scenario.world0))))
  /\ (forall email password,
        Integrity.db_wf
          (db (snd (AuthService.login (jwt := Reference.jwt) (hasher := Reference.hasher)
                      Scenario.env0 email password Scenario.world0))))
  /\ (forall token,
        Integrity.db_wf
          (db (snd (AuthService.refresh (jwt := Reference.jwt) Scenario.env0 token
                      Scenario.world0))))
  /\ (forall token, Integrity.db_wf (db (snd (AuthService.logout token Scenario.world0))))
  /\ (forall userId,
        Integrity.db_wf (db (snd (AuthService.logoutAll userId Scenario.world0))))
  /\ Integrity.db_wf (db (snd (AuthService.cleanupExpiredTokens Scenario.world0)))
  /\ (forall id, Integrity.db_wf (db (snd (UserAdmin.delete id Scenario.world0)))).
Proof.
  apply (X8_operations_keep_key_constraints (jwt := Reference.jwt)
           (hasher := Reference.hasher) Scenario.env0 Scenario.world0).
  unfold Integrity.db_wf. simpl.
  repeat split; try (repeat (constructor; [simpl; intuition discriminate|]); constructor).
  intros r [].
Defined.

(** ** Logout and the sweep *)

Section SessionEnd.
Context {jwt : JwtLib}.
Variable env : Env.
Import Schema.

(** A token string with no row in the table is refused, whatever it is. *)
Lemma refresh_no_row (token : string) (w : World) :
  (forall r, In r (refreshTokens (db w)) -> rt_token r <> token) ->
  fst (AuthService.refresh env token w) = Err "Invalid or expired refresh token"
  /\ db (snd (AuthService.refresh env token w)) = db w.
Proof.
  intros Hrows.
  destruct (verifyRefreshToken_cases env token w) as [[p Hv]|He].
  - rewrite (refresh_verified env token w p Hv).
    rewrite find_storedToken_None; [split; reflexivity|].
    intros r Hin Hk. now destruct (Hrows r Hin).
  - rewrite (refresh_unverified env token w _ He). split; reflexivity.
Qed.

Lemma filter_idem {A} (p : A -> bool) (l : list A) :
  List.filter p (List.filter p l) = List.filter p l.
Proof.
  induction l as [|x l IH]; [reflexivity|]. simpl.
  destruct (p x) eqn:E; simpl; [rewrite E; now f_equal|exact IH].
Qed.

Lemma logout_spec (token : string) (w : World) :
  let w' := snd (AuthService.logout token w) in
  fst (AuthService.logout token w) = Ok tt
  /\ (forall r, In r (refreshTokens (db w'))
                <-> In r (refreshTokens (db w)) /\ rt_token r <> token)
  /\ users (db w') = users (db w)
  /\ db (snd (AuthService.logout token w')) = db w'
  /\ (forall w2, refreshTokens (db w2) = refreshTokens (db w') ->
                 fst (AuthService.refresh env token w2)
                 = Err "Invalid or expired refresh token").
Proof.
  intros w'. subst w'. unfold AuthService.logout, modify_db. simpl.
  assert (Hrows : forall r,
            In r (List.filter (fun r => negb (String.eqb (rt_token r) token))
                    (refreshTokens (db w)))
            <-> In r (refreshTokens (db w)) /\ rt_token r <> token).
  { intros r. now rewrite filter_In, negb_true_iff, String.eqb_neq. }
  split; [reflexivity|]. split; [exact Hrows|]. split; [reflexivity|]. split.
  - unfold set_db, set_refreshTokens. simpl. now rewrite filter_idem.
  - intros w2 Hw2. apply refresh_no_row. intros r Hr. rewrite Hw2 in Hr.
    now apply Hrows in Hr.
Qed.

(** [find] skips what a weaker filter has removed. *)
Lemma find_filter {A} (p q : A -> bool) (l : list A) :
  (forall x, p x = true -> q x = true) ->
  List.find p (List.filter q l) = List.find p l.
Proof.
  intros Hpq. induction l as [|x l IH]; [reflexivity|]. simpl.
  destruct (q x) eqn:Eq; simpl.
  - destruct (p x); [reflexivity|exact IH].
  - destruct (p x) eqn:Ep; [|exact IH]. apply Hpq in Ep. congruence.
Qed.

Lemma filter_length_split {A} (p : A -> bool) (l : list A) :
  length l = (length (List.filter p l)
              + length (List.filter (fun x => negb (p x)) l))%nat.
Proof.
  induction l as [|x l IH]; [reflexivity|]. simpl.
  destruct (p x); simpl; lia.
Qed.

Lemma cleanup_spec (w : World) :
  let now := next_reading w in
  let w' := snd (AuthService.cleanupExpiredTokens w) in
  fst (AuthService.cleanupExpiredTokens w)
  = Ok (Z.of_nat (length (refreshTokens (db w)))
        - Z.of_nat (length (refreshTokens (db w'))))
  /\ (forall r, In r (refreshTokens (db w'))
                <-> In r (refreshTokens (db w)) /\ now <= rt_expiresAt r)
  /\ (forall token userId later,
        now <= later ->
        AuthService.find_storedToken (db w') token userId later
        = AuthService.find_storedToken (db w) token userId later).
Proof.
  intros now w'. subst w'.
  unfold AuthService.cleanupExpiredTokens, bind, Date_now, get_db, modify_db, ret.
  simpl. fold now. split; [|split].
  - f_equal.
    rewrite (filter_length_split (fun r => (rt_expiresAt r <? now)%Z)
               (refreshTokens (db w))). lia.
  - intros r. rewrite filter_In, negb_true_iff, Z.ltb_ge. tauto.
  - intros token userId later Hle. unfold AuthService.find_storedToken. simpl.
    apply find_filter. intros r Hr.
    apply andb_prop in Hr as [_ Hr]. apply Z.ltb_lt in Hr.
    apply negb_true_iff, Z.ltb_ge. lia.
Qed.

End SessionEnd.

(** X9: [logout] never fails; it deletes the rows holding that token
    string and no other row, a second logout changes nothing, and in any
    world with the resulting table a refresh with that token is refused
    with "Invalid or expired refresh token". *)
Theorem X9_logout_revokes_the_token {jwt : JwtLib} (env : Env)
    (token : string) (w : World) :
  let w' := snd (AuthService.logout token w) in
  fst (AuthService.logout token w) = Ok tt
  /\ (forall r, In r (Schema.refreshTokens (db w'))
                <-> In r (Schema.refreshTokens (db w)) /\ Schema.rt_token r <> token)
  /\ Schema.users (db w') = Schema.users (db w)
  /\ db (snd (AuthService.logout token w')) = db w'
  /\ (forall w2, Schema.refreshTokens (db w2) = Schema.refreshTokens (db w') ->
                 fst (AuthService.refresh env token w2)
                 = Err "Invalid or expired refresh token").
Proof. apply logout_spec. Qed.

(** X10: [cleanupExpiredTokens] returns the number of rows it deleted,
    keeps exactly the rows whose expiry is not before its clock reading,
    and changes the answer of the refresh query for no token at that or
    any later time: the rows it deletes were already refused. *)
Theorem X10_sweep_is_hygiene (w : World) :
  let now := next_reading w in
  let w' := snd (AuthService.cleanupExpiredTokens w) in
  fst (AuthService.cleanupExpiredTokens w)
  = Ok (Z.of_nat (length (Schema.refreshTokens (db w)))
        - Z.of_nat (length (Schema.refreshTokens (db w'))))
  /\ (forall r, In r (Schema.refreshTokens (db w'))
                <-> In r (Schema.refreshTokens (db w)) /\ now <= Schema.rt_expiresAt r)
  /\ (forall token userId later,
        now <= later ->
        AuthService.find_storedToken (db w') token userId later
        = AuthService.find_storedToken (db w) token userId later).
Proof. apply cleanup_spec. Qed.

(** ** Registration *)

Section RegistrationFacts.
Context {jwt : JwtLib} {hasher : PasswordHasher}.
Variable env : Env.
Import Schema.

Lemma taken_iff (f : User -> string) (x : string) (l : list User) :
  existsb (fun u => String.eqb (f u) x) l = true <-> exists u, In u l /\ f u = x.
Proof.
  rewrite existsb_exists. split; intros (u & Hu & E); exists u; (split; [assumption|]).
  - now apply String.eqb_eq.
  - now apply String.eqb_eq.
Qed.

Lemma register_conflict (data : UserService.NewUserData) (w : World) :
  (Registration.email_taken (UserService.nu_email data) (db w) = true ->
   AuthService.register env data w = (Err "Email already registered", w))
  /\ (Registration.email_taken (UserService.nu_email data) (db w) = false ->
      Registration.username_taken (UserService.nu_username data) (db w) = true ->
      AuthService.register env data w = (Err "Username already taken", w)).
Proof.
  unfold Registration.email_taken, Registration.username_taken, AuthService.register, bind,
    UserService.emailExists, UserService.usernameExists, get_db, ret. simpl.
  split.
  - now intros ->.
  - now intros -> ->.
Qed.

Lemma find_snoc_new (id : string) (l : list User) (u : User) :
  forallb (fun x => negb (String.eqb (user_id x) id)) l = true ->
  user_id u = id ->
  List.find (fun x => String.eqb (user_id x) id) (l ++ [u]) = Some u.
Proof.
  intros Hl Hu. induction l as [|x l IH]; simpl.
  - now rewrite Hu, String.eqb_refl.
  - simpl in Hl. apply andb_prop in Hl as [Hx Hl].
    apply negb_true_iff in Hx. rewrite Hx. now apply IH.
Qed.

Lemma emailExists_eq (email : string) (w : World) :
  UserService.emailExists email w = (Ok (Registration.email_taken email (db w)), w).
Proof. reflexivity. Qed.

Lemma usernameExists_eq (username : string) (w : World) :
  UserService.usernameExists username w = (Ok (Registration.username_taken username (db w)), w).
Proof. reflexivity. Qed.

Lemma create_inv (userData : UserService.NewUserData) (w w' : World)
    (created : PublicUser) :
  UserService.create userData w = (Ok created, w') ->
  let newUser :=
    {| user_id := hd EmptyString (uuids w);
       user_email := UserService.nu_email userData;
       user_phone := UserService.nu_phone userData;
       user_username := UserService.nu_username userData;
       user_password := UserService.nu_password userData;
       user_name := or_default (UserService.nu_name userData)
                      (UserService.nu_username userData);
       user_status := ACTIVE; user_lastLoginAt := None |} in
  user_insertable (db w) newUser = true
  /\ created = publicUserSchema_parse newUser
  /\ db w' = set_users (fun l => (l ++ [newUser])%list) (db w).
Proof.
  unfold UserService.create, bind, randomUUID, get_db, modify_db, ret, throw. simpl.
  destruct (user_insertable _ _) eqn:E; [|discriminate].
  intros [= <- <-]. auto.
Qed.

Lemma register_inv (data : UserService.NewUserData) (w w' : World)
    (res : AuthService.AuthResult) :
  AuthService.register env data w = (Ok res, w') ->
  let newUser := Registration.registered_user data w in
  Registration.email_taken (UserService.nu_email data) (db w) = false
  /\ Registration.username_taken (UserService.nu_username data) (db w) = false
  /\ user_insertable (db w) newUser = true
  /\ users (db w') = (users (db w) ++ [newUser])%list
  /\ UserService.uwr_user (AuthService.ar_user res) = publicUserSchema_parse newUser
  /\ exists row,
       refreshTokens (db w') = (refreshTokens (db w) ++ [row])%list
       /\ rt_userId row = user_id newUser
       /\ rt_token row = AuthService.ar_refreshToken res.
Proof.
  intros H newUser. unfold AuthService.register in H.
  rewrite (bind_eq _ _ _ _ _ (emailExists_eq _ w)) in H.
  destruct (Registration.email_taken (UserService.nu_email data) (db w)) eqn:Ee; [discriminate|].
  rewrite (bind_eq _ _ _ _ _ (usernameExists_eq _ w)) in H.
  destruct (Registration.username_taken (UserService.nu_username data) (db w)) eqn:Eu;
    [discriminate|].
  apply bind_Ok_inv in H as (hashed & w1 & Hh & H).
  unfold AuthService.hashPassword, bind, draw_salt, ret in Hh.
  injection Hh as <- <-.
  apply bind_Ok_inv in H as (user & w2 & Hc & H).
  apply create_inv in Hc as (Hins & -> & Hdb2). simpl in Hins, Hdb2, H.
  fold newUser in Hins, Hdb2, H.
  apply bind_Ok_inv in H as (d & w2' & Hg & H). injection Hg as <- <-.
  apply bind_Ok_inv in H as ([] & w3 & Ha & H).
  assert (Hw3 : users (db w3) = users (db w2)
                /\ refreshTokens (db w3) = refreshTokens (db w2)).
  { destruct (List.find _ (roles (db w2))) as [defaultRole|].
    - apply assignRole_names in Ha as (_ & _ & Hu & Ht). now split.
    - injection Ha as <-. now split. }
  destruct Hw3 as [Hu3 Ht3]. rewrite Hdb2 in Hu3, Ht3.
  change (users (db w3) = (users (db w) ++ [newUser])%list) in Hu3.
  change (refreshTokens (db w3) = refreshTokens (db w)) in Ht3.
  apply bind_Ok_inv in H as (found & w4 & Hf & H).
  destruct found as [userWithRoles|]; [|discriminate].
  apply bind_Ok_inv in H as (accessToken & w5 & Hacc & H).
  apply bind_Ok_inv in H as ([refreshToken expiresAt] & w6 & Href & H).
  apply bind_Ok_inv in H as ([] & w7 & Hs & H).
  injection H as <- <-. simpl in Hs |- *.
  assert (Hr : UserService.findByIdWithRoles (user_id newUser) w3
               = (Ok (Some userWithRoles), w3)).
  { destruct (findByIdWithRoles_pure (user_id newUser) w3) as [r Hr].
    change (UserService.findByIdWithRoles (user_id newUser) w3
            = (Ok (Some userWithRoles), w4)) in Hf.
    rewrite Hr in Hf. injection Hf as -> _. exact Hr. }
  assert (Hw4 : w4 = w3).
  { change (UserService.findByIdWithRoles (user_id newUser) w3
            = (Ok (Some userWithRoles), w4)) in Hf.
    rewrite Hr in Hf. now injection Hf. }
  subst w4.
  apply generateAccessToken_inv in Hacc as (da & _ & _ & ->).
  apply generateRefreshToken_inv in Href as (dr & _ & _ & _ & ->).
  apply storeRefreshToken_inv in Hs as (_ & Hrows & Husers).
  simpl in Hrows, Husers. rewrite Hu3 in Husers. rewrite Ht3 in Hrows.
  split; [reflexivity|]. split; [reflexivity|]. split; [assumption|].
  split; [assumption|]. split.
  - unfold UserService.findByIdWithRoles, bind, get_db in Hr.
    rewrite Hu3 in Hr.
    rewrite (find_snoc_new (user_id newUser) (users (db w)) newUser) in Hr;
      [|unfold user_insertable in Hins; apply andb_prop in Hins as [Hins _];
        now apply andb_prop in Hins as [Hins _] |reflexivity].
    now injection Hr as <-.
  - eexists. split; [exact Hrows|]. split; reflexivity.
Qed.

End RegistrationFacts.

(** X11: a registration for an email some user has fails with "Email
    already registered"; for a new email and a username some user has, with
    "Username already taken" (the email is tested first).  Both leave the
    world as it was, and the handler answers 400 REGISTRATION_FAILED. *)
Theorem X11_register_conflicts {jwt : JwtLib} {hasher : PasswordHasher} (env : Env)
    (data : UserService.NewUserData) (w : World) :
  (Registration.email_taken (UserService.nu_email data) (db w) = true ->
   AuthService.register env data w = (Err "Email already registered", w)
   /\ AuthRoutes.register_handler env data w
      = (AuthRoutes.errorResponse "Email already registered" 400 "REGISTRATION_FAILED", w))
  /\ (Registration.email_taken (UserService.nu_email data) (db w) = false ->
      Registration.username_taken (UserService.nu_username data) (db w) = true ->
      AuthService.register env data w = (Err "Username already taken", w)
      /\ AuthRoutes.register_handler env data w
         = (AuthRoutes.errorResponse "Username already taken" 400 "REGISTRATION_FAILED",
            w)).
Proof.
  destruct (register_conflict env data w) as [H1 H2]. split.
  - intros He. unfold AuthRoutes.register_handler. rewrite (H1 He). now split.
  - intros He Hu. unfold AuthRoutes.register_handler. rewrite (H2 He Hu). now split.
Qed.

Section RegisterOnce.
Context {jwt : JwtLib} {hasher : PasswordHasher}.
Variable env : Env.
Import Schema.

Lemma register_once (data : UserService.NewUserData) (w w' : World)
    (res : AuthService.AuthResult) :
  AuthService.register env data w = (Ok res, w') ->
  let newUser := Registration.registered_user data w in
  (users (db w') = (users (db w) ++ [newUser])%list
   /\ UserService.uwr_user (AuthService.ar_user res) = publicUserSchema_parse newUser
   /\ (forall u, In u (users (db w)) ->
                 user_id u <> user_id newUser /\ user_email u <> user_email newUser
                 /\ user_username u <> user_username newUser)
   /\ exists row,
        refreshTokens (db w') = (refreshTokens (db w) ++ [row])%list
        /\ rt_userId row = user_id newUser
        /\ rt_token row = AuthService.ar_refreshToken res)
  /\ (forall w2 data2,
        In newUser (users (db w2)) ->
        UserService.nu_email data2 = UserService.nu_email data ->
        AuthService.register env data2 w2 = (Err "Email already registered", w2))
  /\ (forall w2 data2,
        In newUser (users (db w2)) ->
        Registration.email_taken (UserService.nu_email data2) (db w2) = false ->
        UserService.nu_username data2 = UserService.nu_username data ->
        AuthService.register env data2 w2 = (Err "Username already taken", w2)).
Proof.
  intros H newUser.
  destruct (register_inv env data w w' res H) as (He & Hu & Hins & Husers & Hproj & Hrow).
  fold newUser in Hins, Husers, Hproj, Hrow.
  split; [|split].
  - split; [assumption|]. split; [assumption|]. split; [|assumption].
    intros u Hin. unfold user_insertable in Hins.
    apply andb_prop in Hins as [Hins Hname]. apply andb_prop in Hins as [Hid Hmail].
    rewrite forallb_forall in Hid, Hmail, Hname.
    specialize (Hid u Hin). specialize (Hmail u Hin). specialize (Hname u Hin).
    apply negb_true_iff, String.eqb_neq in Hid, Hmail, Hname. auto.
  - intros w2 data2 Hin Hsame.
    apply (proj1 (register_conflict env data2 w2)).
    apply taken_iff. exists newUser. split; [assumption|]. now rewrite Hsame.
  - intros w2 data2 Hin Hfree Hsame.
    apply (proj2 (register_conflict env data2 w2)); [assumption|].
    apply taken_iff. exists newUser. split; [assumption|]. now rewrite Hsame.
Qed.

End RegisterOnce.

(** X12: a successful registration appends one user row (ACTIVE, the
    password stored as its bcrypt hash, the name defaulting to the
    username, id, email and username held by no earlier row), returns that
    row's public projection, and appends one refresh-token row for the new
    user holding the returned token.  While that user row exists, a
    registration with the same email fails with "Email already
    registered", and one with the same username and a free email with
    "Username already taken". *)
Theorem X12_register_creates_one_account
    {jwt : JwtLib} {hasher : PasswordHasher} (env : Env)
    (data : UserService.NewUserData) (w w' : World) (res : AuthService.AuthResult) :
  AuthService.register env data w = (Ok res, w') ->
  let newUser := Registration.registered_user data w in
  (Schema.users (db w') = (Schema.users (db w) ++ [newUser])%list
   /\ UserService.uwr_user (AuthService.ar_user res)
      = Schema.publicUserSchema_parse newUser
   /\ (forall u, In u (Schema.users (db w)) ->
                 Schema.user_id u <> Schema.user_id newUser
                 /\ Schema.user_email u <> Schema.user_email newUser
                 /\ Schema.user_username u <> Schema.user_username newUser)
   /\ exists row,
        Schema.refreshTokens (db w') = (Schema.refreshTokens (db w) ++ [row])%list
        /\ Schema.rt_userId row = Schema.user_id newUser
        /\ Schema.rt_token row = AuthService.ar_refreshToken res)
  /\ (forall w2 data2,
        In newUser (Schema.users (db w2)) ->
        UserService.nu_email data2 = UserService.nu_email data ->
        AuthService.register env data2 w2 = (Err "Email already registered", w2))
  /\ (forall w2 data2,
        In newUser (Schema.users (db w2)) ->
        Registration.email_taken (UserService.nu_email data2) (db w2) = false ->
        UserService.nu_username data2 = UserService.nu_username data ->
        AuthService.register env data2 w2 = (Err "Username already taken", w2)).
Proof. apply register_once. Qed.

Lemma X12_register_creates_one_account_witness :
  exists res w',
    Cases.register0 Cases.carol_data Scenario.world0 = (Ok res, w')
    /\ let newUser :=
         Registration.registered_user (hasher := Reference.hasher) Cases.carol_data
           Scenario.world0 in
       (Schema.users (db w') = (Schema.users (db Scenario.world0) ++ [newUser])%list
        /\ UserService.uwr_user (AuthService.ar_user res)
           = Schema.publicUserSchema_parse newUser
        /\ (forall u, In u (Schema.users (db Scenario.world0)) ->
                      Schema.user_id u <> Schema.user_id newUser
                      /\ Schema.user_email u <> Schema.user_email newUser
                      /\ Schema.user_username u <> Schema.user_username newUser)
        /\ exists row,
             Schema.refreshTokens (db w')
             = (Schema.refreshTokens (db Scenario.world0) ++ [row])%list
             /\ Schema.rt_userId row = Schema.user_id newUser
             /\ Schema.rt_token row = AuthService.ar_refreshToken res)
       /\ (forall w2 data2,
             In newUser (Schema.users (db w2)) ->
             UserService.nu_email data2 = UserService.nu_email Cases.carol_data ->
             Cases.register0 data2 w2 = (Err "Email already registered", w2))
       /\ (forall w2 data2,
             In newUser (Schema.users (db w2)) ->
             Registration.email_taken (UserService.nu_email data2) (db w2) = false ->
             UserService.nu_username data2 = UserService.nu_username Cases.carol_data ->
             Cases.register0 data2 w2 = (Err "Username already taken", w2)).
Proof.
  eexists _, _. split; [vm_compute; reflexivity|].
  apply (X12_register_creates_one_account (jwt := Reference.jwt)
           (hasher := Reference.hasher) Scenario.env0 Cases.carol_data Scenario.world0).
  vm_compute. reflexivity.
Defined.

(** ** Login *)

Section LoginFacts.
Context {jwt : JwtLib} {hasher : PasswordHasher}.
Variable env : Env.
Import Schema.

(** The three checks of [login], in their order; none of them writes. *)
Lemma login_checks (email password : string) (w : World) :
  match List.find (fun u => String.eqb (user_email u) email) (users (db w)) with
  | None => AuthService.login env email password w = (Err "Invalid email or password", w)
  | Some user =>
      if verify_password password (user_password user)
      then user_status user <> ACTIVE ->
           AuthService.login env email password w
           = (Err "Account is deactivated or suspended", w)
      else AuthService.login env email password w
           = (Err "Invalid email or password", w)
  end.
Proof.
  unfold AuthService.login. rewrite (bind_eq _ _ _ _ _ (findByEmail_eq email w)).
  destruct (List.find _ (users (db w))) as [user|]; [|reflexivity].
  destruct (verify_password password (user_password user)); [|reflexivity].
  intros Hs. simpl. now rewrite bool_decide_eq_false_2.
Qed.

Lemma storeRefreshToken_db (userId token : string) (expiresAt : Z) (w w' : World) :
  AuthService.storeRefreshToken userId token expiresAt w = (Ok tt, w') ->
  exists f, db w' = set_refreshTokens f (db w).
Proof.
  unfold AuthService.storeRefreshToken, AuthService.insert_refreshToken, bind,
    randomUUID, get_db, modify_db, throw. simpl.
  destruct (rt_insertable _ _); [|discriminate].
  intros [= <-]. eexists. reflexivity.
Qed.

Lemma findByIdWithRoles_ignores_tokens (id : string) (w1 w2 : World) :
  (exists f, db w2 = set_refreshTokens f (db w1)) ->
  fst (UserService.findByIdWithRoles id w2) = fst (UserService.findByIdWithRoles id w1).
Proof.
  intros [f H]. unfold UserService.findByIdWithRoles, bind, get_db.
  rewrite H. simpl.
  destruct (List.find _ (users (db w1))); reflexivity.
Qed.

(** What a successful login has checked, written and returned. *)
Lemma login_ok_inv (email password : string) (w w' : World)
    (res : AuthService.AuthResult) :
  AuthService.login env email password w = (Ok res, w') ->
  exists user da,
    List.find (fun u => String.eqb (user_email u) email) (users (db w)) = Some user
    /\ verify_password password (user_password user) = true
    /\ user_status user = ACTIVE
    /\ users (db w') = map (LoginEffects.set_lastLogin (user_id user) (next_reading w)) (users (db w))
    /\ fst (UserService.findByIdWithRoles (user_id user) w')
       = Ok (Some (AuthService.ar_user res))
    /\ Duration.parseExpiresIn (JwtUtil.JWT_EXPIRES_IN env) = Ok da
    /\ AuthService.ar_accessToken res
       = jwt_sign (JwtUtil.accessPayload (user_id user) (user_email user)
                     (next_reading (tick w) / 1000) da) (JwtUtil.getJwtSecret env).
Proof.
  unfold AuthService.login. intros H.
  rewrite (bind_eq _ _ _ _ _ (findByEmail_eq email w)) in H.
  destruct (List.find _ (users (db w))) as [user|] eqn:Hu; [|discriminate].
  destruct (verify_password password (user_password user)) eqn:Hp; [|discriminate].
  simpl in H.
  destruct (bool_decide (user_status user = ACTIVE)) eqn:Hs; [|discriminate].
  apply bool_decide_eq_true_1 in Hs. simpl in H.
  apply bind_Ok_inv in H as ([] & wa & Ha & H).
  unfold UserService.updateLastLogin, bind, Date_now, modify_db in Ha.
  injection Ha as <-.
  apply bind_Ok_inv in H as (found & wb & Hb & H).
  destruct found as [userWithRoles|]; [|discriminate].
  match type of Hb with
  | UserService.findByIdWithRoles ?i ?x = _ =>
      destruct (findByIdWithRoles_pure i x) as [r Hr]; pose proof Hb as Hb';
      rewrite Hr in Hb'; injection Hb' as -> <-
  end.
  apply bind_Ok_inv in H as (accessToken & wc & Hc & H).
  apply bind_Ok_inv in H as ([refreshToken expiresAt] & wd & Hd & H).
  apply bind_Ok_inv in H as ([] & we & He & H).
  injection H as <- <-. simpl in He |- *.
  apply generateAccessToken_inv in Hc as (da & Hda & -> & ->).
  apply generateRefreshToken_inv in Hd as (dr & Hdr & -> & -> & ->).
  pose proof He as He'.
  apply storeRefreshToken_inv in He as (_ & Hrows & Husers).
  apply storeRefreshToken_db in He'.
  exists user, da.
  split; [reflexivity|]. split; [assumption|]. split; [assumption|].
  split; [rewrite Husers; reflexivity|].
  split; [|split; [assumption|reflexivity]].
  match type of Hr with
  | UserService.findByIdWithRoles _ ?x = _ =>
      rewrite (findByIdWithRoles_ignores_tokens (user_id user) x we He')
  end.
  now rewrite Hr.
Qed.

End LoginFacts.

(** X13: for an existing account, [login] verifies the password before it
    looks at the status: a wrong password gets the generic message
    whatever the status, and only a correct password on a non-active
    account gets "Account is deactivated or suspended".  Neither failure
    writes anything (no last-login update, no token), and the handler
    answers 401 LOGIN_FAILED. *)
Theorem X13_login_checks_password_before_status
    {jwt : JwtLib} {hasher : PasswordHasher} (env : Env)
    (email password : string) (w : World) (user : Schema.User) :
  fst (UserService.findByEmail email w) = Ok (Some user) ->
  (verify_password password (Schema.user_password user) = false ->
   AuthService.login env email password w = (Err "Invalid email or password", w))
  /\ (verify_password password (Schema.user_password user) = true ->
      Schema.user_status user <> Schema.ACTIVE ->
      AuthService.login env email password w
      = (Err "Account is deactivated or suspended", w)
      /\ AuthRoutes.login_handler env email password w
         = (AuthRoutes.errorResponse "Account is deactivated or suspended" 401
              "LOGIN_FAILED", w)).
Proof.
  rewrite findByEmail_eq. simpl. intros [= Hu].
  pose proof (login_checks env email password w) as H. rewrite Hu in H.
  split.
  - intros Hp. now rewrite Hp in H.
  - intros Hp Hs. rewrite Hp in H. specialize (H Hs).
    split; [exact H|]. unfold AuthRoutes.login_handler. now rewrite H.
Qed.

Lemma X13_login_checks_password_before_status_witness :
  let w := snd (UserAdmin.updateStatus "u-bob" Schema.SUSPENDED Scenario.world0) in
  let user := UserAdmin.with_status Schema.SUSPENDED Scenario.bob in
  (verify_password (PasswordHasher := Reference.hasher) "hunter2hunter2"
     (Schema.user_password user) = false ->
   Cases.login0 "bob@example.com" "hunter2hunter2" w
   = (Err "Invalid email or password", w))
  /\ (verify_password (PasswordHasher := Reference.hasher) "hunter2hunter2"
        (Schema.user_password user) = true ->
      Schema.user_status user <> Schema.ACTIVE ->
      Cases.login0 "bob@example.com" "hunter2hunter2" w
      = (Err "Account is deactivated or suspended", w)
      /\ AuthRoutes.login_handler (jwt := Reference.jwt) (hasher := Reference.hasher)
           Scenario.env0 "bob@example.com" "hunter2hunter2" w
         = (AuthRoutes.errorResponse "Account is deactivated or suspended" 401
              "LOGIN_FAILED", w)).
Proof.
  apply (X13_login_checks_password_before_status (jwt := Reference.jwt)
           (hasher := Reference.hasher) Scenario.env0 "bob@example.com" "hunter2hunter2"
           (snd (UserAdmin.updateStatus "u-bob" Schema.SUSPENDED Scenario.world0))
           (UserAdmin.with_status Schema.SUSPENDED Scenario.bob)).
  reflexivity.
Defined.

Example suspended_bob_cannot_login :
  fst (Cases.login0 "bob@example.com" "hunter2hunter2"
         (snd (UserAdmin.updateStatus "u-bob" Schema.SUSPENDED Scenario.world0)))
  = Err "Account is deactivated or suspended"
  /\ fst (Cases.login0 "bob@example.com" "wrong-password"
            (snd (UserAdmin.updateStatus "u-bob" Schema.SUSPENDED Scenario.world0)))
     = Err "Invalid email or password".
Proof. split; vm_compute; reflexivity. Qed.

Section LoginSuccess.
Context {jwt : JwtLib} {hasher : PasswordHasher}.
Variable env : Env.
Import Schema.

Lemma find_set_lastLogin (id : string) (now : Z) (l : list User) :
  List.find (fun u => String.eqb (user_id u) id) (map (LoginEffects.set_lastLogin id now) l)
  = option_map (LoginEffects.set_lastLogin id now)
      (List.find (fun u => String.eqb (user_id u) id) l).
Proof.
  induction l as [|u l IH]; [reflexivity|]. simpl.
  unfold LoginEffects.set_lastLogin at 1.
  destruct (String.eqb (user_id u) id) eqn:E; simpl.
  - rewrite E. simpl. unfold LoginEffects.set_lastLogin. now rewrite E.
  - rewrite E. exact IH.
Qed.

Lemma find_some_id (email : string) (l : list User) (user : User) :
  List.find (fun u => String.eqb (user_email u) email) l = Some user ->
  exists first, List.find (fun u => String.eqb (user_id u) (user_id user)) l = Some first
                /\ user_id first = user_id user.
Proof.
  intros H. apply find_some in H as [Hin _].
  destruct (List.find (fun u => String.eqb (user_id u) (user_id user)) l) as [first|] eqn:E.
  - exists first. split; [reflexivity|].
    apply find_some in E as [_ E]. now apply String.eqb_eq in E.
  - apply (find_none _ _ E) in Hin. now rewrite String.eqb_refl in Hin.
Qed.

Lemma findByIdWithRoles_user (id : string) (w : World)
    (userWithRoles : UserService.UserWithRoles) :
  fst (UserService.findByIdWithRoles id w) = Ok (Some userWithRoles) ->
  exists u, List.find (fun u => String.eqb (user_id u) id) (users (db w)) = Some u
            /\ UserService.uwr_user userWithRoles = publicUserSchema_parse u.
Proof.
  unfold UserService.findByIdWithRoles, bind, get_db.
  destruct (List.find _ (users (db w))) as [u|]; [|discriminate].
  simpl. intros [= <-]. now exists u.
Qed.

Lemma login_effects (email password : string) (w w' : World)
    (res : AuthService.AuthResult) :
  AuthService.login env email password w = (Ok res, w') ->
  exists user,
    fst (UserService.findByEmail email w) = Ok (Some user)
    /\ user_email user = email
    /\ verify_password password (user_password user) = true
    /\ user_status user = ACTIVE
    /\ users (db w')
       = map (LoginEffects.set_lastLogin (user_id user) (next_reading w)) (users (db w))
    /\ fst (UserService.findByIdWithRoles (user_id user) w')
       = Ok (Some (AuthService.ar_user res))
    /\ pu_id (UserService.uwr_user (AuthService.ar_user res)) = user_id user
    /\ pu_lastLoginAt (UserService.uwr_user (AuthService.ar_user res))
       = Some (next_reading w).
Proof.
  intros H. apply login_ok_inv in H as (user & da & Hu & Hp & Hs & Husers & Hproj & _).
  exists user. rewrite findByEmail_eq. simpl. rewrite Hu.
  split; [reflexivity|]. split.
  { apply find_some in Hu as [_ E]. now apply String.eqb_eq in E. }
  split; [assumption|]. split; [assumption|]. split; [assumption|].
  split; [assumption|].
  apply findByIdWithRoles_user in Hproj as (u & Hfind & ->).
  rewrite Husers, find_set_lastLogin in Hfind.
  destruct (find_some_id email (users (db w)) user Hu) as (first & Hf & Hid).
  rewrite Hf in Hfind. simpl in Hfind. injection Hfind as <-.
  unfold LoginEffects.set_lastLogin. rewrite Hid, String.eqb_refl. simpl.
  split; reflexivity.
Qed.

End LoginSuccess.

(** X14: a successful login has found the user by email, verified the
    password and found the status ACTIVE; it sets [lastLoginAt] of the rows
    with that user's id to the first clock reading of the call and changes
    no other user column; the projection it returns is the one the
    database gives after the call, and shows that last-login time. *)
Theorem X14_login_effects {jwt : JwtLib} {hasher : PasswordHasher} (env : Env)
    (email password : string) (w w' : World) (res : AuthService.AuthResult) :
  AuthService.login env email password w = (Ok res, w') ->
  exists user,
    fst (UserService.findByEmail email w) = Ok (Some user)
    /\ Schema.user_email user = email
    /\ verify_password password (Schema.user_password user) = true
    /\ Schema.user_status user = Schema.ACTIVE
    /\ Schema.users (db w')
       = map (LoginEffects.set_lastLogin (Schema.user_id user) (next_reading w))
           (Schema.users (db w))
    /\ fst (UserService.findByIdWithRoles (Schema.user_id user) w')
       = Ok (Some (AuthService.ar_user res))
    /\ Schema.pu_id (UserService.uwr_user (AuthService.ar_user res))
       = Schema.user_id user
    /\ Schema.pu_lastLoginAt (UserService.uwr_user (AuthService.ar_user res))
       = Some (next_reading w).
Proof. apply login_effects. Qed.

Lemma X14_login_effects_witness :
  exists res w',
    Cases.login0 "alice@example.com" "password123" Scenario.world0 = (Ok res, w')
    /\ exists user,
         fst (UserService.findByEmail "alice@example.com" Scenario.world0)
         = Ok (Some user)
         /\ Schema.user_email user = "alice@example.com"
         /\ verify_password (PasswordHasher := Reference.hasher) "password123"
              (Schema.user_password user) = true
         /\ Schema.user_status user = Schema.ACTIVE
         /\ Schema.users (db w')
            = map (LoginEffects.set_lastLogin (Schema.user_id user)
                     (next_reading Scenario.world0))
                (Schema.users (db Scenario.world0))
         /\ fst (UserService.findByIdWithRoles (Schema.user_id user) w')
            = Ok (Some (AuthService.ar_user res))
         /\ Schema.pu_id (UserService.uwr_user (AuthService.ar_user res))
            = Schema.user_id user
         /\ Schema.pu_lastLoginAt (UserService.uwr_user (AuthService.ar_user res))
            = Some (next_reading Scenario.world0).
Proof.
  eexists _, _. split; [vm_compute; reflexivity|].
  apply (X14_login_effects (jwt := Reference.jwt) (hasher := Reference.hasher)
           Scenario.env0 "alice@example.com" "password123" Scenario.world0).
  vm_compute. reflexivity.
Defined.

(** ** From login to the guarded routes *)

Section LoginToGuard.
Context {jwt : JwtLib} {laws : JwtLaws jwt} {hasher : PasswordHasher}.
Variable env : Env.
Import Schema.

Lemma login_token_authenticates (email password : string) (w w' wv : World)
    (res : AuthService.AuthResult) (header : option string) (da : Z)
    (c : AuthGuard.Variables) :
  AuthService.login env email password w = (Ok res, w') ->
  TokenHelpers.bearer header (AuthService.ar_accessToken res) ->
  Duration.parseExpiresIn (JwtUtil.JWT_EXPIRES_IN env) = Ok da ->
  next_reading (tick w) / 1000 <= next_reading wv / 1000
    < next_reading (tick w) / 1000 + da ->
  exists payload,
    AuthGuard.authMiddleware env header c wv
    = ((AuthGuard.Continue,
        {| AuthGuard.var_user := Some payload;
           AuthGuard.var_userRoles :=
             Some (UserService.role_names_of (db wv) (Jwt.userId payload)) |}), tick wv)
    /\ Jwt.email payload = Some email
    /\ Jwt.userId payload
       = pu_id (UserService.uwr_user (AuthService.ar_user res)).
Proof.
  intros H Hb Hda Hwin.
  destruct (login_effects env email password w w' res H)
    as (user & _ & Hmail & _ & _ & _ & _ & Hid & _).
  apply login_ok_inv in H as (user' & da' & Hu & _ & _ & _ & Hproj & Hda' & Htok).
  rewrite Hda in Hda'. injection Hda' as <-.
  exists (JwtUtil.accessPayload (user_id user') (user_email user')
            (next_reading (tick w) / 1000) da).
  rewrite (authMiddleware_token env header _ c wv Hb).
  rewrite verifyAccessToken_eq, Htok. simpl.
  rewrite jwt_verify_sign by (simpl; lia). simpl.
  split; [reflexivity|].
  apply find_some in Hu as [_ E]. apply String.eqb_eq in E.
  split; [now rewrite E|].
  apply findByIdWithRoles_user in Hproj as (u & Hfind & ->).
  apply find_some in Hfind as [_ E']. apply String.eqb_eq in E'. now rewrite <- E'.
Qed.

Lemma reported_expiresIn (da : Z) :
  Duration.parseExpiresIn (JwtUtil.JWT_EXPIRES_IN env) = Ok da ->
  Duration.parseExpirationToSeconds (AuthRoutes.validated_JWT_EXPIRES_IN env) = da.
Proof.
  unfold JwtUtil.JWT_EXPIRES_IN, AuthRoutes.validated_JWT_EXPIRES_IN, or_default.
  destruct (env_JWT_EXPIRES_IN env) as [[|x s]|].
  - intros [= <-]. reflexivity.
  - apply parsers_agree.
  - apply parsers_agree.
Qed.

Lemma refresh_access_token (token : string) (w w' : World)
    (res : AuthService.RefreshResult) :
  AuthService.refresh env token w = (Ok res, w') ->
  exists userId email now da,
    Duration.parseExpiresIn (JwtUtil.JWT_EXPIRES_IN env) = Ok da
    /\ AuthService.rr_accessToken res
       = jwt_sign (JwtUtil.accessPayload userId email now da) (JwtUtil.getJwtSecret env).
Proof.
  intros H.
  destruct (classic_checks env token w) as [(p & r & u & Hc)|Hno].
  - rewrite (refresh_checked env token w _ _ _ Hc), rotate_eq in H. cbv zeta in H.
    destruct (Duration.parseExpiresIn (JwtUtil.JWT_EXPIRES_IN env)) as [da|]; [|discriminate].
    destruct (Duration.parseExpiresIn (JwtUtil.JWT_REFRESH_EXPIRES_IN env)) as [dr|];
      [|discriminate].
    destruct (rt_insertable _ _); [|discriminate].
    injection H as <- _. do 4 eexists. split; reflexivity.
  - destruct (refresh_unchecked env token w Hno) as [_ [E|[E|E]]];
      rewrite H in E; discriminate.
Qed.

Lemma reported_lifetime :
  (forall email password w data status w',
     AuthRoutes.login_handler env email password w
     = (AuthRoutes.successResponse data status, w') ->
     status = 200
     /\ forall secret now payload,
          jwt_verify (AuthRoutes.ad_token data) secret now = Some payload ->
          0 <= Jwt.iat payload ->
          Jwt.iat payload + AuthRoutes.ad_expiresIn data <= Range.MAX_SAFE_INTEGER ->
          Jwt.exp payload - Jwt.iat payload = AuthRoutes.ad_expiresIn data)
  /\ (forall token w data status w',
        AuthRoutes.refresh_handler env token w
        = (AuthRoutes.successResponse data status, w') ->
        status = 200
        /\ forall secret now payload,
             jwt_verify (AuthRoutes.rd_token data) secret now = Some payload ->
             0 <= Jwt.iat payload ->
             Jwt.iat payload + AuthRoutes.rd_expiresIn data <= Range.MAX_SAFE_INTEGER ->
             Jwt.exp payload - Jwt.iat payload = AuthRoutes.rd_expiresIn data).
Proof.
  split.
  - intros email password w data status w'. unfold AuthRoutes.login_handler.
    destruct (AuthService.login env email password w) as [[res|msg] w1] eqn:H;
      [|discriminate].
    intros [= <- <- <-]. split; [reflexivity|]. simpl.
    apply login_ok_inv in H as (user & da & _ & _ & _ & _ & _ & Hda & ->).
    intros secret now payload E _ _. apply jwt_verify_sound in E. subst payload. simpl.
    rewrite (reported_expiresIn da Hda). lia.
  - intros token w data status w'. unfold AuthRoutes.refresh_handler.
    destruct (AuthService.refresh env token w) as [[res|msg] w1] eqn:H; [|discriminate].
    intros [= <- <- <-]. split; [reflexivity|]. simpl.
    apply refresh_access_token in H as (userId & email & t & da & Hda & ->).
    intros secret now payload E _ _. apply jwt_verify_sound in E. subst payload. simpl.
    rewrite (reported_expiresIn da Hda). lia.
Qed.

End LoginToGuard.

(** X15: the access token a login returns, sent as "Bearer <token>" at any
    clock second from its issue up to, but not including, its expiry,
    passes [authMiddleware], which then holds a payload with the email
    used to log in and the id of the user the login returned.  (That the
    token contains no space is a property of the JWT format, assumed
    here.) *)
Theorem X15_login_token_authenticates
    {jwt : JwtLib} {laws : JwtLaws jwt} {hasher : PasswordHasher} (env : Env)
    (email password : string) (w w' wv : World) (res : AuthService.AuthResult)
    (header : option string) (da : Z) (c : AuthGuard.Variables) :
  AuthService.login env email password w = (Ok res, w') ->
  TokenHelpers.bearer header (AuthService.ar_accessToken res) ->
  Duration.parseExpiresIn (JwtUtil.JWT_EXPIRES_IN env) = Ok da ->
  next_reading (tick w) / 1000 <= next_reading wv / 1000
    < next_reading (tick w) / 1000 + da ->
  exists payload,
    AuthGuard.authMiddleware env header c wv
    = ((AuthGuard.Continue,
        {| AuthGuard.var_user := Some payload;
           AuthGuard.var_userRoles :=
             Some (UserService.role_names_of (db wv) (Jwt.userId payload)) |}), tick wv)
    /\ Jwt.email payload = Some email
    /\ Jwt.userId payload
       = Schema.pu_id (UserService.uwr_user (AuthService.ar_user res)).
Proof. apply login_token_authenticates. Qed.

Lemma X15_login_token_authenticates_witness :
  exists res w',
    Cases.login0 "alice@example.com" "password123" Scenario.world0 = (Ok res, w')
    /\ exists payload,
         AuthGuard.authMiddleware (jwt := Reference.jwt) Scenario.env0
           Cases.alice_header AuthGuard.no_variables w'
         = ((AuthGuard.Continue,
             {| AuthGuard.var_user := Some payload;
                AuthGuard.var_userRoles :=
                  Some (UserService.role_names_of (db w') (Jwt.userId payload)) |}),
            tick w')
         /\ Jwt.email payload = Some "alice@example.com"
         /\ Jwt.userId payload
            = Schema.pu_id (UserService.uwr_user (AuthService.ar_user res)).
Proof.
  eexists _, _. split; [vm_compute; reflexivity|].
  eapply (X15_login_token_authenticates (jwt := Reference.jwt) (laws := jwt_laws)
           (hasher := Reference.hasher) Scenario.env0 "alice@example.com" "password123"
           Scenario.world0 _ _ _ Cases.alice_header 900 AuthGuard.no_variables).
  - vm_compute. reflexivity.
  - split; [vm_compute; reflexivity|].
    split; [intros H; vm_compute in H; discriminate|vm_compute; reflexivity].
  - reflexivity.
  - vm_compute. split; [discriminate|reflexivity].
Defined.

(** X16: the [expiresIn] that the login and refresh handlers report next
    to an access token is that token's signed lifetime, [exp - iat], in
    seconds, whatever unit the configured string uses, as long as the
    issue second is not negative and the expiry stays within
    [MAX_SAFE_INTEGER], where the sums and products of the source are
    exact; both handlers answer 200 on success. *)
Theorem X16_reported_expiresIn_is_token_lifetime
    {jwt : JwtLib} {laws : JwtLaws jwt} {hasher : PasswordHasher} (env : Env) :
  (forall email password w data status w',
     AuthRoutes.login_handler env email password w
     = (AuthRoutes.successResponse data status, w') ->
     status = 200
     /\ forall secret now payload,
          jwt_verify (AuthRoutes.ad_token data) secret now = Some payload ->
          0 <= Jwt.iat payload ->
          Jwt.iat payload + AuthRoutes.ad_expiresIn data <= Range.MAX_SAFE_INTEGER ->
          Jwt.exp payload - Jwt.iat payload = AuthRoutes.ad_expiresIn data)
  /\ (forall token w data status w',
        AuthRoutes.refresh_handler env token w
        = (AuthRoutes.successResponse data status, w') ->
        status = 200
        /\ forall secret now payload,
             jwt_verify (AuthRoutes.rd_token data) secret now = Some payload ->
             0 <= Jwt.iat payload ->
             Jwt.iat payload + AuthRoutes.rd_expiresIn data <= Range.MAX_SAFE_INTEGER ->
             Jwt.exp payload - Jwt.iat payload = AuthRoutes.rd_expiresIn data).
Proof. apply reported_lifetime. Qed.

(** Alice's login at [world0]: the token is issued in second 1700000000
    with the default lifetime, far within the range. *)
Lemma X16_reported_expiresIn_is_token_lifetime_witness :
  exists data w',
    AuthRoutes.login_handler (jwt := Reference.jwt) (hasher := Reference.hasher)
      Scenario.env0 "alice@example.com" "password123" Scenario.world0
    = (AuthRoutes.successResponse data 200, w')
    /\ AuthRoutes.ad_expiresIn data = 900
    /\ forall payload,
         Reference.verify (AuthRoutes.ad_token data) (JwtUtil.getJwtSecret Scenario.env0)
           1700000001 = Some payload ->
         Jwt.iat payload = 1700000000
         /\ Jwt.exp payload - Jwt.iat payload = AuthRoutes.ad_expiresIn data.
Proof.
  eexists _, _. split; [vm_compute; reflexivity|]. split; [vm_compute; reflexivity|].
  intros payload Hv. pose proof Hv as Hv'.
  vm_compute in Hv'. injection Hv' as <-. split; [reflexivity|].
  refine (proj2 (proj1 (X16_reported_expiresIn_is_token_lifetime (jwt := Reference.jwt)
                          (laws := jwt_laws) (hasher := Reference.hasher) Scenario.env0)
                   "alice@example.com" "password123" Scenario.world0 _ 200 _ _)
            _ _ _ Hv _ _).
  - vm_compute. reflexivity.
  - vm_compute. discriminate.
  - vm_compute. discriminate.
Defined.

Example login_reports_900_seconds :
  exists data w',
    AuthRoutes.login_handler (jwt := Reference.jwt) (hasher := Reference.hasher)
      Scenario.env0 "alice@example.com" "password123" Scenario.world0
    = (AuthRoutes.successResponse data 200, w')
    /\ AuthRoutes.ad_expiresIn data = 900.
Proof. eexists _, _. split; vm_compute; reflexivity. Qed.

(** ** From registration to login *)

Section RegisterThenLogin.
Context {jwt : JwtLib} {hasher : PasswordHasher} {hlaws : PasswordHasherLaws hasher}.
Variable env : Env.
Import Schema.

Lemma register_durations (data : UserService.NewUserData) (w w' : World)
    (res : AuthService.AuthResult) :
  AuthService.register env data w = (Ok res, w') ->
  exists da dr,
    Duration.parseExpiresIn (JwtUtil.JWT_EXPIRES_IN env) = Ok da
    /\ Duration.parseExpiresIn (JwtUtil.JWT_REFRESH_EXPIRES_IN env) = Ok dr.
Proof.
  intros H. unfold AuthService.register in H.
  rewrite (bind_eq _ _ _ _ _ (emailExists_eq _ w)) in H.
  destruct (Registration.email_taken _ _); [discriminate|].
  rewrite (bind_eq _ _ _ _ _ (usernameExists_eq _ w)) in H.
  destruct (Registration.username_taken _ _); [discriminate|].
  apply bind_Ok_inv in H as (hashed & w1 & _ & H).
  apply bind_Ok_inv in H as (user & w2 & _ & H).
  apply bind_Ok_inv in H as (d & w2' & _ & H).
  apply bind_Ok_inv in H as ([] & w3 & _ & H).
  apply bind_Ok_inv in H as (found & w4 & _ & H).
  destruct found as [userWithRoles|]; [|discriminate].
  apply bind_Ok_inv in H as (accessToken & w5 & Hacc & H).
  apply bind_Ok_inv in H as ([refreshToken expiresAt] & w6 & Href & _).
  apply generateAccessToken_inv in Hacc as (da & Hda & _).
  apply generateRefreshToken_inv in Href as (dr & Hdr & _).
  now exists da, dr.
Qed.

Lemma forallb_false_ex {A} (f : A -> bool) (l : list A) :
  forallb f l = false -> exists x, In x l /\ f x = false.
Proof.
  induction l as [|a l IH]; [discriminate|]. simpl.
  destruct (f a) eqn:E.
  - intros H. destruct (IH H) as (x & Hx & Hf). exists x. split; [now right|assumption].
  - intros _. exists a. split; [now left|assumption].
Qed.

(** What decides an insert into [refresh_tokens]. *)
Lemma rt_insertable_true (d : Db) (row : RefreshToken) :
  (forall r, In r (refreshTokens d) -> rt_id r <> rt_id row /\ rt_token r <> rt_token row) ->
  (exists u, In u (users d) /\ user_id u = rt_userId row) ->
  Range.valid_time (rt_expiresAt row) = true ->
  rt_insertable d row = true.
Proof.
  intros Hfree (u & Hu & Hid) Hvalid. unfold rt_insertable.
  rewrite Hvalid, andb_true_r.
  apply andb_true_intro. split; [apply andb_true_intro; split|].
  - apply forallb_forall. intros r Hr.
    apply negb_true_iff, String.eqb_neq. now apply (Hfree r Hr).
  - apply forallb_forall. intros r Hr.
    apply negb_true_iff, String.eqb_neq. now apply (Hfree r Hr).
  - apply existsb_exists. exists u. split; [assumption|]. now apply String.eqb_eq.
Qed.

Lemma rt_insertable_false (d : Db) (row : RefreshToken) :
  rt_insertable d row = false ->
  (exists u, In u (users d) /\ user_id u = rt_userId row) ->
  Range.valid_time (rt_expiresAt row) = true ->
  exists r, In r (refreshTokens d)
            /\ (rt_id r = rt_id row \/ rt_token r = rt_token row).
Proof.
  intros H (u & Hu & Hid) Hvalid. unfold rt_insertable in H.
  rewrite Hvalid, andb_true_r in H.
  replace (existsb (fun u => String.eqb (user_id u) (rt_userId row)) (users d))
    with true in H
    by (symmetry; apply existsb_exists; exists u; split;
        [assumption|now apply String.eqb_eq]).
  rewrite andb_true_r in H. apply andb_false_iff in H as [H|H];
    apply forallb_false_ex in H as (r & Hr & E);
    apply negb_false_iff, String.eqb_eq in E; exists r; auto.
Qed.

(** Past its three checks, with both expiry strings in the grammar and an
    expiry within the range of a [Date], [login] is decided by the insert
    of the refresh-token row: it succeeds when no row holds the fresh id
    or the token string it signs, and fails only on such a row. *)
Lemma login_past_checks (email password : string) (w : World) (user : User) (da dr : Z) :
  List.find (fun u => String.eqb (user_email u) email) (users (db w)) = Some user ->
  verify_password password (user_password user) = true ->
  user_status user = ACTIVE ->
  Duration.parseExpiresIn (JwtUtil.JWT_EXPIRES_IN env) = Ok da ->
  Duration.parseExpiresIn (JwtUtil.JWT_REFRESH_EXPIRES_IN env) = Ok dr ->
  let tok := jwt_sign (JwtUtil.refreshPayload (user_id user)
                         (next_reading (tick (tick w)) / 1000) dr)
               (JwtUtil.getRefreshSecret env) in
  Range.valid_time ((next_reading (tick (tick w)) / 1000 + dr) * 1000) = true ->
  ((forall r, In r (refreshTokens (db w)) ->
              rt_id r <> hd EmptyString (uuids w) /\ rt_token r <> tok) ->
   exists res w', AuthService.login env email password w = (Ok res, w')
                  /\ AuthService.ar_refreshToken res = tok)
  /\ (forall msg w', AuthService.login env email password w = (Err msg, w') ->
        msg = constraint_violation
        /\ exists r, In r (refreshTokens (db w))
                     /\ (rt_id r = hd EmptyString (uuids w) \/ rt_token r = tok)).
Proof.
  intros Hu Hp Hs Hda Hdr tok Hvalid. unfold AuthService.login.
  rewrite (bind_eq _ _ _ _ _ (findByEmail_eq email w)), Hu, Hp. simpl.
  rewrite bool_decide_eq_true_2 by assumption. simpl.
  set (wa := set_db (set_users (map (LoginEffects.set_lastLogin (user_id user)
                                       (next_reading w)))) (tick w)).
  assert (Ha : UserService.updateLastLogin (user_id user) w = (Ok tt, wa)) by reflexivity.
  rewrite (bind_eq _ _ _ _ _ Ha).
  destruct (find_some_id email (users (db w)) user Hu) as (first & Hf & Hfid).
  assert (Hfound : List.find (fun u => String.eqb (user_id u) (user_id user))
                     (users (db wa))
                   = Some (LoginEffects.set_lastLogin (user_id user) (next_reading w) first)).
  { subst wa. simpl. now rewrite find_set_lastLogin, Hf. }
  destruct (findByIdWithRoles_pure (user_id user) wa) as [r Hr].
  rewrite (bind_eq _ _ _ _ _ Hr).
  assert (exists userWithRoles, r = Some userWithRoles) as [userWithRoles ->].
  { unfold UserService.findByIdWithRoles, bind, get_db in Hr.
    rewrite Hfound in Hr. simpl in Hr. injection Hr as <-. eexists. reflexivity. }
  assert (Hc : JwtUtil.generateAccessToken env (user_id user) (user_email user) wa
               = (Ok (jwt_sign (JwtUtil.accessPayload (user_id user) (user_email user)
                                  (next_reading wa / 1000) da) (JwtUtil.getJwtSecret env)),
                  tick wa)).
  { unfold JwtUtil.generateAccessToken. now rewrite Hda. }
  rewrite (bind_eq _ _ _ _ _ Hc).
  assert (Hd : JwtUtil.generateRefreshToken env (user_id user) (tick wa)
               = (Ok (tok, (next_reading (tick (tick w)) / 1000 + dr) * 1000),
                  tick (tick wa))).
  { unfold JwtUtil.generateRefreshToken. now rewrite Hdr. }
  rewrite (bind_eq _ _ _ _ _ Hd). simpl fst. simpl snd.
  set (row := {| rt_id := hd EmptyString (uuids w); rt_userId := user_id user;
                 rt_token := tok;
                 rt_expiresAt := (next_reading (tick (tick w)) / 1000 + dr) * 1000 |}).
  assert (Hst : AuthService.storeRefreshToken (user_id user) tok
                  ((next_reading (tick (tick w)) / 1000 + dr) * 1000) (tick (tick wa))
                = if rt_insertable (db wa) row
                  then (Ok tt, set_db (set_refreshTokens (fun l => (l ++ [row])%list))
                                 (snd (randomUUID (tick (tick wa)))))
                  else (Err constraint_violation, snd (randomUUID (tick (tick wa))))).
  { unfold AuthService.storeRefreshToken, AuthService.insert_refreshToken, bind,
      randomUUID, get_db, modify_db, throw. simpl. fold row.
    destruct (rt_insertable _ row); reflexivity. }
  assert (Huser : exists u, In u (users (db wa)) /\ user_id u = rt_userId row).
  { apply find_some in Hfound as [Hin E]. apply String.eqb_eq in E. eauto. }
  unfold bind. rewrite Hst.
  destruct (rt_insertable (db wa) row) eqn:E.
  - split; [|intros msg w' H; discriminate].
    intros _. eexists _, _. split; reflexivity.
  - split.
    + intros Hfree. exfalso.
      rewrite (rt_insertable_true (db wa) row) in E; [discriminate| |exact Huser|exact Hvalid].
      exact Hfree.
    + intros msg w' [= <- _]. split; [reflexivity|].
      exact (rt_insertable_false (db wa) row E Huser Hvalid).
Qed.

Lemma find_snoc_email (email : string) (l : list User) (u : User) :
  existsb (fun x => String.eqb (user_email x) email) l = false ->
  user_email u = email ->
  List.find (fun x => String.eqb (user_email x) email) (l ++ [u]) = Some u.
Proof.
  intros Hl Hu. induction l as [|x l IH]; simpl.
  - now rewrite Hu, String.eqb_refl.
  - simpl in Hl. apply orb_false_iff in Hl as [Hx Hl]. rewrite Hx. now apply IH.
Qed.

Lemma register_then_login (data : UserService.NewUserData) (w w' : World)
    (res : AuthService.AuthResult) :
  AuthService.register env data w = (Ok res, w') ->
  forall w2, users (db w2) = users (db w') ->
  exists dr,
    Duration.parseExpiresIn (JwtUtil.JWT_REFRESH_EXPIRES_IN env) = Ok dr
    /\ let id := pu_id (UserService.uwr_user (AuthService.ar_user res)) in
       let tok := jwt_sign (JwtUtil.refreshPayload id
                              (next_reading (tick (tick w2)) / 1000) dr)
                    (JwtUtil.getRefreshSecret env) in
       Range.valid_time ((next_reading (tick (tick w2)) / 1000 + dr) * 1000) = true ->
       ((forall r, In r (refreshTokens (db w2)) ->
                   rt_id r <> hd EmptyString (uuids w2) /\ rt_token r <> tok) ->
        exists res2 w3,
          AuthService.login env (UserService.nu_email data)
            (UserService.nu_password data) w2 = (Ok res2, w3)
          /\ pu_id (UserService.uwr_user (AuthService.ar_user res2)) = id
          /\ AuthService.ar_refreshToken res2 = tok)
       /\ (forall msg w3,
             AuthService.login env (UserService.nu_email data)
               (UserService.nu_password data) w2 = (Err msg, w3) ->
             msg = constraint_violation
             /\ exists r, In r (refreshTokens (db w2))
                          /\ (rt_id r = hd EmptyString (uuids w2) \/ rt_token r = tok)).
Proof.
  intros H w2 Hw2.
  destruct (register_durations data w w' res H) as (da & dr & Hda & Hdr).
  destruct (register_inv env data w w' res H) as (He & _ & _ & Husers & Hproj & _).
  exists dr. split; [exact Hdr|]. intros id tok Hvalid.
  assert (Hfind : List.find (fun u => String.eqb (user_email u) (UserService.nu_email data))
                    (users (db w2))
                  = Some (Registration.registered_user data w)).
  { rewrite Hw2, Husers. now apply find_snoc_email. }
  assert (Hid : id = user_id (Registration.registered_user data w)).
  { subst id. now rewrite Hproj. }
  destruct (login_past_checks (UserService.nu_email data) (UserService.nu_password data)
              w2 (Registration.registered_user data w) da dr Hfind
              (verify_password_hash _ _) eq_refl Hda Hdr Hvalid) as [Hok Herr].
  subst tok. rewrite Hid. split.
  - intros Hfree. destruct (Hok Hfree) as (res2 & w3 & Hl & Htok).
    exists res2, w3. split; [exact Hl|]. split; [|exact Htok].
    destruct (login_effects env _ _ _ _ _ Hl) as (user & Hu & _ & _ & _ & _ & _ & Hi & _).
    rewrite findByEmail_eq in Hu. simpl in Hu. rewrite Hfind in Hu.
    injection Hu as <-. exact Hi.
  - exact Herr.
Qed.

End RegisterThenLogin.

(** X17: after a successful registration, a login with the registered
    email and password, in any world whose user table is the one the
    registration left, passes the credential and status checks (bcrypt
    verifying a password against its own hash is assumed) and is decided
    by the insert of its refresh-token row.  With the expiry of the token
    it signs within the range of a [Date]: if no row of the table holds
    the fresh id or that token string, the login succeeds and returns the
    registered user and that token; and if it fails, it fails with the
    driver's error, and some row does hold the fresh id or that token
    string.  (The token string is the one the registration stored when
    the login signs it in the second the registration did.) *)
Theorem X17_registered_user_can_login
    {jwt : JwtLib} {hasher : PasswordHasher} {hlaws : PasswordHasherLaws hasher}
    (env : Env) (data : UserService.NewUserData) (w w' : World)
    (res : AuthService.AuthResult) :
  AuthService.register env data w = (Ok res, w') ->
  forall w2, Schema.users (db w2) = Schema.users (db w') ->
  exists dr,
    Duration.parseExpiresIn (JwtUtil.JWT_REFRESH_EXPIRES_IN env) = Ok dr
    /\ let id := Schema.pu_id (UserService.uwr_user (AuthService.ar_user res)) in
       let tok := jwt_sign (JwtUtil.refreshPayload id
                              (next_reading (tick (tick w2)) / 1000) dr)
                    (JwtUtil.getRefreshSecret env) in
       Range.valid_time ((next_reading (tick (tick w2)) / 1000 + dr) * 1000) = true ->
       ((forall r, In r (Schema.refreshTokens (db w2)) ->
                   Schema.rt_id r <> hd EmptyString (uuids w2)
                   /\ Schema.rt_token r <> tok) ->
        exists res2 w3,
          AuthService.login env (UserService.nu_email data)
            (UserService.nu_password data) w2 = (Ok res2, w3)
          /\ Schema.pu_id (UserService.uwr_user (AuthService.ar_user res2)) = id
          /\ AuthService.ar_refreshToken res2 = tok)
       /\ (forall msg w3,
             AuthService.login env (UserService.nu_email data)
               (UserService.nu_password data) w2 = (Err msg, w3) ->
             msg = constraint_violation
             /\ exists r, In r (Schema.refreshTokens (db w2))
                          /\ (Schema.rt_id r = hd EmptyString (uuids w2)
                              \/ Schema.rt_token r = tok)).
Proof. apply register_then_login. Qed.

#[export] Instance hasher_laws : PasswordHasherLaws Reference.hasher.
Proof.
  split. intros password salt. simpl. unfold Reference.check, Reference.hash.
  rewrite dec_enc_string. apply String.eqb_refl.
Qed.

(** Carol registers and logs in five seconds later: the login signs
    another token than the one in the table, and succeeds. *)
Lemma X17_registered_user_can_login_witness :
  exists res w' res2 w3,
    Cases.register0 Cases.carol_data Scenario.world1 = (Ok res, w')
    /\ Cases.login0 "carol@example.com" "password123" w' = (Ok res2, w3)
    /\ Schema.pu_id (UserService.uwr_user (AuthService.ar_user res2))
       = Schema.pu_id (UserService.uwr_user (AuthService.ar_user res))
    /\ AuthService.ar_refreshToken res2 <> AuthService.ar_refreshToken res.
Proof.
  destruct (Cases.register0 Cases.carol_data Scenario.world1) as [[res|msg] w'] eqn:Hreg;
    [|vm_compute in Hreg; discriminate].
  destruct (X17_registered_user_can_login (jwt := Reference.jwt)
              (hasher := Reference.hasher) (hlaws := hasher_laws) Scenario.env0
              Cases.carol_data Scenario.world1 w' res Hreg w' eq_refl)
    as (dr & Hdr & Harms).
  vm_compute in Hdr. injection Hdr as <-.
  vm_compute in Hreg. injection Hreg as <- <-.
  destruct Harms as [Hok _]; [vm_compute; reflexivity|].
  destruct Hok as (res2 & w3 & Hl & Hid & Htok).
  - intros r Hin. vm_compute in Hin. destruct Hin as [<-|[]].
    split; vm_compute; discriminate.
  - do 4 eexists. split; [reflexivity|]. split; [exact Hl|].
    split; [exact Hid|]. rewrite Htok. vm_compute. discriminate.
Defined.

(** Both outcomes occur: in the second of the registration the login
    signs the stored token again and the insert fails; a second later it
    succeeds. *)
Example login_in_the_second_of_registration :
  fst (Cases.login0 "carol@example.com" "password123"
         (snd (Cases.register0 Cases.carol_data Scenario.world0)))
  = Err constraint_violation
  /\ is_ok (fst (Cases.login0 "carol@example.com" "password123"
                   (snd (Cases.register0 Cases.carol_data Scenario.world1)))) = true.
Proof. split; vm_compute; reflexivity. Qed.

(** ** What a rotation leaves of the table *)

Section RotationRows.
Context {jwt : JwtLib}.
Variable env : Env.
Import Schema.

Lemma filter_out_one (l : list RefreshToken) (x : RefreshToken) :
  List.NoDup (map rt_id l) -> In x l ->
  S (length (List.filter (fun r => negb (String.eqb (rt_id r) (rt_id x))) l)) = length l
  /\ forall r, In r l -> r <> x ->
       In r (List.filter (fun r => negb (String.eqb (rt_id r) (rt_id x))) l).
Proof.
  intros Hnd Hin. split.
  - induction l as [|a l IH]; [destruct Hin|].
    simpl in Hnd. apply List.NoDup_cons_iff in Hnd as [Ha Hnd]. simpl.
    destruct Hin as [->|Hin].
    + rewrite String.eqb_refl. simpl. f_equal.
      clear IH Hnd. induction l as [|b l IH]; [reflexivity|]. simpl in Ha |- *.
      destruct (String.eqb (rt_id b) (rt_id x)) eqn:E.
      * apply String.eqb_eq in E. exfalso. apply Ha. now left.
      * simpl. f_equal. apply IH. intros H. apply Ha. now right.
    + destruct (String.eqb (rt_id a) (rt_id x)) eqn:E.
      * apply String.eqb_eq in E. exfalso. apply Ha. rewrite E. now apply in_map.
      * simpl. f_equal. now apply IH.
  - intros r Hr Hne. apply filter_In. split; [assumption|].
    apply negb_true_iff, String.eqb_neq. intros E. apply Hne.
    clear Hne. induction l as [|a l IH]; [destruct Hin|].
    simpl in Hnd. apply List.NoDup_cons_iff in Hnd as [Ha Hnd].
    destruct Hin as [->|Hin], Hr as [->|Hr].
    + reflexivity.
    + exfalso. apply Ha. rewrite <- E. now apply in_map.
    + exfalso. apply Ha. rewrite E. now apply in_map.
    + now apply IH.
Qed.

Lemma refresh_replaces_one_row (token : string) (w w' : World)
    (res : AuthService.RefreshResult) :
  AuthService.refresh env token w = (Ok res, w') ->
  exists consumed replacement,
    In consumed (refreshTokens (db w))
    /\ rt_token consumed = token
    /\ refreshTokens (db w')
       = (List.filter (fun r => negb (String.eqb (rt_id r) (rt_id consumed)))
            (refreshTokens (db w)) ++ [replacement])%list
    /\ rt_userId replacement = rt_userId consumed
    /\ rt_token replacement = AuthService.rr_refreshToken res
    /\ (List.NoDup (map rt_id (refreshTokens (db w))) ->
        length (refreshTokens (db w')) = length (refreshTokens (db w))
        /\ forall r, In r (refreshTokens (db w)) -> r <> consumed ->
             In r (refreshTokens (db w'))).
Proof.
  intros H.
  apply refresh_inv in H as (payload & consumed & userRecord & dr & Hc & _ & Htok & Hrows).
  destruct Hc as (_ & Hfind & _).
  apply find_storedToken_Some in Hfind as (Hin & Hk & Hu & _).
  exists consumed, (AuthService.replacement_row env payload dr (tick (tick w))).
  split; [assumption|]. split; [assumption|]. split; [assumption|].
  split; [now rewrite Hu|]. split; [now rewrite Htok|].
  intros Hnd. destruct (filter_out_one _ consumed Hnd Hin) as [Hlen Hkeep].
  rewrite Hrows. split.
  - rewrite length_app. simpl. lia.
  - intros r Hr Hne. apply in_or_app. left. now apply Hkeep.
Qed.

Lemma helper_expiry_bound (userId token : string) (expiresAt helper : Z)
    (w w1 w2 : World) :
  JwtUtil.generateRefreshToken env userId w = (Ok (token, expiresAt), w1) ->
  TokenHelpers.getRefreshTokenExpiresAt env w = (Ok helper, w2) ->
  0 <= next_reading w ->
  Range.valid_time helper = true ->
  expiresAt <= helper < expiresAt + 1000
  /\ (helper = expiresAt <-> next_reading w mod 1000 = 0).
Proof.
  intros Hg Hh _ _. apply generateRefreshToken_inv in Hg as (dr & Hdr & _ & -> & _).
  unfold TokenHelpers.getRefreshTokenExpiresAt, bind, lift_result, Date_now, ret in Hh.
  rewrite Hdr in Hh. injection Hh as <- _.
  pose proof (Z.div_mod (next_reading w) 1000 ltac:(lia)) as Hdm.
  pose proof (Z.mod_pos_bound (next_reading w) 1000 ltac:(lia)) as Hb.
  split; [lia|]. split; lia.
Qed.

End RotationRows.

(** X18: a successful refresh removes one row, which held the submitted
    token, and appends one row, for the same user, holding the returned
    refresh token.  With row ids distinct (the primary key), the table
    keeps its size and every other row: the other sessions of the user,
    and everybody else's, survive a rotation. *)
Theorem X18_refresh_replaces_one_row {jwt : JwtLib} (env : Env)
    (token : string) (w w' : World) (res : AuthService.RefreshResult) :
  AuthService.refresh env token w = (Ok res, w') ->
  exists consumed replacement,
    In consumed (Schema.refreshTokens (db w))
    /\ Schema.rt_token consumed = token
    /\ Schema.refreshTokens (db w')
       = (List.filter
            (fun r => negb (String.eqb (Schema.rt_id r) (Schema.rt_id consumed)))
            (Schema.refreshTokens (db w)) ++ [replacement])%list
    /\ Schema.rt_userId replacement = Schema.rt_userId consumed
    /\ Schema.rt_token replacement = AuthService.rr_refreshToken res
    /\ (List.NoDup (map Schema.rt_id (Schema.refreshTokens (db w))) ->
        length (Schema.refreshTokens (db w')) = length (Schema.refreshTokens (db w))
        /\ forall r, In r (Schema.refreshTokens (db w)) -> r <> consumed ->
             In r (Schema.refreshTokens (db w'))).
Proof. apply refresh_replaces_one_row. Qed.

Lemma X18_refresh_replaces_one_row_witness :
  exists r1 w1 r2 w2,
    Scenario.login_alice Scenario.world1 = (Ok r1, w1)
    /\ Scenario.refresh0 (AuthService.ar_refreshToken r1) w1 = (Ok r2, w2)
    /\ exists consumed replacement,
         In consumed (Schema.refreshTokens (db w1))
         /\ Schema.rt_token consumed = AuthService.ar_refreshToken r1
         /\ Schema.refreshTokens (db w2)
            = (List.filter
                 (fun r => negb (String.eqb (Schema.rt_id r) (Schema.rt_id consumed)))
                 (Schema.refreshTokens (db w1)) ++ [replacement])%list
         /\ Schema.rt_userId replacement = Schema.rt_userId consumed
         /\ Schema.rt_token replacement = AuthService.rr_refreshToken r2
         /\ (List.NoDup (map Schema.rt_id (Schema.refreshTokens (db w1))) ->
             length (Schema.refreshTokens (db w2)) = length (Schema.refreshTokens (db w1))
             /\ forall r, In r (Schema.refreshTokens (db w1)) -> r <> consumed ->
                  In r (Schema.refreshTokens (db w2))).
Proof.
  do 4 eexists.
  split; [vm_compute; reflexivity|].
  split; [vm_compute; reflexivity|].
  eapply (X18_refresh_replaces_one_row (jwt := Reference.jwt) Scenario.env0).
  vm_compute. reflexivity.
Defined.

(** X19: [getRefreshTokenExpiresAt] adds the lifetime to the clock in
    milliseconds, [generateRefreshToken] to the clock truncated to the
    second: read at the same instant, not before the epoch, and with the
    helper's date within the range of a [Date], the helper's date is the
    stored expiry plus the milliseconds of that instant, so later by less
    than a second, and equal only on a whole second. *)
Theorem X19_helper_expiry_is_later_by_under_a_second {jwt : JwtLib} (env : Env)
    (userId token : string) (expiresAt helper : Z) (w w1 w2 : World) :
  JwtUtil.generateRefreshToken env userId w = (Ok (token, expiresAt), w1) ->
  TokenHelpers.getRefreshTokenExpiresAt env w = (Ok helper, w2) ->
  0 <= next_reading w ->
  Range.valid_time helper = true ->
  expiresAt <= helper < expiresAt + 1000
  /\ (helper = expiresAt <-> next_reading w mod 1000 = 0).
Proof. apply helper_expiry_bound. Qed.

Lemma X19_helper_expiry_is_later_by_under_a_second_witness :
  1700604800000 <= 1700604800120 < 1700604800000 + 1000
  /\ (1700604800120 = 1700604800000 <-> next_reading Scenario.world0 mod 1000 = 0).
Proof.
  eapply (X19_helper_expiry_is_later_by_under_a_second (jwt := Reference.jwt)
            Scenario.env0 "u-alice" _ _ _ Scenario.world0).
  - vm_compute. reflexivity.
  - vm_compute. reflexivity.
  - vm_compute. discriminate.
  - vm_compute. reflexivity.
Defined.

(** ** A deleted user, a suspended user *)

Section AccountRemoval.
Context {jwt : JwtLib}.
Variable env : Env.
Import Schema.

Lemma filter_nonempty {A} (f : A -> bool) (l : list A) :
  negb (Nat.eqb (length (List.filter f l)) 0) = existsb f l.
Proof.
  induction l as [|a l IH]; [reflexivity|]. simpl.
  destruct (f a); simpl; [reflexivity|exact IH].
Qed.

Lemma user_delete_eq (id : string) (w : World) :
  UserAdmin.delete id w
  = (Ok (existsb (fun u => String.eqb (user_id u) id) (users (db w))),
     set_db (UserAdmin.without_user id) w).
Proof.
  unfold UserAdmin.delete, bind, get_db, modify_db, ret. now rewrite filter_nonempty.
Qed.

Lemma filter_neq_In {A} (f : A -> string) (id : string) (l : list A) (x : A) :
  In x (List.filter (fun y => negb (String.eqb (f y) id)) l) <-> In x l /\ f x <> id.
Proof.
  rewrite filter_In, negb_true_iff, String.eqb_neq. reflexivity.
Qed.

Lemma role_names_of_none (d : Db) (id : string) :
  (forall ur, In ur (userRoles d) -> ur_userId ur <> id) ->
  UserService.role_names_of d id = [].
Proof.
  intros H. unfold UserService.role_names_of.
  induction (userRoles d) as [|ur l IH]; [reflexivity|]. simpl.
  destruct (String.eqb (ur_userId ur) id) eqn:E.
  - apply String.eqb_eq in E. exfalso. apply (H ur); [now left|assumption].
  - simpl. apply IH. intros x Hx. apply H. now right.
Qed.

Lemma find_user_none (id : string) (l : list User) :
  (forall u, In u l -> user_id u <> id) ->
  List.find (fun u => String.eqb (user_id u) id) l = None.
Proof.
  intros H. destruct (List.find _ l) as [u|] eqn:E; [|reflexivity].
  apply find_some in E as [Hin E]. apply String.eqb_eq in E. now destruct (H u Hin).
Qed.

(** What the deletion of a user leaves behind. *)
Lemma deleted_user (id : string) (w : World) :
  let w' := snd (UserAdmin.delete id w) in
  (fst (UserAdmin.delete id w) = Ok true
   <-> exists u, In u (users (db w)) /\ user_id u = id)
  /\ (forall u, In u (users (db w')) <-> In u (users (db w)) /\ user_id u <> id)
  /\ (forall r, In r (refreshTokens (db w'))
                <-> In r (refreshTokens (db w)) /\ rt_userId r <> id)
  /\ (forall ur, In ur (userRoles (db w'))
                 <-> In ur (userRoles (db w)) /\ ur_userId ur <> id)
  /\ (roles (db w') = roles (db w)
      /\ permissions (db w') = permissions (db w)
      /\ rolePermissions (db w') = rolePermissions (db w))
  /\ (forall w2 token payload,
        refreshTokens (db w2) = refreshTokens (db w') ->
        fst (JwtUtil.verifyRefreshToken env token w2) = Ok payload ->
        Jwt.userId payload = id ->
        fst (AuthService.refresh env token w2) = Err "Invalid or expired refresh token")
  /\ (forall w2 header token payload allowedRoles c,
        userRoles (db w2) = userRoles (db w') ->
        TokenHelpers.bearer header token ->
        fst (JwtUtil.verifyAccessToken env token w2) = Ok payload ->
        Jwt.userId payload = id ->
        let r := AuthGuard.authMiddleware env header c w2 in
        fst (fst r) = AuthGuard.Continue
        /\ AuthGuard.var_userRoles (snd (fst r)) = Some []
        /\ AuthGuard.requireRole allowedRoles (snd (fst r))
           = AuthGuard.Answer "Insufficient permissions" 403 "FORBIDDEN"
               (Some {| AuthGuard.requiredRoles := allowedRoles;
                        AuthGuard.userRoles := [] |}))
  /\ (forall w2 header token payload,
        users (db w2) = users (db w') ->
        TokenHelpers.bearer header token ->
        fst (JwtUtil.verifyAccessToken env token w2) = Ok payload ->
        Jwt.userId payload = id ->
        fst (Routes.me_route env header w2)
        = AuthRoutes.errorResponse "User not found" 404 "USER_NOT_FOUND").
Proof.
  intros w'. subst w'. rewrite user_delete_eq. simpl.
  split; [|split; [|split; [|split; [|split; [|split; [|split]]]]]].
  - split.
    + intros [= H]. apply existsb_exists in H as (u & Hu & E).
      apply String.eqb_eq in E. now exists u.
    + intros (u & Hu & E). f_equal. apply existsb_exists. exists u.
      split; [assumption|]. now apply String.eqb_eq.
  - intros u. apply (filter_neq_In user_id).
  - intros r. apply (filter_neq_In rt_userId).
  - intros ur. apply (filter_neq_In ur_userId).
  - split; [reflexivity|split; reflexivity].
  - intros w2 token payload Hrows Hv Hu.
    rewrite (refresh_verified env token w2 payload Hv).
    rewrite find_storedToken_None; [reflexivity|].
    intros r Hin _. rewrite Hrows in Hin.
    apply (filter_neq_In rt_userId) in Hin as [_ Hne]. now rewrite Hu.
  - intros w2 header token payload allowedRoles c Hur Hb Hv Hu. cbv zeta.
    rewrite (authMiddleware_token env header token c w2 Hb), Hv. simpl.
    rewrite role_names_of_none.
    + split; [reflexivity|]. split; [reflexivity|].
      unfold AuthGuard.requireRole. simpl.
      assert (E : existsb (fun _ : string => false) allowedRoles = false)
        by (clear; induction allowedRoles as [|a l IH]; [reflexivity|exact IH]).
      now rewrite E.
    + intros ur Hin. rewrite Hur in Hin.
      apply (filter_neq_In ur_userId) in Hin as [_ Hne]. now rewrite Hu.
  - intros w2 header token payload Husers Hb Hv Hu.
    unfold Routes.me_route.
    rewrite (authMiddleware_token env header token _ w2 Hb), Hv. simpl.
    unfold AuthService.getCurrentUser, UserService.findByIdWithRoles, bind, get_db.
    simpl. rewrite find_user_none; [reflexivity|].
    intros u Hin. rewrite Husers in Hin.
    apply (filter_neq_In user_id) in Hin as [_ Hne]. now rewrite Hu.
Qed.

End AccountRemoval.

(** X20: [UserService.delete] returns [true] exactly when a row had that
    id.  Of the six tables of this flow it removes the user's rows from
    [users], [refresh_tokens] and [user_roles] (the cascading foreign
    keys), keeps every other row of these three, and leaves [roles],
    [permissions] and [role_permissions] as they were.  (The schema
    cascades the deletion into further tables, which hold no part of the
    authentication flow and are not among the rows here.)  Afterwards a
    refresh token of that user is refused; an access token of that user
    that still verifies passes [authMiddleware], but with no role, so that
    [requireRole] answers 403 whatever roles it allows, and GET /auth/me
    answers 404 USER_NOT_FOUND. *)
Theorem X20_deleted_user {jwt : JwtLib} (env : Env) (id : string) (w : World) :
  let w' := snd (UserAdmin.delete id w) in
  (fst (UserAdmin.delete id w) = Ok true
   <-> exists u, In u (Schema.users (db w)) /\ Schema.user_id u = id)
  /\ (forall u, In u (Schema.users (db w'))
                <-> In u (Schema.users (db w)) /\ Schema.user_id u <> id)
  /\ (forall r, In r (Schema.refreshTokens (db w'))
                <-> In r (Schema.refreshTokens (db w)) /\ Schema.rt_userId r <> id)
  /\ (forall ur, In ur (Schema.userRoles (db w'))
                 <-> In ur (Schema.userRoles (db w)) /\ Schema.ur_userId ur <> id)
  /\ (Schema.roles (db w') = Schema.roles (db w)
      /\ Schema.permissions (db w') = Schema.permissions (db w)
      /\ Schema.rolePermissions (db w') = Schema.rolePermissions (db w))
  /\ (forall w2 token payload,
        Schema.refreshTokens (db w2) = Schema.refreshTokens (db w') ->
        fst (JwtUtil.verifyRefreshToken env token w2) = Ok payload ->
        Jwt.userId payload = id ->
        fst (AuthService.refresh env token w2) = Err "Invalid or expired refresh token")
  /\ (forall w2 header token payload allowedRoles c,
        Schema.userRoles (db w2) = Schema.userRoles (db w') ->
        TokenHelpers.bearer header token ->
        fst (JwtUtil.verifyAccessToken env token w2) = Ok payload ->
        Jwt.userId payload = id ->
        let r := AuthGuard.authMiddleware env header c w2 in
        fst (fst r) = AuthGuard.Continue
        /\ AuthGuard.var_userRoles (snd (fst r)) = Some []
        /\ AuthGuard.requireRole allowedRoles (snd (fst r))
           = AuthGuard.Answer "Insufficient permissions" 403 "FORBIDDEN"
               (Some {| AuthGuard.requiredRoles := allowedRoles;
                        AuthGuard.userRoles := [] |}))
  /\ (forall w2 header token payload,
        Schema.users (db w2) = Schema.users (db w') ->
        TokenHelpers.bearer header token ->
        fst (JwtUtil.verifyAccessToken env token w2) = Ok payload ->
        Jwt.userId payload = id ->
        fst (Routes.me_route env header w2)
        = AuthRoutes.errorResponse "User not found" 404 "USER_NOT_FOUND").
Proof. apply deleted_user. Qed.

Example deleted_alice_still_authenticates :
  let w' := snd (UserAdmin.delete "u-alice" Scenario.world0) in
  fst (fst (AuthGuard.authMiddleware (jwt := Reference.jwt) Scenario.env0
              Cases.alice_header AuthGuard.no_variables w')) = AuthGuard.Continue
  /\ fst (Routes.me_route (jwt := Reference.jwt) Scenario.env0 Cases.alice_header w')
     = AuthRoutes.errorResponse "User not found" 404 "USER_NOT_FOUND".
Proof. split; vm_compute; reflexivity. Qed.

Section Suspension.
Context {jwt : JwtLib} {hasher : PasswordHasher}.
Variable env : Env.
Import Schema.

Lemma head_filter_find {A} (f : A -> bool) (l : list A) :
  head (List.filter f l) = List.find f l.
Proof.
  induction l as [|a l IH]; [reflexivity|]. simpl. destruct (f a); [reflexivity|exact IH].
Qed.

Lemma updateStatus_eq (id : string) (status : UserStatus) (w : World) :
  UserAdmin.updateStatus id status w
  = (Ok (option_map (fun u => publicUserSchema_parse (UserAdmin.with_status status u))
           (List.find (fun u => String.eqb (user_id u) id) (users (db w)))),
     set_db (set_users
               (map (fun u => if String.eqb (user_id u) id
                              then UserAdmin.with_status status u else u)))
       (tick w)).
Proof.
  unfold UserAdmin.updateStatus, bind, Date_now, get_db, modify_db, ret. simpl.
  do 2 f_equal. rewrite <- head_filter_find.
  destruct (List.filter _ (users (db w))); reflexivity.
Qed.

(** The guard reads [user_roles] and [roles], never [users]. *)
Lemma authMiddleware_ignores_users (header : option string) (c : AuthGuard.Variables)
    (f : list User -> list User) (w : World) :
  fst (AuthGuard.authMiddleware env header c (set_db (set_users f) w))
  = fst (AuthGuard.authMiddleware env header c w).
Proof.
  destruct (bearer_cases header) as [[token Hb]|Hno].
  - rewrite !(authMiddleware_token env header token c _ Hb).
    rewrite !verifyAccessToken_eq. simpl.
    change (next_reading (set_db (set_users f) w)) with (next_reading w).
    destruct (jwt_verify _ _ _) as [p|]; [|reflexivity].
    destruct (String.eqb (Jwt.type p) "access"); reflexivity.
  - unfold AuthGuard.authMiddleware. destruct Hno as [E|E]; now rewrite E.
Qed.

Lemma suspended_user (id : string) (status : UserStatus) (w : World) :
  status <> ACTIVE ->
  let w' := snd (UserAdmin.updateStatus id status w) in
  (forall u, In u (users (db w')) -> user_id u = id -> user_status u = status)
  /\ (forall u, user_id u <> id -> (In u (users (db w')) <-> In u (users (db w))))
  /\ refreshTokens (db w') = refreshTokens (db w)
  /\ userRoles (db w') = userRoles (db w)
  /\ (forall w2 email password user,
        users (db w2) = users (db w') ->
        fst (UserService.findByEmail email w2) = Ok (Some user) ->
        user_id user = id ->
        AuthService.login env email password w2
        = (Err (if verify_password password (user_password user)
                then "Account is deactivated or suspended"
                else "Invalid email or password"), w2))
  /\ (forall w2 token payload,
        users (db w2) = users (db w') ->
        fst (JwtUtil.verifyRefreshToken env token w2) = Ok payload ->
        Jwt.userId payload = id ->
        is_ok (fst (AuthService.refresh env token w2)) = false
        /\ db (snd (AuthService.refresh env token w2)) = db w2)
  /\ (forall header c,
        fst (AuthGuard.authMiddleware env header c w')
        = fst (AuthGuard.authMiddleware env header c (tick w))).
Proof.
  intros Hs w'. subst w'. rewrite updateStatus_eq. simpl.
  assert (Hrow : forall u,
            In u (map (fun u => if String.eqb (user_id u) id
                                then UserAdmin.with_status status u else u)
                    (users (db w))) ->
            user_id u = id -> user_status u = status).
  { intros u Hin Hid. apply in_map_iff in Hin as (u0 & <- & _).
    destruct (String.eqb (user_id u0) id) eqn:E; [reflexivity|].
    apply String.eqb_neq in E. now destruct E. }
  split; [exact Hrow|]. split; [|split; [reflexivity|split; [reflexivity|split; [|split]]]].
  - intros u Hne. rewrite in_map_iff. split.
    + intros (u0 & <- & Hin).
      destruct (String.eqb (user_id u0) id) eqn:E; [|assumption].
      apply String.eqb_eq in E. now destruct Hne.
    + intros Hin. exists u. split; [|assumption].
      apply String.eqb_neq in Hne. now rewrite Hne.
  - intros w2 email password user Husers Hfind Hid.
    simpl in Hfind. injection Hfind as Hfind.
    pose proof (login_checks env email password w2) as Hl. rewrite Hfind in Hl.
    assert (Hst : user_status user <> ACTIVE).
    { apply find_some in Hfind as [Hin _]. rewrite Husers in Hin.
      now rewrite (Hrow user Hin Hid). }
    destruct (verify_password password (user_password user)); [now apply Hl|exact Hl].
  - intros w2 token payload Husers Hv Hid.
    rewrite (refresh_verified env token w2 payload Hv).
    destruct (AuthService.find_storedToken _ _ _ _) as [storedToken|];
      [|split; reflexivity].
    destruct (List.find _ (users (db w2))) as [userRecord|] eqn:Hu;
      [|split; reflexivity].
    apply find_some in Hu as [Hin E]. apply String.eqb_eq in E.
    rewrite Husers in Hin. rewrite Hid in E.
    rewrite bool_decide_eq_false_2; [split; reflexivity|].
    now rewrite (Hrow userRecord Hin E).
  - intros header c. apply authMiddleware_ignores_users.
Qed.

End Suspension.

(** X21: [updateStatus] to a status other than ACTIVE sets that status on
    the rows with that id and touches no other user row, no refresh-token
    row and no role assignment.  Afterwards a login for that user fails
    without writing ("Account is deactivated or suspended" for the right
    password, the generic message for a wrong one) and a refresh for that
    user fails leaving the database as it was; the user's refresh-token
    rows stay in the table, and [authMiddleware], which never reads
    [users], answers every request as it would have before: an access
    token issued earlier keeps working until it expires. *)
Theorem X21_suspended_user {jwt : JwtLib} {hasher : PasswordHasher} (env : Env)
    (id : string) (status : Schema.UserStatus) (w : World) :
  status <> Schema.ACTIVE ->
  let w' := snd (UserAdmin.updateStatus id status w) in
  (forall u, In u (Schema.users (db w')) -> Schema.user_id u = id ->
             Schema.user_status u = status)
  /\ (forall u, Schema.user_id u <> id ->
                (In u (Schema.users (db w')) <-> In u (Schema.users (db w))))
  /\ Schema.refreshTokens (db w') = Schema.refreshTokens (db w)
  /\ Schema.userRoles (db w') = Schema.userRoles (db w)
  /\ (forall w2 email password user,
        Schema.users (db w2) = Schema.users (db w') ->
        fst (UserService.findByEmail email w2) = Ok (Some user) ->
        Schema.user_id user = id ->
        AuthService.login env email password w2
        = (Err (if verify_password password (Schema.user_password user)
                then "Account is deactivated or suspended"
                else "Invalid email or password"), w2))
  /\ (forall w2 token payload,
        Schema.users (db w2) = Schema.users (db w') ->
        fst (JwtUtil.verifyRefreshToken env token w2) = Ok payload ->
        Jwt.userId payload = id ->
        is_ok (fst (AuthService.refresh env token w2)) = false
        /\ db (snd (AuthService.refresh env token w2)) = db w2)
  /\ (forall header c,
        fst (AuthGuard.authMiddleware env header c w')
        = fst (AuthGuard.authMiddleware env header c (tick w))).
Proof. apply suspended_user. Qed.

Lemma X21_suspended_user_witness :
  let w' := snd (UserAdmin.updateStatus "u-bob" Schema.SUSPENDED Scenario.world0) in
  Schema.refreshTokens (db w') = Schema.refreshTokens (db Scenario.world0)
  /\ forall header c,
       fst (AuthGuard.authMiddleware (jwt := Reference.jwt) Scenario.env0 header c w')
       = fst (AuthGuard.authMiddleware (jwt := Reference.jwt) Scenario.env0 header c
                (tick Scenario.world0)).
Proof.
  pose proof (X21_suspended_user (jwt := Reference.jwt) (hasher := Reference.hasher)
                Scenario.env0 "u-bob" Schema.SUSPENDED Scenario.world0
                ltac:(discriminate)) as H.
  split; [apply H|apply H].
Defined.

Example suspended_bob_keeps_his_access :
  let w' := snd (UserAdmin.updateStatus "u-bob" Schema.SUSPENDED Scenario.world0) in
  exists c w2,
    AuthGuard.authMiddleware (jwt := Reference.jwt) Scenario.env0 Cases.bob_header
      AuthGuard.no_variables w' = ((AuthGuard.Continue, c), w2)
    /\ AuthGuard.requireRole ["admin"] c = AuthGuard.Continue.
Proof. eexists _, _. split; vm_compute; reflexivity. Qed.

(** ** The guarded handlers *)

Section GuardedRoutes.
Context {jwt : JwtLib}.
Variable env : Env.
Import Schema.

(** A request passes [authMiddleware] with this payload. *)
Lemma route_unauthenticated (header : option string) (w : World) :
  (forall token payload,
     TokenHelpers.bearer header token ->
     fst (JwtUtil.verifyAccessToken env token w) <> Ok payload) ->
  exists message code w1,
    AuthGuard.authMiddleware env header AuthGuard.no_variables w
    = ((AuthGuard.Answer message 401 code None, AuthGuard.no_variables), w1)
    /\ db w1 = db w.
Proof.
  intros Hno. destruct (bearer_cases header) as [[token Hb]|Hnone].
  - rewrite (authMiddleware_token env header token _ w Hb).
    destruct (fst (JwtUtil.verifyAccessToken env token w)) as [payload|msg] eqn:Hv.
    + now destruct (Hno token payload Hb).
    + eexists _, _, _. split; reflexivity.
  - unfold AuthGuard.authMiddleware.
    destruct Hnone as [E|E]; rewrite E; eexists _, _, _; split; reflexivity.
Qed.

Lemma users_delete_route_spec (header : option string) (id : string) (w : World) :
  let r := Routes.users_delete_route env header id w in
  ((forall token payload,
      TokenHelpers.bearer header token ->
      fst (JwtUtil.verifyAccessToken env token w) <> Ok payload) ->
   AuthRoutes.statusCode_of (fst r) = 401 /\ db (snd r) = db w)
  /\ (forall token payload,
        TokenHelpers.bearer header token ->
        fst (JwtUtil.verifyAccessToken env token w) = Ok payload ->
        let admin := In "admin" (UserService.role_names_of (db w) (Jwt.userId payload)) in
        (~ admin ->
         fst r = AuthRoutes.errorResponse "Insufficient permissions" 403 "FORBIDDEN"
         /\ db (snd r) = db w)
        /\ (admin -> id = Jwt.userId payload ->
            fst r = AuthRoutes.errorResponse "Cannot delete your own account" 400
                      "SELF_DELETE_FORBIDDEN"
            /\ db (snd r) = db w)
        /\ (admin -> id <> Jwt.userId payload ->
            fst r = (if existsb (fun u => String.eqb (user_id u) id) (users (db w))
                     then AuthRoutes.successResponse "User deleted successfully" 200
                     else AuthRoutes.errorResponse "User not found" 404 "USER_NOT_FOUND")
            /\ db (snd r) = UserAdmin.without_user id (db w)
            /\ forall u, In u (users (db w)) -> user_id u = Jwt.userId payload ->
                         In u (users (db (snd r))))).
Proof.
  intros r. subst r. split.
  - intros Hno. unfold Routes.users_delete_route.
    destruct (route_unauthenticated header w Hno) as (message & code & w1 & -> & Hdb).
    now split.
  - intros token payload Hb Hv admin. subst admin.
    unfold Routes.users_delete_route.
    rewrite (authMiddleware_token env header token _ w Hb), Hv.
    cbv beta iota. rewrite user_delete_eq.
    unfold AuthGuard.requireRole. simpl.
    rewrite orb_false_r.
    destruct (UserService.mem "admin" _) eqn:Hadmin; simpl.
    + apply mem_In in Hadmin.
      split; [intros Hn; now destruct Hn|].
      destruct (String.eqb id (Jwt.userId payload)) eqn:E.
      * apply String.eqb_eq in E.
        split; [intros _ _; now split|]. intros _ Hne. now destruct Hne.
      * apply String.eqb_neq in E.
        split; [intros _ Heq; now destruct E|]. intros _ _.
        split; [now destruct (existsb _ (users (db w)))|].
        split; [now destruct (existsb _ (users (db w)))|].
        intros u Hin Hid.
        assert (Hkeep : In u (users (UserAdmin.without_user id (db w)))).
        { apply (filter_neq_In user_id). split; [assumption|]. rewrite Hid.
          intros Heq. now destruct E. }
        now destruct (existsb _ (users (db w))).
    + assert (Hn : ~ In "admin" (UserService.role_names_of (db w) (Jwt.userId payload))).
      { intros Hin. apply mem_In in Hin. congruence. }
      split; [intros _; now split|].
      split; intros Ha; now destruct Hn.
Qed.

Lemma logoutAll_route_spec (header : option string) (w : World) :
  let r := Routes.logoutAll_route env header w in
  ((forall token payload,
      TokenHelpers.bearer header token ->
      fst (JwtUtil.verifyAccessToken env token w) <> Ok payload) ->
   AuthRoutes.statusCode_of (fst r) = 401 /\ db (snd r) = db w)
  /\ (forall token payload,
        TokenHelpers.bearer header token ->
        fst (JwtUtil.verifyAccessToken env token w) = Ok payload ->
        fst r = AuthRoutes.successResponse "Successfully logged out from all devices" 200
        /\ (forall x, In x (refreshTokens (db (snd r)))
                      <-> In x (refreshTokens (db w))
                          /\ rt_userId x <> Jwt.userId payload)
        /\ users (db (snd r)) = users (db w)).
Proof.
  intros r. subst r. split.
  - intros Hno. unfold Routes.logoutAll_route.
    destruct (route_unauthenticated header w Hno) as (message & code & w1 & -> & Hdb).
    now split.
  - intros token payload Hb Hv. unfold Routes.logoutAll_route.
    rewrite (authMiddleware_token env header token _ w Hb), Hv. simpl.
    split; [reflexivity|]. split; [|reflexivity].
    intros x. apply (filter_neq_In rt_userId).
Qed.

Lemma me_route_spec (header : option string) (w : World) :
  let r := Routes.me_route env header w in
  ((forall token payload,
      TokenHelpers.bearer header token ->
      fst (JwtUtil.verifyAccessToken env token w) <> Ok payload) ->
   AuthRoutes.statusCode_of (fst r) = 401)
  /\ (forall token payload,
        TokenHelpers.bearer header token ->
        fst (JwtUtil.verifyAccessToken env token w) = Ok payload ->
        match fst (UserService.findByIdWithRoles (Jwt.userId payload) w) with
        | Ok (Some profile) => fst r = AuthRoutes.successResponse profile 200
        | _ => fst r = AuthRoutes.errorResponse "User not found" 404 "USER_NOT_FOUND"
        end)
  /\ db (snd r) = db w.
Proof.
  intros r. subst r.
  assert (Hpure : forall id w0,
            UserService.findByIdWithRoles id (tick w0)
            = (fst (UserService.findByIdWithRoles id w0), tick w0)).
  { intros id w0. unfold UserService.findByIdWithRoles, bind, get_db.
    change (db (tick w0)) with (db w0).
    destruct (List.find _ (users (db w0))); reflexivity. }
  split; [|split].
  - intros Hno. unfold Routes.me_route.
    destruct (route_unauthenticated header w Hno) as (message & code & w1 & -> & Hdb).
    reflexivity.
  - intros token payload Hb Hv. unfold Routes.me_route.
    rewrite (authMiddleware_token env header token _ w Hb), Hv. simpl.
    unfold AuthService.getCurrentUser. rewrite Hpure.
    destruct (findByIdWithRoles_pure (Jwt.userId payload) w) as [[profile|] ->];
      reflexivity.
  - unfold Routes.me_route.
    destruct (bearer_cases header) as [[token Hb]|Hnone].
    + rewrite (authMiddleware_token env header token _ w Hb).
      destruct (fst (JwtUtil.verifyAccessToken env token w)) as [payload|msg];
        [|reflexivity].
      simpl. unfold AuthService.getCurrentUser. rewrite Hpure.
      destruct (findByIdWithRoles_pure (Jwt.userId payload) w) as [[profile|] ->];
        reflexivity.
    + unfold AuthGuard.authMiddleware. destruct Hnone as [E|E]; now rewrite E.
Qed.

End GuardedRoutes.

(** X22: DELETE /users/:id deletes only for a caller whose bearer token
    verifies, who holds the role "admin" in the database at the time of
    the request, and who is not the target: without a verified token it
    answers 401, without the role 403, for the caller's own id 400
    SELF_DELETE_FORBIDDEN, each leaving the database as it was.
    Otherwise it answers 200, or 404 when no user has the id, and the
    database is the old one without that user's rows; the caller's own row
    is never removed. *)
Theorem X22_users_delete_route {jwt : JwtLib} (env : Env)
    (header : option string) (id : string) (w : World) :
  let r := Routes.users_delete_route env header id w in
  ((forall token payload,
      TokenHelpers.bearer header token ->
      fst (JwtUtil.verifyAccessToken env token w) <> Ok payload) ->
   AuthRoutes.statusCode_of (fst r) = 401 /\ db (snd r) = db w)
  /\ (forall token payload,
        TokenHelpers.bearer header token ->
        fst (JwtUtil.verifyAccessToken env token w) = Ok payload ->
        let admin := In "admin" (UserService.role_names_of (db w) (Jwt.userId payload)) in
        (~ admin ->
         fst r = AuthRoutes.errorResponse "Insufficient permissions" 403 "FORBIDDEN"
         /\ db (snd r) = db w)
        /\ (admin -> id = Jwt.userId payload ->
            fst r = AuthRoutes.errorResponse "Cannot delete your own account" 400
                      "SELF_DELETE_FORBIDDEN"
            /\ db (snd r) = db w)
        /\ (admin -> id <> Jwt.userId payload ->
            fst r = (if existsb (fun u => String.eqb (Schema.user_id u) id)
                          (Schema.users (db w))
                     then AuthRoutes.successResponse "User deleted successfully" 200
                     else AuthRoutes.errorResponse "User not found" 404 "USER_NOT_FOUND")
            /\ db (snd r) = UserAdmin.without_user id (db w)
            /\ forall u, In u (Schema.users (db w)) ->
                         Schema.user_id u = Jwt.userId payload ->
                         In u (Schema.users (db (snd r))))).
Proof. apply users_delete_route_spec. Qed.

Example bob_deletes_alice_not_himself :
  fst (Routes.users_delete_route (jwt := Reference.jwt) Scenario.env0 Cases.bob_header
         "u-alice" Scenario.world0)
  = AuthRoutes.successResponse "User deleted successfully" 200
  /\ fst (Routes.users_delete_route (jwt := Reference.jwt) Scenario.env0 Cases.bob_header
            "u-bob" Scenario.world0)
     = AuthRoutes.errorResponse "Cannot delete your own account" 400
         "SELF_DELETE_FORBIDDEN"
  /\ fst (Routes.users_delete_route (jwt := Reference.jwt) Scenario.env0
            Cases.alice_header "u-bob" Scenario.world0)
     = AuthRoutes.errorResponse "Insufficient permissions" 403 "FORBIDDEN".
Proof. repeat split; vm_compute; reflexivity. Qed.

(** X23: POST /auth/logout-all answers 401 and writes nothing without a
    verified bearer token; with one it answers 200 and deletes exactly the
    refresh-token rows of the token's user, whoever else has sessions. *)
Theorem X23_logoutAll_route {jwt : JwtLib} (env : Env)
    (header : option string) (w : World) :
  let r := Routes.logoutAll_route env header w in
  ((forall token payload,
      TokenHelpers.bearer header token ->
      fst (JwtUtil.verifyAccessToken env token w) <> Ok payload) ->
   AuthRoutes.statusCode_of (fst r) = 401 /\ db (snd r) = db w)
  /\ (forall token payload,
        TokenHelpers.bearer header token ->
        fst (JwtUtil.verifyAccessToken env token w) = Ok payload ->
        fst r = AuthRoutes.successResponse "Successfully logged out from all devices" 200
        /\ (forall x, In x (Schema.refreshTokens (db (snd r)))
                      <-> In x (Schema.refreshTokens (db w))
                          /\ Schema.rt_userId x <> Jwt.userId payload)
        /\ Schema.users (db (snd r)) = Schema.users (db w)).
Proof. apply logoutAll_route_spec. Qed.

(** X24: GET /auth/me answers from the database, not from the token: for
    a verified bearer token, the profile (roles and permissions included)
    that [findByIdWithRoles] gives for the token's user at the time of the
    request, or 404 USER_NOT_FOUND when the user has no row; without a
    verified token, 401.  It never writes. *)
Theorem X24_me_route {jwt : JwtLib} (env : Env) (header : option string) (w : World) :
  let r := Routes.me_route env header w in
  ((forall token payload,
      TokenHelpers.bearer header token ->
      fst (JwtUtil.verifyAccessToken env token w) <> Ok payload) ->
   AuthRoutes.statusCode_of (fst r) = 401)
  /\ (forall token payload,
        TokenHelpers.bearer header token ->
        fst (JwtUtil.verifyAccessToken env token w) = Ok payload ->
        match fst (UserService.findByIdWithRoles (Jwt.userId payload) w) with
        | Ok (Some profile) => fst r = AuthRoutes.successResponse profile 200
        | _ => fst r = AuthRoutes.errorResponse "User not found" 404 "USER_NOT_FOUND"
        end)
  /\ db (snd r) = db w.
Proof. apply me_route_spec. Qed.

(** ** Roles *)

Section RoleFacts.
Import Schema.

Lemma role_delete_refused (id : string) (w : World) :
  (exists ur, In ur (userRoles (db w)) /\ ur_roleId ur = id) ->
  RoleService.delete id w = (Err "Cannot delete role with assigned users", w).
Proof.
  intros (ur & Hin & E). unfold RoleService.delete, bind, get_db.
  rewrite filter_nonempty.
  replace (existsb _ (userRoles (db w))) with true; [reflexivity|].
  symmetry. apply existsb_exists. exists ur. split; [assumption|].
  now apply String.eqb_eq.
Qed.

Lemma filter_all {A} (f : A -> bool) (l : list A) :
  (forall x, In x l -> f x = true) -> List.filter f l = l.
Proof.
  intros H. induction l as [|a l IH]; [reflexivity|]. simpl.
  rewrite (H a (or_introl eq_refl)). f_equal. apply IH. intros x Hx. apply H. now right.
Qed.

Lemma role_delete_done (id : string) (w : World) :
  (forall ur, In ur (userRoles (db w)) -> ur_roleId ur <> id) ->
  RoleService.delete id w
  = (Ok (existsb (fun r => String.eqb (role_id r) id) (roles (db w))),
     set_db (RoleService.without_role id) w)
  /\ userRoles (RoleService.without_role id (db w)) = userRoles (db w).
Proof.
  intros H. unfold RoleService.delete, bind, get_db, modify_db, ret.
  rewrite !filter_nonempty.
  replace (existsb _ (userRoles (db w))) with false.
  - split; [reflexivity|]. simpl. apply filter_all.
    intros ur Hin. apply negb_true_iff, String.eqb_neq. now apply H.
  - symmetry. apply not_true_iff_false. intros E.
    apply existsb_exists in E as (ur & Hin & E). apply String.eqb_eq in E.
    now destruct (H ur Hin).
Qed.

(** A role no row of [user_roles] names contributes no role name. *)
Lemma role_names_without_role (id u : string) (d : Db) :
  (forall ur, In ur (userRoles d) -> ur_roleId ur <> id) ->
  UserService.role_names_of (RoleService.without_role id d) u
  = UserService.role_names_of d u.
Proof.
  intros H. unfold UserService.role_names_of. simpl.
  rewrite (filter_all _ (userRoles d));
    [|intros ur Hin; apply negb_true_iff, String.eqb_neq; now apply H].
  induction (userRoles d) as [|ur l IH]; [reflexivity|]. simpl.
  rewrite IH by (intros x Hx; apply H; now right). f_equal.
  destruct (String.eqb (ur_userId ur) u); [|reflexivity]. f_equal.
  assert (Hne : ur_roleId ur <> id) by (apply H; now left).
  clear -Hne. induction (roles d) as [|r rs IHr]; [reflexivity|]. simpl.
  destruct (String.eqb (role_id r) id) eqn:E; simpl.
  - apply String.eqb_eq in E.
    replace (String.eqb (ur_roleId ur) (role_id r)) with false; [exact IHr|].
    symmetry. apply String.eqb_neq. now rewrite E.
  - destruct (String.eqb (ur_roleId ur) (role_id r)); [f_equal|]; exact IHr.
Qed.

Lemma role_delete_spec (id : string) (w : World) :
  let r := RoleService.delete id w in
  ((exists ur, In ur (userRoles (db w)) /\ ur_roleId ur = id) ->
   r = (Err "Cannot delete role with assigned users", w))
  /\ ((forall ur, In ur (userRoles (db w)) -> ur_roleId ur <> id) ->
      (fst r = Ok true <-> exists x, In x (roles (db w)) /\ role_id x = id)
      /\ is_ok (fst r) = true
      /\ (forall x, In x (roles (db (snd r))) <-> In x (roles (db w)) /\ role_id x <> id)
      /\ (forall rp, In rp (rolePermissions (db (snd r)))
                     <-> In rp (rolePermissions (db w)) /\ rp_roleId rp <> id)
      /\ userRoles (db (snd r)) = userRoles (db w)
      /\ users (db (snd r)) = users (db w)
      /\ permissions (db (snd r)) = permissions (db w)
      /\ refreshTokens (db (snd r)) = refreshTokens (db w))
  /\ (forall u, UserService.role_names_of (db (snd r)) u
                = UserService.role_names_of (db w) u).
Proof.
  intros r. subst r.
  assert (Hcases : (exists ur, In ur (userRoles (db w)) /\ ur_roleId ur = id)
                   \/ (forall ur, In ur (userRoles (db w)) -> ur_roleId ur <> id)).
  { destruct (existsb (fun ur => String.eqb (ur_roleId ur) id) (userRoles (db w))) eqn:E.
    - left. apply existsb_exists in E as (ur & Hin & E). apply String.eqb_eq in E.
      now exists ur.
    - right. intros ur Hin Heq.
      assert (existsb (fun ur => String.eqb (ur_roleId ur) id) (userRoles (db w)) = true);
        [|congruence].
      apply existsb_exists. exists ur. split; [assumption|]. now apply String.eqb_eq. }
  split; [apply role_delete_refused|]. split.
  - intros Hfree. destruct (role_delete_done id w Hfree) as [-> Hur]. simpl.
    split; [|split; [reflexivity|split; [|split; [|split; [exact Hur|]]]]].
    + split.
      * intros [= H]. apply existsb_exists in H as (x & Hx & E).
        apply String.eqb_eq in E. now exists x.
      * intros (x & Hx & E). f_equal. apply existsb_exists. exists x.
        split; [assumption|]. now apply String.eqb_eq.
    + intros x. apply (filter_neq_In role_id).
    + intros rp. apply (filter_neq_In rp_roleId).
    + split; [reflexivity|]. split; reflexivity.
  - intros u. destruct Hcases as [Hused|Hfree].
    + now rewrite (role_delete_refused id w Hused).
    + destruct (role_delete_done id w Hfree) as [-> _]. simpl.
      now apply role_names_without_role.
Qed.

End RoleFacts.

(** X25: [RoleService.delete] refuses, with "Cannot delete role with
    assigned users" and nothing written, a role that some row of
    [user_roles] names.  Otherwise it succeeds, returns [true] exactly
    when a role had the id, and removes that role and its
    [role_permissions] rows and nothing else.  Either way every user has
    the role names they had: a deletion never takes a role from a user. *)
Theorem X25_role_delete (id : string) (w : World) :
  let r := RoleService.delete id w in
  ((exists ur, In ur (Schema.userRoles (db w)) /\ Schema.ur_roleId ur = id) ->
   r = (Err "Cannot delete role with assigned users", w))
  /\ ((forall ur, In ur (Schema.userRoles (db w)) -> Schema.ur_roleId ur <> id) ->
      (fst r = Ok true <-> exists x, In x (Schema.roles (db w)) /\ Schema.role_id x = id)
      /\ is_ok (fst r) = true
      /\ (forall x, In x (Schema.roles (db (snd r)))
                    <-> In x (Schema.roles (db w)) /\ Schema.role_id x <> id)
      /\ (forall rp, In rp (Schema.rolePermissions (db (snd r)))
                     <-> In rp (Schema.rolePermissions (db w))
                         /\ Schema.rp_roleId rp <> id)
      /\ Schema.userRoles (db (snd r)) = Schema.userRoles (db w)
      /\ Schema.users (db (snd r)) = Schema.users (db w)
      /\ Schema.permissions (db (snd r)) = Schema.permissions (db w)
      /\ Schema.refreshTokens (db (snd r)) = Schema.refreshTokens (db w))
  /\ (forall u, UserService.role_names_of (db (snd r)) u
                = UserService.role_names_of (db w) u).
Proof. apply role_delete_spec. Qed.

Example role_in_use_is_kept :
  RoleService.delete "r-admin" Scenario.world0
  = (Err "Cannot delete role with assigned users", Scenario.world0)
  /\ fst (RoleService.delete "r-admin"
            (snd (UserAdmin.removeRole "u-bob" "r-admin" Scenario.world0))) = Ok true
  /\ fst (RoleService.delete "r-none" Scenario.world0) = Ok false.
Proof. repeat split; vm_compute; reflexivity. Qed.

Section RolePermissions.
Import Schema.

Lemma same_pair_own (roleId a : string) (ids : list string) :
  existsb (RoleService.same_pair {| rp_roleId := roleId; rp_permissionId := a |})
    (map (fun p => {| rp_roleId := roleId; rp_permissionId := p |}) ids) = true
  <-> In a ids.
Proof.
  rewrite existsb_exists. split.
  - intros (x & Hx & E). apply in_map_iff in Hx as (p & <- & Hp).
    unfold RoleService.same_pair in E. simpl in E.
    apply andb_prop in E as [_ E]. apply String.eqb_eq in E. now subst.
  - intros Hin. exists {| rp_roleId := roleId; rp_permissionId := a |}. split.
    + apply in_map_iff. now exists a.
    + unfold RoleService.same_pair. simpl. now rewrite !String.eqb_refl.
Qed.

Lemma pairs_distinct_NoDup (roleId : string) (ids : list string) :
  RoleService.pairs_distinct
    (map (fun p => {| rp_roleId := roleId; rp_permissionId := p |}) ids) = true
  <-> List.NoDup ids.
Proof.
  induction ids as [|a l IH]; simpl.
  - split; [constructor|reflexivity].
  - rewrite andb_true_iff, negb_true_iff, IH, List.NoDup_cons_iff.
    rewrite <- (same_pair_own roleId a l), not_true_iff_false. reflexivity.
Qed.

Lemma forallb_map_iff {A B} (g : A -> B) (f : B -> bool) (l : list A) :
  forallb f (map g l) = true <-> forall a, In a l -> f (g a) = true.
Proof.
  rewrite forallb_forall. split.
  - intros H a Ha. apply H. now apply in_map.
  - intros H b Hb. apply in_map_iff in Hb as (a & <- & Ha). now apply H.
Qed.

(** The insert of [assignPermissions], after its delete, is accepted
    exactly when the ids are pairwise distinct, the role exists and every
    id is a permission's. *)
Lemma rps_insertable_iff (roleId : string) (ids : list string) (d : Db) :
  let kept := RoleService.set_rolePermissions
                (List.filter (fun rp => negb (String.eqb (rp_roleId rp) roleId))) d in
  RoleService.rps_insertable kept
    (map (fun p => {| rp_roleId := roleId; rp_permissionId := p |}) ids) = true
  <-> List.NoDup ids
      /\ (ids <> [] -> exists r, In r (roles d) /\ role_id r = roleId)
      /\ (forall p, In p ids -> exists x, In x (permissions d) /\ perm_id x = p).
Proof.
  intros kept. unfold RoleService.rps_insertable. subst kept. simpl.
  rewrite !andb_true_iff, pairs_distinct_NoDup, !forallb_map_iff. simpl.
  split.
  - intros [[[Hnd _] Hrole] Hperm]. split; [assumption|]. split.
    + intros Hne. destruct ids as [|a l]; [now destruct Hne|].
      specialize (Hrole a (or_introl eq_refl)).
      apply existsb_exists in Hrole as (r & Hr & E). apply String.eqb_eq in E.
      now exists r.
    + intros p Hp. specialize (Hperm p Hp).
      apply existsb_exists in Hperm as (x & Hx & E). apply String.eqb_eq in E.
      now exists x.
  - intros (Hnd & Hrole & Hperm). split; [split; [split; [assumption|]|]|].
    + intros a Ha. apply negb_true_iff, not_true_iff_false. intros E.
      apply existsb_exists in E as (x & Hx & E).
      apply filter_In in Hx as [_ Hx]. apply negb_true_iff, String.eqb_neq in Hx.
      unfold RoleService.same_pair in E. simpl in E.
      apply andb_prop in E as [E _]. apply String.eqb_eq in E. now destruct Hx.
    + intros a Ha. destruct Hrole as (r & Hr & E); [intros ->; destruct Ha|].
      apply existsb_exists. exists r. split; [assumption|]. now apply String.eqb_eq.
    + intros a Ha. destruct (Hperm a Ha) as (x & Hx & E).
      apply existsb_exists. exists x. split; [assumption|]. now apply String.eqb_eq.
Qed.

Lemma assignPermissions_spec (roleId : string) (permissionIds : list string)
    (w : World) :
  let r := RoleService.assignPermissions roleId permissionIds w in
  let kept := List.filter (fun rp => negb (String.eqb (rp_roleId rp) roleId))
                (rolePermissions (db w)) in
  let rows := map (fun p => {| rp_roleId := roleId; rp_permissionId := p |})
                permissionIds in
  (fst r = Ok tt
   <-> List.NoDup permissionIds
       /\ (permissionIds <> [] -> exists x, In x (roles (db w)) /\ role_id x = roleId)
       /\ (forall p, In p permissionIds ->
                     exists x, In x (permissions (db w)) /\ perm_id x = p))
  /\ (fst r = Ok tt -> rolePermissions (db (snd r)) = (kept ++ rows)%list)
  /\ (fst r <> Ok tt ->
      fst r = Err constraint_violation /\ rolePermissions (db (snd r)) = kept)
  /\ roles (db (snd r)) = roles (db w)
  /\ permissions (db (snd r)) = permissions (db w)
  /\ userRoles (db (snd r)) = userRoles (db w)
  /\ users (db (snd r)) = users (db w)
  /\ refreshTokens (db (snd r)) = refreshTokens (db w).
Proof.
  intros r kept rows. subst r.
  unfold RoleService.assignPermissions, bind, modify_db, get_db, throw, ret.
  destruct permissionIds as [|a l].
  - simpl. split; [|split; [|split]].
    + split; [intros _|reflexivity].
      split; [constructor|]. split; [intros H; now destruct H|intros p []].
    + intros _. subst kept rows. simpl. now rewrite app_nil_r.
    + intros H. now destruct H.
    + repeat split.
  - pose proof (rps_insertable_iff roleId (a :: l) (db w)) as Hiff.
    cbv zeta in Hiff. fold rows in Hiff.
    change (db (set_db (RoleService.set_rolePermissions
                          (List.filter (fun rp => negb (String.eqb (rp_roleId rp) roleId))))
                  w))
      with (RoleService.set_rolePermissions
              (List.filter (fun rp => negb (String.eqb (rp_roleId rp) roleId))) (db w)).
    fold rows.
    destruct (RoleService.rps_insertable _ rows) eqn:E; simpl.
    + split; [split; [intros _; now apply Hiff|reflexivity]|].
      split; [reflexivity|]. split; [intros H; now destruct H|]. repeat split.
    + split; [split; [discriminate|]|].
      * intros H. apply Hiff in H. discriminate.
      * split; [discriminate|]. split; [intros _; split; reflexivity|]. repeat split.
Qed.

End RolePermissions.

(** X26: [assignPermissions] replaces: on success [role_permissions]
    holds its old rows of the other roles, followed by one row per given
    id.  It succeeds exactly when the ids are pairwise distinct,
    every id is a permission's and, unless the list is empty, the role
    exists.  Otherwise the insert fails after the delete has happened, with
    no transaction around the two: the role is left with no permission at
    all.  No other table changes. *)
Theorem X26_assignPermissions_replaces (roleId : string) (permissionIds : list string)
    (w : World) :
  let r := RoleService.assignPermissions roleId permissionIds w in
  let kept :=
    List.filter (fun rp => negb (String.eqb (Schema.rp_roleId rp) roleId))
      (Schema.rolePermissions (db w)) in
  let rows :=
    map (fun p => {| Schema.rp_roleId := roleId; Schema.rp_permissionId := p |})
      permissionIds in
  (fst r = Ok tt
   <-> List.NoDup permissionIds
       /\ (permissionIds <> [] ->
           exists x, In x (Schema.roles (db w)) /\ Schema.role_id x = roleId)
       /\ (forall p, In p permissionIds ->
                     exists x, In x (Schema.permissions (db w)) /\ Schema.perm_id x = p))
  /\ (fst r = Ok tt -> Schema.rolePermissions (db (snd r)) = (kept ++ rows)%list)
  /\ (fst r <> Ok tt ->
      fst r = Err constraint_violation /\ Schema.rolePermissions (db (snd r)) = kept)
  /\ Schema.roles (db (snd r)) = Schema.roles (db w)
  /\ Schema.permissions (db (snd r)) = Schema.permissions (db w)
  /\ Schema.userRoles (db (snd r)) = Schema.userRoles (db w)
  /\ Schema.users (db (snd r)) = Schema.users (db w)
  /\ Schema.refreshTokens (db (snd r)) = Schema.refreshTokens (db w).
Proof. apply assignPermissions_spec. Qed.

(** A repeated id in the request strips the role of its permissions, and
    with them the users who hold the role. *)
Example duplicate_id_strips_the_role :
  let w' := snd (RoleService.assignPermissions "r-user" ["p1"; "p1"] Scenario.world0) in
  fst (RoleService.assignPermissions "r-user" ["p1"; "p1"] Scenario.world0)
  = Err constraint_violation
  /\ option_map UserService.uwr_permissions
       (match fst (UserService.findByIdWithRoles "u-alice" w') with
        | Ok o => o
        | Err _ => None
        end) = Some [].
Proof. split; vm_compute; reflexivity. Qed.

Section RoleNames.
Import Schema.

Lemma find_role_snoc (name : string) (l : list Role) (r : Role) :
  List.find (fun x => String.eqb (role_name x) name) l = None ->
  role_name r = name ->
  List.find (fun x => String.eqb (role_name x) name) (l ++ [r]) = Some r.
Proof.
  intros Hl Hr. induction l as [|x l IH]; simpl.
  - now rewrite Hr, String.eqb_refl.
  - simpl in Hl. destruct (String.eqb (role_name x) name); [discriminate|]. now apply IH.
Qed.

Lemma forallb_find_none (name : string) (l : list Role) :
  forallb (fun x => negb (String.eqb (role_name x) name)) l = true
  <-> List.find (fun x => String.eqb (role_name x) name) l = None.
Proof.
  induction l as [|x l IH]; simpl; [tauto|].
  destruct (String.eqb (role_name x) name); simpl; [split; discriminate|exact IH].
Qed.

Lemma nameExists_spec (name : string) (excludeId : option string) (w : World) :
  RoleService.nameExists name excludeId w
  = (Ok (match fst (RoleService.findByName name w) with
         | Ok (Some r) =>
             match excludeId with
             | Some (String a s) => negb (String.eqb (role_id r) (String a s))
             | _ => true
             end
         | _ => false
         end), w).
Proof.
  unfold RoleService.nameExists, RoleService.findByName, bind, get_db, ret. simpl.
  destruct excludeId as [[|a s]|]; destruct (List.find _ (roles (db w))); reflexivity.
Qed.

Lemma role_create_spec (name : string) (w : World) :
  let r := RoleService.create name w in
  (fst (RoleService.nameExists name None w) = Ok true ->
   fst r = Err constraint_violation /\ db (snd r) = db w)
  /\ (forall role w',
        r = (Ok role, w') ->
        role = {| role_id := hd EmptyString (uuids w); role_name := name |}
        /\ fst (RoleService.nameExists name None w) = Ok false
        /\ (forall x, In x (roles (db w)) -> role_id x <> role_id role)
        /\ roles (db w') = (roles (db w) ++ [role])%list
        /\ fst (RoleService.findByName name w') = Ok (Some role)
        /\ fst (RoleService.nameExists name None w') = Ok true
        /\ fst (RoleService.nameExists name (Some EmptyString) w') = Ok true
        /\ (forall a s, fst (RoleService.nameExists name (Some (String a s)) w')
                        = Ok (negb (String.eqb (role_id role) (String a s))))
        /\ fst (RoleService.create name w') = Err constraint_violation).
Proof.
  intros r. subst r. split.
  - rewrite nameExists_spec. unfold RoleService.findByName, bind, get_db, ret. simpl.
    destruct (List.find _ (roles (db w))) as [x|] eqn:E; [|discriminate]. intros _.
    unfold RoleService.create, bind, randomUUID, get_db, modify_db, throw, ret. simpl.
    unfold RoleService.role_insertable. simpl.
    replace (forallb (fun x => negb (String.eqb (role_name x) name)) (roles (db w)))
      with false; [rewrite andb_false_r; split; reflexivity|].
    symmetry. apply not_true_iff_false. intros H. apply forallb_find_none in H. congruence.
  - intros role w' H.
    unfold RoleService.create, bind, randomUUID, get_db, modify_db, throw, ret in H.
    simpl in H.
    destruct (RoleService.role_insertable _ _) eqn:E; [|discriminate].
    injection H as <- <-.
    unfold RoleService.role_insertable in E. simpl in E.
    apply andb_prop in E as [Eid Ename].
    apply forallb_find_none in Ename.
    assert (Hfind : List.find (fun x => String.eqb (role_name x) name)
                      (roles (db w) ++ [{| role_id := hd EmptyString (uuids w);
                                           role_name := name |}])
                    = Some {| role_id := hd EmptyString (uuids w); role_name := name |})
      by now apply find_role_snoc.
    split; [reflexivity|]. split.
    { rewrite nameExists_spec. unfold RoleService.findByName, bind, get_db, ret. simpl.
      now rewrite Ename. }
    split.
    { intros x Hx. rewrite forallb_forall in Eid. specialize (Eid x Hx).
      now apply negb_true_iff, String.eqb_neq in Eid. }
    split; [reflexivity|]. split.
    { unfold RoleService.findByName, bind, get_db, ret. simpl. now rewrite Hfind. }
    split.
    { rewrite nameExists_spec. unfold RoleService.findByName, bind, get_db, ret. simpl.
      now rewrite Hfind. }
    split.
    { rewrite nameExists_spec. unfold RoleService.findByName, bind, get_db, ret. simpl.
      now rewrite Hfind. }
    split.
    { intros a s. rewrite nameExists_spec.
      unfold RoleService.findByName, bind, get_db, ret. simpl. now rewrite Hfind. }
    unfold RoleService.create, bind, randomUUID, get_db, modify_db, throw, ret. simpl.
    unfold RoleService.role_insertable. simpl.
    replace (forallb (fun x => negb (String.eqb (role_name x) name))
               (roles (db w) ++ [{| role_id := hd EmptyString (uuids w);
                                    role_name := name |}]))
      with false; [now rewrite andb_false_r|].
    symmetry. apply not_true_iff_false. intros H. apply forallb_find_none in H. congruence.
Qed.

End RoleNames.

(** X27: [RoleService.create] fails with a constraint violation, writing
    nothing, whenever [nameExists(name)] is true.  When it succeeds the
    name was free and the new id unused; the role is appended;
    [findByName] then returns it; [nameExists(name)] is true, also with an
    empty [excludeId] (which JavaScript takes as absent); with a non-empty
    [excludeId] it is true exactly when that is not that role's id; and a
    second [create] of the name fails. *)
Theorem X27_role_names (name : string) (w : World) :
  let r := RoleService.create name w in
  (fst (RoleService.nameExists name None w) = Ok true ->
   fst r = Err constraint_violation /\ db (snd r) = db w)
  /\ (forall role w',
        r = (Ok role, w') ->
        role = {| Schema.role_id := hd EmptyString (uuids w); Schema.role_name := name |}
        /\ fst (RoleService.nameExists name None w) = Ok false
        /\ (forall x, In x (Schema.roles (db w)) ->
                      Schema.role_id x <> Schema.role_id role)
        /\ Schema.roles (db w') = (Schema.roles (db w) ++ [role])%list
        /\ fst (RoleService.findByName name w') = Ok (Some role)
        /\ fst (RoleService.nameExists name None w') = Ok true
        /\ fst (RoleService.nameExists name (Some EmptyString) w') = Ok true
        /\ (forall a s, fst (RoleService.nameExists name (Some (String a s)) w')
                        = Ok (negb (String.eqb (Schema.role_id role) (String a s))))
        /\ fst (RoleService.create name w') = Err constraint_violation).
Proof. apply role_create_spec. Qed.

Example create_role_editor :
  exists role w',
    RoleService.create "editor" Scenario.world0 = (Ok role, w')
    /\ fst (RoleService.nameExists "editor" (Some "id-1") w') = Ok false
    /\ fst (RoleService.nameExists "editor" (Some "r-user") w') = Ok true
    /\ fst (RoleService.create "admin" Scenario.world0) = Err constraint_violation.
Proof. eexists _, _. repeat split; vm_compute; reflexivity. Qed.

(** ** The role of a new account *)

Section DefaultRole.
Context {jwt : JwtLib} {hasher : PasswordHasher}.
Variable env : Env.
Import Schema.

Lemma role_names_of_users (f : list User -> list User) (d : Db) (u : string) :
  UserService.role_names_of (set_users f d) u = UserService.role_names_of d u.
Proof. reflexivity. Qed.

Lemma NoDup_map_eq {A} (f : A -> string) (l : list A) (x y : A) :
  List.NoDup (map f l) -> In x l -> In y l -> f x = f y -> x = y.
Proof.
  induction l as [|a l IH]; [intros _ []|].
  simpl. intros Hnd Hx Hy E. apply List.NoDup_cons_iff in Hnd as [Ha Hnd].
  destruct Hx as [->|Hx], Hy as [->|Hy].
  - reflexivity.
  - exfalso. apply Ha. rewrite E. now apply in_map.
  - exfalso. apply Ha. rewrite <- E. now apply in_map.
  - now apply IH.
Qed.

Lemma register_roles (data : UserService.NewUserData) (w w' : World)
    (res : AuthService.AuthResult) :
  AuthService.register env data w = (Ok res, w') ->
  (forall ur, In ur (userRoles (db w)) -> ur_userId ur <> hd EmptyString (uuids w)) ->
  forall n,
    In n (UserService.uwr_roles (AuthService.ar_user res))
    <-> exists d r,
          List.find (fun r => String.eqb (role_name r) "user") (roles (db w)) = Some d
          /\ In r (roles (db w)) /\ role_id r = role_id d /\ role_name r = n.
Proof.
  intros H Hfresh n. unfold AuthService.register in H.
  rewrite (bind_eq _ _ _ _ _ (emailExists_eq _ w)) in H.
  destruct (Registration.email_taken _ _); [discriminate|].
  rewrite (bind_eq _ _ _ _ _ (usernameExists_eq _ w)) in H.
  destruct (Registration.username_taken _ _); [discriminate|].
  apply bind_Ok_inv in H as (hashed & w1 & Hh & H).
  unfold AuthService.hashPassword, bind, draw_salt, ret in Hh.
  injection Hh as <- <-.
  apply bind_Ok_inv in H as (user & w2 & Hc & H).
  apply create_inv in Hc as (_ & -> & Hdb2). simpl in Hdb2, H.
  apply bind_Ok_inv in H as (d & w2' & Hg & H). injection Hg as <- <-.
  apply bind_Ok_inv in H as ([] & w3 & Ha & H).
  apply bind_Ok_inv in H as (found & w4 & Hf & H).
  destruct found as [userWithRoles|]; [|discriminate].
  apply bind_Ok_inv in H as (accessToken & w5 & _ & H).
  apply bind_Ok_inv in H as ([refreshToken expiresAt] & w6 & _ & H).
  apply bind_Ok_inv in H as ([] & w7 & _ & H).
  injection H as <- _. simpl.
  assert (Hroles : UserService.uwr_roles userWithRoles
                   = UserService.role_names_of (db w3) (hd EmptyString (uuids w))).
  { apply findByIdWithRoles_permissions. now rewrite Hf. }
  rewrite Hroles.
  assert (Hnone : UserService.role_names_of (db w2) (hd EmptyString (uuids w)) = []).
  { rewrite Hdb2, role_names_of_users. now apply role_names_of_none. }
  assert (Hr2 : roles (db w2) = roles (db w)) by now rewrite Hdb2.
  rewrite Hr2 in Ha.
  destruct (List.find _ (roles (db w))) as [defaultRole|] eqn:Hd.
  - apply assignRole_names in Ha as (Hnames & _). rewrite Hnames, Hnone, Hr2.
    split.
    + intros [[]|(_ & r & Hr & Hid & Hn)]. now exists defaultRole, r.
    + intros (d & r & [= <-] & Hr & Hid & Hn). right. split; [reflexivity|]. now exists r.
  - injection Ha as <-. rewrite Hnone. split; [intros []|].
    intros (d & r & Hd' & _). discriminate.
Qed.

Lemma register_default_role (data : UserService.NewUserData) (w w' : World)
    (res : AuthService.AuthResult) :
  AuthService.register env data w = (Ok res, w') ->
  (forall ur, In ur (userRoles (db w)) -> ur_userId ur <> hd EmptyString (uuids w)) ->
  List.NoDup (map role_id (roles (db w))) ->
  forall n,
    In n (UserService.uwr_roles (AuthService.ar_user res))
    <-> n = "user" /\ exists r, In r (roles (db w)) /\ role_name r = "user".
Proof.
  intros H Hfresh Hnd n. rewrite (register_roles data w w' res H Hfresh). split.
  - intros (d & r & Hd & Hr & Hid & Hn).
    apply find_some in Hd as [Hin E]. apply String.eqb_eq in E.
    assert (r = d) as -> by now apply (NoDup_map_eq role_id (roles (db w))).
    split; [congruence|]. now exists d.
  - intros (-> & r & Hr & Hn).
    destruct (List.find (fun r => String.eqb (role_name r) "user") (roles (db w)))
      as [d|] eqn:Hd.
    + exists d, d. split; [reflexivity|].
      apply find_some in Hd as [Hin E]. apply String.eqb_eq in E. auto.
    + apply (find_none _ _ Hd) in Hr. rewrite Hn in Hr. discriminate.
Qed.

End DefaultRole.

(** X28: a new account gets the role named "user" when such a role
    exists, and no role otherwise: with role ids distinct and no
    [user_roles] row for the fresh id, the roles in the result of a
    successful registration are "user" if the table has a role of that
    name, and none if it has not (the registration still succeeds). *)
Theorem X28_register_default_role {jwt : JwtLib} {hasher : PasswordHasher} (env : Env)
    (data : UserService.NewUserData) (w w' : World) (res : AuthService.AuthResult) :
  AuthService.register env data w = (Ok res, w') ->
  (forall ur, In ur (Schema.userRoles (db w)) ->
              Schema.ur_userId ur <> hd EmptyString (uuids w)) ->
  List.NoDup (map Schema.role_id (Schema.roles (db w))) ->
  forall n,
    In n (UserService.uwr_roles (AuthService.ar_user res))
    <-> n = "user"
        /\ exists r, In r (Schema.roles (db w)) /\ Schema.role_name r = "user".
Proof. apply register_default_role. Qed.

Lemma X28_register_default_role_witness :
  exists res w',
    Cases.register0 Cases.carol_data Scenario.world0 = (Ok res, w')
    /\ forall n,
         In n (UserService.uwr_roles (AuthService.ar_user res))
         <-> n = "user"
             /\ exists r, In r (Schema.roles (db Scenario.world0))
                          /\ Schema.role_name r = "user".
Proof.
  eexists _, _. split; [vm_compute; reflexivity|].
  eapply (X28_register_default_role (jwt := Reference.jwt) (hasher := Reference.hasher)
            Scenario.env0 Cases.carol_data Scenario.world0).
  - vm_compute. reflexivity.
  - intros ur Hin. simpl in Hin.
    destruct Hin as [<-|[<-|[]]]; simpl; discriminate.
  - simpl. repeat (constructor; [simpl; intuition discriminate|]). constructor.
Defined.

Example register_without_the_role :
  exists res w',
    Cases.register0 Cases.carol_data
      (snd (RoleService.delete "r-user"
              (snd (UserAdmin.removeRole "u-alice" "r-user" Scenario.world0))))
    = (Ok res, w')
    /\ UserService.uwr_roles (AuthService.ar_user res) = [].
Proof. eexists _, _. split; vm_compute; reflexivity. Qed.

(** ** Logout over HTTP, and the unused pair helper *)

Section LogoutRoute.
Context {jwt : JwtLib}.
Variable env : Env.
Import Schema.

Lemma logout_handler_spec (token : string) (w : World) :
  let r := Routes.logout_handler token w in
  fst r = AuthRoutes.successResponse "Successfully logged out" 200
  /\ (forall x, In x (refreshTokens (db (snd r)))
                <-> In x (refreshTokens (db w)) /\ rt_token x <> token)
  /\ ((forall x, In x (refreshTokens (db w)) -> rt_token x <> token) ->
      db (snd r) = db w)
  /\ (forall w2, refreshTokens (db w2) = refreshTokens (db (snd r)) ->
        fst (AuthRoutes.refresh_handler env token w2)
        = AuthRoutes.errorResponse "Invalid or expired refresh token" 401
            "REFRESH_FAILED").
Proof.
  intros r. subst r. unfold Routes.logout_handler.
  destruct (logout_spec env token w) as (Hok & Hrows & _ & _ & Href).
  destruct (AuthService.logout token w) as [[[]|msg] w1] eqn:E; [|discriminate].
  simpl in *. split; [reflexivity|]. split; [exact Hrows|]. split.
  - intros Hnone. unfold AuthService.logout, modify_db in E. injection E as <-.
    destruct w as [d c t u s]. destruct d. unfold set_db, set_refreshTokens. simpl in *.
    do 2 f_equal. apply filter_all.
    intros x Hx. apply negb_true_iff, String.eqb_neq. now apply Hnone.
  - intros w2 Hw2. unfold AuthRoutes.refresh_handler.
    specialize (Href w2 Hw2).
    destruct (AuthService.refresh env token w2) as [[res|m] w3]; simpl in Href;
      [discriminate|].
    now injection Href as ->.
Qed.

Lemma generateTokenPair_spec {laws : JwtLaws jwt} (userId email : string)
    (w w' : World) (pair : TokenHelpers.TokenPair) :
  TokenHelpers.generateTokenPair env userId email w = (Ok pair, w') ->
  0 <= next_reading w ->
  next_reading w / 1000 + TokenHelpers.tp_expiresIn pair <= Range.MAX_SAFE_INTEGER ->
  w' = tick (tick w)
  /\ (forall secret now p,
        jwt_verify (TokenHelpers.tp_accessToken pair) secret now = Some p ->
        Jwt.userId p = userId /\ Jwt.email p = Some email /\ Jwt.type p = "access"
        /\ Jwt.iat p = next_reading w / 1000
        /\ Jwt.exp p - Jwt.iat p = TokenHelpers.tp_expiresIn pair)
  /\ (forall secret now p,
        jwt_verify (TokenHelpers.tp_refreshToken pair) secret now = Some p ->
        Jwt.userId p = userId /\ Jwt.type p = "refresh"
        /\ Jwt.iat p = next_reading (tick w) / 1000)
  /\ ((forall x, In x (refreshTokens (db w)) ->
                 rt_token x <> TokenHelpers.tp_refreshToken pair) ->
      fst (AuthService.refresh env (TokenHelpers.tp_refreshToken pair) w')
      = Err "Invalid or expired refresh token").
Proof.
  intros H _ _. unfold TokenHelpers.generateTokenPair in H.
  apply bind_Ok_inv in H as (accessToken & w1 & Hacc & H).
  apply bind_Ok_inv in H as ([refreshToken expiresAt] & w2 & Href & H).
  apply generateAccessToken_inv in Hacc as (da & Hda & -> & ->).
  apply generateRefreshToken_inv in Href as (dr & Hdr & -> & _ & ->).
  unfold bind, lift_result, ret in H. rewrite Hda in H. injection H as <- <-. simpl.
  split; [reflexivity|]. split; [|split].
  - intros secret now p Hv. apply jwt_verify_sound in Hv. subst p. simpl.
    repeat split. lia.
  - intros secret now p Hv. apply jwt_verify_sound in Hv. subst p. simpl. now repeat split.
  - intros Hnone. now apply refresh_no_row.
Qed.

End LogoutRoute.

(** X29: POST /auth/logout asks for no authentication: for every body
    its validator admits (a non-empty [refreshToken]) it answers 200,
    whether or not a row holds the token.  It deletes the rows holding
    that string, which may be none (the database is then unchanged), and
    afterwards POST /auth/refresh with that token answers 401
    REFRESH_FAILED. *)
Theorem X29_logout_handler {jwt : JwtLib} (env : Env) (token : string) (w : World) :
  token <> EmptyString ->
  let r := Routes.logout_handler token w in
  fst r = AuthRoutes.successResponse "Successfully logged out" 200
  /\ (forall x, In x (Schema.refreshTokens (db (snd r)))
                <-> In x (Schema.refreshTokens (db w)) /\ Schema.rt_token x <> token)
  /\ ((forall x, In x (Schema.refreshTokens (db w)) -> Schema.rt_token x <> token) ->
      db (snd r) = db w)
  /\ (forall w2, Schema.refreshTokens (db w2) = Schema.refreshTokens (db (snd r)) ->
        fst (AuthRoutes.refresh_handler env token w2)
        = AuthRoutes.errorResponse "Invalid or expired refresh token" 401
            "REFRESH_FAILED").
Proof. intros _. apply logout_handler_spec. Qed.

(** Alice logs in, and her refresh token is posted to /auth/logout. *)
Lemma X29_logout_handler_witness :
  exists r1 w1,
    Scenario.login_alice Scenario.world0 = (Ok r1, w1)
    /\ let r := Routes.logout_handler (AuthService.ar_refreshToken r1) w1 in
       Schema.refreshTokens (db w1) <> []
       /\ Schema.refreshTokens (db (snd r)) = []
       /\ fst r = AuthRoutes.successResponse "Successfully logged out" 200
       /\ fst (AuthRoutes.refresh_handler (jwt := Reference.jwt) Scenario.env0
                 (AuthService.ar_refreshToken r1) (snd r))
          = AuthRoutes.errorResponse "Invalid or expired refresh token" 401
              "REFRESH_FAILED".
Proof.
  do 2 eexists. split; [vm_compute; reflexivity|].
  split; [vm_compute; discriminate|]. split; [vm_compute; reflexivity|].
  match goal with
  | |- fst (Routes.logout_handler ?t ?w) = _ /\ _ =>
      destruct (X29_logout_handler (jwt := Reference.jwt) Scenario.env0 t w
                  ltac:(vm_compute; discriminate)) as (Hok & _ & _ & Href)
  end.
  split; [exact Hok|]. apply Href. reflexivity.
Defined.

(** X30: [generateTokenPair] signs the access token at its first clock
    reading and the refresh token at its second, for the given user, and
    reports as [expiresIn] the access token's lifetime [exp - iat] (for a
    clock not before the epoch and an expiry within [MAX_SAFE_INTEGER],
    where the sums of the source are exact); it reads the clock twice and
    writes nothing, so unlike the tokens of login, register and refresh,
    its refresh token has no row: [refresh] refuses it unless the table
    already held that string. *)
Theorem X30_generateTokenPair {jwt : JwtLib} {laws : JwtLaws jwt} (env : Env)
    (userId email : string) (w w' : World) (pair : TokenHelpers.TokenPair) :
  TokenHelpers.generateTokenPair env userId email w = (Ok pair, w') ->
  0 <= next_reading w ->
  next_reading w / 1000 + TokenHelpers.tp_expiresIn pair <= Range.MAX_SAFE_INTEGER ->
  w' = tick (tick w)
  /\ (forall secret now p,
        jwt_verify (TokenHelpers.tp_accessToken pair) secret now = Some p ->
        Jwt.userId p = userId /\ Jwt.email p = Some email /\ Jwt.type p = "access"
        /\ Jwt.iat p = next_reading w / 1000
        /\ Jwt.exp p - Jwt.iat p = TokenHelpers.tp_expiresIn pair)
  /\ (forall secret now p,
        jwt_verify (TokenHelpers.tp_refreshToken pair) secret now = Some p ->
        Jwt.userId p = userId /\ Jwt.type p = "refresh"
        /\ Jwt.iat p = next_reading (tick w) / 1000)
  /\ ((forall x, In x (Schema.refreshTokens (db w)) ->
                 Schema.rt_token x <> TokenHelpers.tp_refreshToken pair) ->
      fst (AuthService.refresh env (TokenHelpers.tp_refreshToken pair) w')
      = Err "Invalid or expired refresh token").
Proof. apply (generateTokenPair_spec env). Qed.

Lemma X30_generateTokenPair_witness :
  exists pair,
    TokenHelpers.generateTokenPair (jwt := Reference.jwt) Scenario.env0 "u-alice"
      "alice@example.com" Scenario.world0
    = (Ok pair, tick (tick Scenario.world0))
    /\ TokenHelpers.tp_expiresIn pair = 900
    /\ (forall p,
          Reference.verify (TokenHelpers.tp_accessToken pair)
            (JwtUtil.getJwtSecret Scenario.env0) 1700000001 = Some p ->
          Jwt.exp p - Jwt.iat p = TokenHelpers.tp_expiresIn pair)
    /\ fst (Scenario.refresh0 (TokenHelpers.tp_refreshToken pair)
              (tick (tick Scenario.world0)))
       = Err "Invalid or expired refresh token".
Proof.
  eexists. split; [vm_compute; reflexivity|]. split; [reflexivity|].
  match goal with
  | |- (forall p, Reference.verify (TokenHelpers.tp_accessToken ?pair) _ _ = _ -> _) /\ _ =>
      destruct (X30_generateTokenPair (jwt := Reference.jwt) (laws := jwt_laws)
                  Scenario.env0 "u-alice" "alice@example.com" Scenario.world0
                  (tick (tick Scenario.world0)) pair eq_refl
                  ltac:(vm_compute; discriminate) ltac:(vm_compute; discriminate))
        as (_ & Hacc & _ & Href)
  end.
  split.
  - intros p Hp. now apply (Hacc _ _ p Hp).
  - apply Href. intros x [].
Defined.
